(** * The replication backup store of cyrus-imapd: backup/api.c and backup/indexr.c

    A shallow embedding of the backup store engine (open and validate, append
    sessions, reindex, typed readers over the index) together with the
    properties of its natural-language specification.

    Conventions.  C integers are [Z]; [sqlite3_column_int] keeps the low 32
    bits of a column and that wrap-around is written out in [_column_int].
    File contents are [list byte], C strings are [string].  A [NULL] pointer
    result is [None].  [fatal()] and a failed [assert()] end the process and
    are the [Fatal] outcome of the [res] monad. *)

From Stdlib Require Import ZArith Ascii String Strings.Byte.
From stdpp Require Import base gmap strings list sorting pretty.

Local Open Scope Z_scope.

Abbreviation bytes := (list byte).

Definition bytes_of (s : string) : bytes := String.list_byte_of_string s.

(** * Outcomes: a value, or the end of the process *)

Inductive res (A : Type) : Type :=
| Ret (a : A)
| Fatal (msg : string) (code : Z).
Arguments Ret {A} a.
Arguments Fatal {A} msg code.

#[global] Instance res_ret : MRet res := fun A a => Ret a.
#[global] Instance res_bind : MBind res := fun A B k m =>
  match m with
  | Ret a => k a
  | Fatal msg code => Fatal msg code
  end.

(** exit codes of lib/exitcodes.h (sysexits) used by [fatal] *)
Definition EC_DATAERR : Z := 65.
Definition EC_SOFTWARE : Z := 70.
Definition EC_IOERR : Z := 74.
Definition EC_TEMPFAIL : Z := 75.

(** [assert(e)]: abort the process when [e] is false *)
Definition assert (e : bool) (what : string) : res unit :=
  if e then Ret tt else Fatal what 134.

(** * SHA-1 (lib/xsha1.h, FIPS 180-4) and bin_to_hex

    The digest library is outside the repository; it is written out here so
    that the checksums of the model are the ones the program computes. *)

Module SHA1.

Definition w32 (x : Z) : Z := x mod 2^32.
Definition rotl (n x : Z) : Z :=
  w32 (Z.lor (Z.shiftl x n) (Z.shiftr x (32 - n))).
Definition add32 (x y : Z) : Z := w32 (x + y).
Definition not32 (x : Z) : Z := 2^32 - 1 - x.

Definition byteZ (b : byte) : Z := Z.of_N (Byte.to_N b).
Definition Zbyte (z : Z) : byte :=
  match Byte.of_N (Z.to_N (z mod 256)) with Some b => b | None => x00 end.

(** big-endian words of a block *)
Fixpoint words (l : bytes) : list Z :=
  match l with
  | a :: b :: c :: d :: r =>
      (byteZ a * 2^24 + byteZ b * 2^16 + byteZ c * 2^8 + byteZ d) :: words r
  | _ => []
  end.

Definition be64 (n : Z) : bytes :=
  map (fun i => Zbyte (Z.shiftr n (8 * i))) [7; 6; 5; 4; 3; 2; 1; 0].

Definition pad (m : bytes) : bytes :=
  let len := Z.of_nat (length m) in
  let k := (55 - len) mod 64 in
  m ++ [x80] ++ replicate (Z.to_nat k) x00 ++ be64 (8 * len).

(** the message schedule, most recent word first *)
Fixpoint schedule (n : nat) (w : list Z) : list Z :=
  match n with
  | O => w
  | S n' =>
      let x := Z.lxor (Z.lxor (nth 2 w 0) (nth 7 w 0))
                      (Z.lxor (nth 13 w 0) (nth 15 w 0)) in
      schedule n' (rotl 1 x :: w)
  end.

Definition f (t b c d : Z) : Z :=
  if t <? 20 then Z.lor (Z.land b c) (Z.land (not32 b) d)
  else if t <? 40 then Z.lxor (Z.lxor b c) d
  else if t <? 60 then Z.lor (Z.lor (Z.land b c) (Z.land b d)) (Z.land c d)
  else Z.lxor (Z.lxor b c) d.

Definition K (t : Z) : Z :=
  if t <? 20 then 0x5A827999
  else if t <? 40 then 0x6ED9EBA1
  else if t <? 60 then 0x8F1BBCDC
  else 0xCA62C1D6.

Definition state : Type := Z * Z * Z * Z * Z.

Definition round (s : state) (tw : Z * Z) : state :=
  let '(a, b, c, d, e) := s in
  let '(t, w) := tw in
  let tmp := add32 (add32 (add32 (add32 (rotl 5 a) (f t b c d)) e) (K t)) w in
  (tmp, a, rotl 30 b, c, d).

Definition block (h : state) (blk : bytes) : state :=
  let w := rev (schedule 64 (rev (words blk))) in
  let '(a, b, c, d, e) :=
    fold_left round (combine (map Z.of_nat (seq 0 80)) w) h in
  let '(h0, h1, h2, h3, h4) := h in
  (add32 h0 a, add32 h1 b, add32 h2 c, add32 h3 d, add32 h4 e).

Fixpoint blocks (n : nat) (h : state) (m : bytes) : state :=
  match n with
  | O => h
  | S n' => blocks n' (block h (firstn 64 m)) (skipn 64 m)
  end.

Definition init : state :=
  (0x67452301, 0xEFCDAB89, 0x98BADCFE, 0x10325476, 0xC3D2E1F0).

Definition be32 (x : Z) : bytes :=
  map (fun i => Zbyte (Z.shiftr x (8 * i))) [3; 2; 1; 0].

(** [xsha1]: the 20 raw bytes of the digest *)
Definition xsha1 (m : bytes) : bytes :=
  let p := pad m in
  let '(h0, h1, h2, h3, h4) := blocks (length p / 64)%nat init p in
  be32 h0 ++ be32 h1 ++ be32 h2 ++ be32 h3 ++ be32 h4.

Definition hexdigit (n : Z) : ascii :=
  match String.get (Z.to_nat n) "0123456789abcdef" with
  | Some c => c
  | None => "0"%char
  end.

(** [bin_to_hex(.., BH_LOWER)] *)
Fixpoint bin_to_hex (l : bytes) : string :=
  match l with
  | [] => EmptyString
  | b :: r =>
      String (hexdigit (byteZ b / 16))
        (String (hexdigit (byteZ b mod 16)) (bin_to_hex r))
  end.

End SHA1.

Definition SHA1_DIGEST_LENGTH : Z := 20.

(** the lower-case hexadecimal digest of a byte sequence *)
Definition sha1_hex (m : bytes) : string := SHA1.bin_to_hex (SHA1.xsha1 m).


(** * The index database: lib/sqldb.h over SQLite *)

(** a column value of the current row of a prepared statement *)
Inductive sqlval : Type :=
| VNull
| VInt (i : Z)
| VText (s : string).

#[global] Instance sqlval_eq_dec : EqDecision sqlval.
Proof. solve_decision. Defined.

(** [sqlite3_stmt] positioned on a row: its columns, from column 0 *)
Abbreviation row := (list sqlval).

(** [struct sqldb_bindval]: named values bound to a statement *)
Abbreviation bindvals := (list (string * sqlval)).

Fixpoint bind_get (name : string) (bval : bindvals) : sqlval :=
  match bval with
  | [] => VNull
  | (n, v) :: rest => if String.eqb n name then v else bind_get name rest
  end.

(** The tables of the index, rows in rowid order.  Columns:
    - chunk: id, ts_start, ts_end, offset, length, file_sha1, data_sha1
    - mailbox: id, last_chunk_id, uniqueid, mboxname, mboxtype, last_uid,
      highestmodseq, recentuid, recenttime, last_appenddate, pop3_last_login,
      pop3_show_after, uidvalidity, partition, acl, options, sync_crc,
      sync_crc_annot, quotaroot, xconvmodseq, annotations, deleted
    - message: id, guid, partition, chunk_id, offset, length
    - mailbox_message, as its select statements deliver it: id, mailbox_id,
      mailbox_uniqueid, message_id, last_chunk_id, uid, modseq, last_updated,
      flags, internaldate, guid, size, annotations, expunged *)
Record tables : Type := {
  t_chunk : list row;
  t_mailbox : list row;
  t_message : list row;
  t_mailbox_message : list row;
}.

Definition empty_tables : tables :=
  {| t_chunk := []; t_mailbox := []; t_message := []; t_mailbox_message := [] |}.

Definition set_chunk (t : tables) (rows : list row) : tables :=
  {| t_chunk := rows; t_mailbox := t_mailbox t; t_message := t_message t;
     t_mailbox_message := t_mailbox_message t |}.

Definition col (i : nat) (r : row) : sqlval := nth i r VNull.

(** SQL equality of a column and a bound value: NULL equals nothing *)
Definition sql_eq (a b : sqlval) : bool :=
  match a, b with
  | VInt x, VInt y => x =? y
  | VText s, VText t => String.eqb s t
  | _, _ => false
  end.

Definition where_eq (i : nat) (v : sqlval) (rows : list row) : list row :=
  List.filter (fun r => sql_eq (col i r) v) rows.

Definition row_id (r : row) : Z :=
  match col 0 r with VInt i => i | _ => 0 end.

(** the row with the greatest id *)
Fixpoint latest (rows : list row) : option row :=
  match rows with
  | [] => None
  | r :: rest =>
      match latest rest with
      | Some r' => if row_id r <? row_id r' then Some r' else Some r
      | None => Some r
      end
  end.

(** the rowid SQLite gives to the next inserted row *)
Definition next_id (rows : list row) : Z :=
  1 + fold_right Z.max 0 (map row_id rows).

(** the statements of backup/sqlconsts.h used by api.c and indexr.c *)
Inductive sql : Type :=
| backup_index_start_sql
| backup_index_end_sql
| backup_index_backup_select_latest_sql
| backup_index_chunk_select_all_sql
| backup_index_chunk_select_latest_sql
| backup_index_mailbox_select_all_sql
| backup_index_mailbox_select_chunkid_sql
| backup_index_mailbox_select_mboxname_sql
| backup_index_mailbox_select_uniqueid_sql
| backup_index_mailbox_message_select_all_sql
| backup_index_mailbox_message_select_chunkid_sql
| backup_index_mailbox_message_select_mailbox_sql
| backup_index_message_select_all_sql
| backup_index_message_select_chunkid_sql
| backup_index_message_select_guid_sql.

(** the columns the validation of api.c reads from the latest chunk:
    id, timestamp, offset, length, file_sha1, data_sha1 *)
Definition validate_columns (r : row) : row :=
  [col 0 r; col 1 r; col 3 r; col 4 r; col 5 r; col 6 r].

(** Modelled from the spec: the texts of the statements (backup/sqlconsts.c)
    are not under src/.  A select-all statement has no filter and yields the
    table in rowid order; a chunkid, mailbox, mboxname, uniqueid or guid
    statement keeps the rows whose column equals the bound value (spec 4.H:
    "only mailboxes whose last_chunk_id == chunk_id"); a latest statement
    yields the row with the greatest id (spec 4.F step 4). *)
Definition sql_rows (cmd : sql) (bval : bindvals) (t : tables) : list row :=
  match cmd with
  | backup_index_start_sql => []
  | backup_index_end_sql => []
  | backup_index_backup_select_latest_sql =>
      option_list (validate_columns <$> latest (t_chunk t))
  | backup_index_chunk_select_all_sql => t_chunk t
  | backup_index_chunk_select_latest_sql => option_list (latest (t_chunk t))
  | backup_index_mailbox_select_all_sql => t_mailbox t
  | backup_index_mailbox_select_chunkid_sql =>
      where_eq 1 (bind_get ":last_chunk_id" bval) (t_mailbox t)
  | backup_index_mailbox_select_mboxname_sql =>
      where_eq 3 (bind_get ":mboxname" bval) (t_mailbox t)
  | backup_index_mailbox_select_uniqueid_sql =>
      where_eq 2 (bind_get ":uniqueid" bval) (t_mailbox t)
  | backup_index_mailbox_message_select_all_sql => t_mailbox_message t
  | backup_index_mailbox_message_select_chunkid_sql =>
      where_eq 4 (bind_get ":last_chunk_id" bval) (t_mailbox_message t)
  | backup_index_mailbox_message_select_mailbox_sql =>
      where_eq 1 (bind_get ":mailbox_id" bval) (t_mailbox_message t)
  | backup_index_message_select_all_sql => t_message t
  | backup_index_message_select_chunkid_sql =>
      where_eq 3 (bind_get ":chunk_id" bval) (t_message t)
  | backup_index_message_select_guid_sql =>
      where_eq 1 (bind_get ":guid" bval) (t_message t)
  end.

(** [UPDATE chunk SET length, data_sha1 WHERE id = :id] on one row *)
Definition end_row (bval : bindvals) (r : row) : row :=
  if sql_eq (col 0 r) (bind_get ":id" bval)
  then [col 0 r; col 1 r; col 2 r; col 3 r;
        bind_get ":length" bval; col 5 r; bind_get ":data_sha1" bval]
  else r.

(** Modelled from the spec: what the two writing statements of api.c do
    (spec 4.E: "Insert a chunk row with (ts, offset, file_sha1, NULL length,
    NULL data_sha1)"; "update the chunk row with (length := wrote_bytes,
    data_sha1)").  Neither binds ts_end, which stays NULL. *)
Definition sql_write (cmd : sql) (bval : bindvals) (t : tables) : tables :=
  match cmd with
  | backup_index_start_sql =>
      set_chunk t
        (t_chunk t ++
           [[VInt (next_id (t_chunk t)); bind_get ":timestamp" bval; VNull;
             bind_get ":offset" bval; VNull; bind_get ":file_sha1" bval; VNull]])
  | backup_index_end_sql => set_chunk t (map (end_row bval) (t_chunk t))
  | _ => t
  end.

(** [sqldb_t]: an open index.  [db_tables] is what statements see, changes
    of an open transaction included; [db_savepoint] is the state a rollback
    returns to.  [db_step_rc] and [db_close_rc] are what the engine answers
    to [sqlite3_step] once the rows are through (0 for SQLITE_DONE) and to
    closing the database. *)
Record sqldb : Type := {
  db_fname : string;
  db_tables : tables;
  db_savepoint : option tables;
  db_lastid : Z;
  db_step_rc : Z;
  db_close_rc : Z;
}.

Definition set_tables (d : sqldb) (t : tables) (lastid : Z) : sqldb :=
  {| db_fname := db_fname d; db_tables := t; db_savepoint := db_savepoint d;
     db_lastid := lastid; db_step_rc := db_step_rc d;
     db_close_rc := db_close_rc d |}.

Definition set_savepoint (d : sqldb) (t : tables) (sp : option tables) : sqldb :=
  {| db_fname := db_fname d; db_tables := t; db_savepoint := sp;
     db_lastid := db_lastid d; db_step_rc := db_step_rc d;
     db_close_rc := db_close_rc d |}.

(** a row callback [int cb(sqlite3_stmt *stmt, void *rock)] over rock [S] *)
Definition sqldb_cb (S : Type) : Type := row -> S -> res (Z * S).

(** the loop of [sqldb_exec]: every row goes to the callback until one
    answers non-zero *)
Fixpoint exec_rows {S} (cb : sqldb_cb S) (rows : list row) (rock : S)
  : res (Z * S) :=
  match rows with
  | [] => Ret (0, rock)
  | r :: rest =>
      '(rc, rock') ← cb r rock;
      if rc =? 0 then exec_rows cb rest rock' else Ret (rc, rock')
  end.

(** [sqldb_exec]: a failing engine answers -1 and nothing is read or
    written; without a callback the rows are stepped over *)
Definition sqldb_exec {S} (d : sqldb) (cmd : sql) (bval : bindvals)
    (cb : option (sqldb_cb S)) (rock : S) : res (Z * S * sqldb) :=
  if db_step_rc d =? 0 then
    let t' := sql_write cmd bval (db_tables d) in
    let d' :=
      match cmd with
      | backup_index_start_sql => set_tables d t' (next_id (t_chunk (db_tables d)))
      | _ => set_tables d t' (db_lastid d)
      end in
    match cb with
    | Some f =>
        '(rc, rock') ← exec_rows f (sql_rows cmd bval (db_tables d)) rock;
        Ret (rc, rock', d')
    | None => Ret (0, rock, d')
    end
  else Ret (-1, rock, d).

Definition sqldb_lastid (d : sqldb) : Z := db_lastid d.

(** [sqldb_begin]: open the named savepoint *)
Definition sqldb_begin (d : sqldb) (name : string) : sqldb :=
  set_savepoint d (db_tables d) (Some (db_tables d)).

(** [sqldb_rollback]: back to the savepoint, which is released *)
Definition sqldb_rollback (d : sqldb) (name : string) : sqldb :=
  match db_savepoint d with
  | Some t => set_savepoint d t None
  | None => d
  end.

(** [sqldb_commit]: release the savepoint and keep the changes *)
Definition sqldb_commit (d : sqldb) (name : string) : sqldb :=
  set_savepoint d (db_tables d) None.

(** ** Typed column access (api.c 488-504) *)

Definition wrap32 (z : Z) : Z := (z + 2^31) mod 2^32 - 2^31.

Definition _column_int (stmt : row) (column : nat) : res Z :=
  match col column stmt with
  | VInt i => Ret (wrap32 i)
  | _ => Fatal "sqlite3_column_type(stmt, column) == SQLITE_INTEGER" 134
  end.

Definition _column_int64 (stmt : row) (column : nat) : res Z :=
  match col column stmt with
  | VInt i => Ret i
  | _ => Fatal "sqlite3_column_type(stmt, column) == SQLITE_INTEGER" 134
  end.

Definition _column_text (stmt : row) (column : nat) : res string :=
  match col column stmt with
  | VText s => Ret s
  | _ => Fatal "sqlite3_column_type(stmt, column) == SQLITE_TEXT" 134
  end.


(** * The log file and the handles of backup/internal.h *)

(** Modelled from the spec: imap/dlist.c is not under src/.  A dlist is
    opaque to the store but for its name, which reindex upper-cases; it
    prints, keys included, as its name, a space and its value (spec 6:
    "opaque to the core except for its framing by \r\n"). *)
Record dlist : Type := {
  dl_name : string;
  dl_value : bytes;
}.

Definition dlist_printbuf (dl : dlist) : bytes :=
  bytes_of (dl_name dl) ++ bytes_of " " ++ dl_value dl.

Definition toupper (c : ascii) : ascii :=
  let n := nat_of_ascii c in
  if ((97 <=? n) && (n <=? 122))%nat then ascii_of_nat (n - 32) else c.

Fixpoint ucase (s : string) : string :=
  match s with
  | EmptyString => EmptyString
  | String c r => String (toupper c) (ucase r)
  end.

Definition ucase_name (dl : dlist) : dlist :=
  {| dl_name := ucase (dl_name dl); dl_value := dl_value dl |}.

Definition CRLF : bytes := [x0d; x0a].

(** [%ld] of an [int64_t] *)
Definition decimal (z : Z) : bytes := bytes_of (pretty z).

(** A line of a decoded member, as the protocol reader (lib/prot.c,
    imap/imapparse.c: not under src/) takes it apart: a comment line, which
    starts with '#' and runs through its newline, or a command line
    [<ts> <word> <dlist>\r\n]. *)
Inductive log_line : Type :=
| Comment (text : bytes)
| Command (ts : Z) (cmd : string) (dl : dlist).

Definition line_bytes (l : log_line) : bytes :=
  match l with
  | Comment text => text
  | Command ts cmd dl =>
      decimal ts ++ bytes_of " " ++ bytes_of cmd ++ bytes_of " "
        ++ dlist_printbuf dl ++ CRLF
  end.

(** one compressed member of the log: its raw bytes and the lines they
    decode to *)
Record member : Type := {
  m_raw : bytes;
  m_lines : list log_line;
}.

(** the decoded bytes of a member *)
Definition m_data (m : member) : bytes := flat_map line_bytes (m_lines m).

(** the raw bytes of a log *)
Definition raw_bytes (ms : list member) : bytes := flat_map m_raw ms.

(** A file is a log (a concatenation of members; no member: an empty file)
    or an index database with its schema. *)
Inductive fobj : Type :=
| FData (ms : list member)
| FIndex (t : tables).

(** [st_size]; of an index only its being non-zero is observed *)
Definition st_size (f : fobj) : Z :=
  match f with
  | FData ms => Z.of_nat (length (raw_bytes ms))
  | FIndex _ => 4096
  end.

Definition members_of (f : option fobj) : list member :=
  match f with
  | Some (FData ms) => ms
  | _ => []
  end.

Definition ENOENT : Z := 2.

(** what the process sees of its host: the files by path, [errno], the
    clock read by [time(0)], the messages given to [syslog], the directory
    of backups (a cyrusdb: userid to log path), the configured
    backup_data_path, the name [mkstemp] makes of a template, and what the
    SQLite engine answers to a step past the last row and to closing a
    database (0 when all is well) *)
Record world : Type := {
  w_fs : gmap string fobj;
  w_errno : Z;
  w_time : Z;
  w_syslog : list string;
  w_backups_db : gmap string string;
  w_backup_data_path : option string;
  w_mkstemp : string -> option string;
  w_db_step_rc : Z;
  w_db_close_rc : Z;
}.

Definition set_fs (w : world) (fs : gmap string fobj) : world :=
  {| w_fs := fs; w_errno := w_errno w; w_time := w_time w;
     w_syslog := w_syslog w; w_backups_db := w_backups_db w;
     w_backup_data_path := w_backup_data_path w; w_mkstemp := w_mkstemp w;
     w_db_step_rc := w_db_step_rc w; w_db_close_rc := w_db_close_rc w |}.

Definition set_errno (w : world) (e : Z) : world :=
  {| w_fs := w_fs w; w_errno := e; w_time := w_time w;
     w_syslog := w_syslog w; w_backups_db := w_backups_db w;
     w_backup_data_path := w_backup_data_path w; w_mkstemp := w_mkstemp w;
     w_db_step_rc := w_db_step_rc w; w_db_close_rc := w_db_close_rc w |}.

Definition syslog (w : world) (msg : string) : world :=
  {| w_fs := w_fs w; w_errno := w_errno w; w_time := w_time w;
     w_syslog := w_syslog w ++ [msg]; w_backups_db := w_backups_db w;
     w_backup_data_path := w_backup_data_path w; w_mkstemp := w_mkstemp w;
     w_db_step_rc := w_db_step_rc w; w_db_close_rc := w_db_close_rc w |}.

Definition set_backups_db (w : world) (dir : gmap string string) : world :=
  {| w_fs := w_fs w; w_errno := w_errno w; w_time := w_time w;
     w_syslog := w_syslog w; w_backups_db := dir;
     w_backup_data_path := w_backup_data_path w; w_mkstemp := w_mkstemp w;
     w_db_step_rc := w_db_step_rc w; w_db_close_rc := w_db_close_rc w |}.

(** [rename(2)]: a missing source fails with ENOENT *)
Definition rename (old new : string) (w : world) : Z * world :=
  match w_fs w !! old with
  | Some f => (0, set_fs w (<[new := f]> (delete old (w_fs w))))
  | None => (-1, set_errno w ENOENT)
  end.

(** [stat(2)]: the size of the file, or ENOENT *)
Definition stat (path : string) (w : world) : Z * option Z * world :=
  match w_fs w !! path with
  | Some f => (0, Some (st_size f), w)
  | None => (-1, None, set_errno w ENOENT)
  end.

(** [gzFile] opened for appending on a duplicate of the log descriptor:
    the lines taken by [gzwrite] and not yet flushed, the lines of its
    member that are in the file, and the error state of the stream *)
Record gzFile : Type := {
  gz_fname : string;
  gz_pending : list log_line;
  gz_flushed : list log_line;
  gz_started : bool;
  gz_errnum : Z;
}.

Definition Z_OK : Z := 0.
Definition Z_ERRNO : Z := -1.
Definition Z_STREAM_ERROR : Z := -2.
Definition Z_MEM_ERROR : Z := -4.

(** the flags of [backup_append_state.mode]; internal.h is not under src/,
    the flags are taken as the two low bits *)
Definition BACKUP_APPEND_INDEXONLY : Z := 1.
Definition BACKUP_APPEND_NOFLUSH : Z := 2.

(** [struct backup_append_state]; [sha_ctx] is the bytes the SHA-1 context
    has taken so far.  internal.h is not under src/: [index_id] is taken as
    an [int], as every chunk id the code holds is ([struct backup_meta],
    the [chunk_id] parameters), so that it keeps a row id cut to 32 bits. *)
Record backup_append_state : Type := {
  mode : Z;
  gzfile : option gzFile;
  index_id : Z;
  wrote : Z;
  sha_ctx : bytes;
}.

(** [struct backup] *)
Record backup : Type := {
  fd : Z;
  data_fname : string;
  index_fname : string;
  oldindex_fname : option string;
  db : option sqldb;
  append_state : option backup_append_state;
}.

Definition set_db (b : backup) (d : option sqldb) : backup :=
  {| fd := fd b; data_fname := data_fname b; index_fname := index_fname b;
     oldindex_fname := oldindex_fname b; db := d;
     append_state := append_state b |}.

Definition set_append_state (b : backup) (st : option backup_append_state)
  : backup :=
  {| fd := fd b; data_fname := data_fname b; index_fname := index_fname b;
     oldindex_fname := oldindex_fname b; db := db b; append_state := st |}.

(** [backup->db] of a handle whose index is not open is a null pointer *)
Definition the_db (b : backup) : res sqldb :=
  match db b with
  | Some d => Ret d
  | None => Fatal "null index handle" 139
  end.


(** * The readers: backup/indexr.c *)

(** Modelled from the spec: imap/message_guid.c is not under src/.  A guid
    is kept as its 40-digit hexadecimal encoding, which
    [message_guid_decode] accepts and [message_guid_encode] gives back
    (spec 8: [message_guid_decode(message_guid_encode(g)) == g]). *)
Inductive message_guid : Type :=
| GuidNull
| Guid (hex : string).

Definition is_hexdigit (c : ascii) : bool :=
  let n := nat_of_ascii c in
  (((48 <=? n) && (n <=? 57)) || ((97 <=? n) && (n <=? 102))
   || ((65 <=? n) && (n <=? 70)))%nat.

Fixpoint all_hex (s : string) : bool :=
  match s with
  | EmptyString => true
  | String c r => is_hexdigit c && all_hex r
  end.

Definition message_guid_decode (s : string) : option message_guid :=
  if ((String.length s =? 40)%nat && all_hex s)%bool then Some (Guid s) else None.

Definition message_guid_encode (g : message_guid) : sqlval :=
  match g with
  | Guid hex => VText hex
  | GuidNull => VNull
  end.

Record backup_chunk : Type := {
  c_id : Z;
  c_ts_start : Z;
  c_ts_end : Z;
  c_offset : Z;
  c_length : Z;
  c_file_sha1 : string;
  c_data_sha1 : string;
}.

Record backup_mailbox_message : Type := {
  mm_id : Z;
  mm_mailbox_id : Z;
  mm_mailbox_uniqueid : string;
  mm_message_id : Z;
  mm_last_chunk_id : Z;
  mm_uid : Z;
  mm_modseq : Z;
  mm_last_updated : Z;
  mm_flags : string;
  mm_internaldate : Z;
  mm_guid : message_guid;
  mm_size : Z;
  mm_annotations : string;
  mm_expunged : Z;
}.

Record backup_mailbox : Type := {
  mb_id : Z;
  mb_last_chunk_id : Z;
  mb_uniqueid : string;
  mb_mboxname : string;
  mb_mboxtype : string;
  mb_last_uid : Z;
  mb_highestmodseq : Z;
  mb_recentuid : Z;
  mb_recenttime : Z;
  mb_last_appenddate : Z;
  mb_pop3_last_login : Z;
  mb_pop3_show_after : Z;
  mb_uidvalidity : Z;
  mb_partition : string;
  mb_acl : string;
  mb_options : string;
  mb_sync_crc : Z;
  mb_sync_crc_annot : Z;
  mb_quotaroot : string;
  mb_xconvmodseq : Z;
  mb_annotations : string;
  mb_deleted : Z;
  mb_records : option (list backup_mailbox_message);
}.

(** [struct backup_message]; [xzmalloc] gives [zero_message] *)
Record backup_message : Type := {
  msg_id : Z;
  msg_guid : option message_guid;
  msg_partition : option string;
  msg_chunk_id : Z;
  msg_offset : Z;
  msg_length : Z;
}.

Definition zero_message : backup_message :=
  {| msg_id := 0; msg_guid := None; msg_partition := None; msg_chunk_id := 0;
     msg_offset := 0; msg_length := 0 |}.

(** The lists of indexr.c are singly linked with a head, a tail and a
    count; they are kept as the sequence from the head. *)

(** mailbox and mailbox_message lists grow at the tail *)
Definition backup_mailbox_message_list_add (l : list backup_mailbox_message)
    (mailbox_message : backup_mailbox_message) : list backup_mailbox_message :=
  l ++ [mailbox_message].

Definition backup_mailbox_list_add (l : list backup_mailbox)
    (mailbox : backup_mailbox) : list backup_mailbox :=
  l ++ [mailbox].

(** "n.b. always inserts at head" *)
Definition backup_chunk_list_add (l : list backup_chunk) (chunk : backup_chunk)
  : list backup_chunk :=
  chunk :: l.

Definition _get_mailbox_id_cb : sqldb_cb Z := fun stmt _ =>
  id ← _column_int stmt 0;
  Ret (0, id).

Definition backup_get_mailbox_id (b : backup) (uniqueid : string) : res Z :=
  d ← the_db b;
  '(r, id, _) ← sqldb_exec d backup_index_mailbox_select_uniqueid_sql
                  [(":uniqueid", VText uniqueid)] (Some _get_mailbox_id_cb) (-1);
  Ret id.

Definition _mailbox_message_row_cb
  : sqldb_cb (option (list backup_mailbox_message)) := fun stmt save_list =>
  id ← _column_int stmt 0;
  mailbox_id ← _column_int stmt 1;
  mailbox_uniqueid ← _column_text stmt 2;
  message_id ← _column_int stmt 3;
  last_chunk_id ← _column_int stmt 4;
  uid ← _column_int stmt 5;
  modseq ← _column_int64 stmt 6;
  last_updated ← _column_int64 stmt 7;
  flags ← _column_text stmt 8;
  internaldate ← _column_int64 stmt 9;
  guid_str ← _column_text stmt 10;
  size ← _column_int stmt 11;
  annotations ← _column_text stmt 12;
  expunged ← _column_int stmt 13;
  let mailbox_message :=
    {| mm_id := id; mm_mailbox_id := mailbox_id;
       mm_mailbox_uniqueid := mailbox_uniqueid; mm_message_id := message_id;
       mm_last_chunk_id := last_chunk_id; mm_uid := uid; mm_modseq := modseq;
       mm_last_updated := last_updated; mm_flags := flags;
       mm_internaldate := internaldate;
       mm_guid := default GuidNull (message_guid_decode guid_str);
       mm_size := size; mm_annotations := annotations;
       mm_expunged := expunged |} in
  Ret (0, match save_list with
          | Some l => Some (backup_mailbox_message_list_add l mailbox_message)
          | None => None
          end).

Definition backup_get_mailbox_messages (b : backup) (chunk_id : Z)
  : res (option (list backup_mailbox_message)) :=
  d ← the_db b;
  let bval := [(":last_chunk_id", VInt chunk_id)] in
  let sql := if chunk_id =? 0
             then backup_index_mailbox_message_select_all_sql
             else backup_index_mailbox_message_select_chunkid_sql in
  '(r, mailbox_message_list, _) ←
    sqldb_exec d sql bval (Some _mailbox_message_row_cb) (Some []);
  if r =? 0 then Ret mailbox_message_list else Ret None.

(** [struct _mailbox_row_rock] over the rock [U] of the caller *)
Record _mailbox_row_rock (U : Type) : Type := {
  mr_db : sqldb;
  mr_proc : option (backup_mailbox -> U -> Z * U);
  mr_rock : U;
  mr_save_list : option (list backup_mailbox);
  mr_save_one : option (option backup_mailbox);
  mr_want_records : Z;
}.
Arguments mr_db {U} _.
Arguments mr_proc {U} _.
Arguments mr_rock {U} _.
Arguments mr_save_list {U} _.
Arguments mr_save_one {U} _.
Arguments mr_want_records {U} _.

Definition set_records (m : backup_mailbox)
    (records : option (list backup_mailbox_message)) : backup_mailbox :=
  {| mb_id := mb_id m; mb_last_chunk_id := mb_last_chunk_id m;
     mb_uniqueid := mb_uniqueid m; mb_mboxname := mb_mboxname m;
     mb_mboxtype := mb_mboxtype m; mb_last_uid := mb_last_uid m;
     mb_highestmodseq := mb_highestmodseq m; mb_recentuid := mb_recentuid m;
     mb_recenttime := mb_recenttime m;
     mb_last_appenddate := mb_last_appenddate m;
     mb_pop3_last_login := mb_pop3_last_login m;
     mb_pop3_show_after := mb_pop3_show_after m;
     mb_uidvalidity := mb_uidvalidity m; mb_partition := mb_partition m;
     mb_acl := mb_acl m; mb_options := mb_options m;
     mb_sync_crc := mb_sync_crc m; mb_sync_crc_annot := mb_sync_crc_annot m;
     mb_quotaroot := mb_quotaroot m; mb_xconvmodseq := mb_xconvmodseq m;
     mb_annotations := mb_annotations m; mb_deleted := mb_deleted m;
     mb_records := records |}.

(** The inner statement is given [mailbox->records], still null, as its
    rock: its rows are read and dropped, and the list kept on the mailbox
    is the fresh empty one. *)
Definition _mailbox_row_cb {U} : sqldb_cb (_mailbox_row_rock U) :=
  fun stmt mbrock =>
  id ← _column_int stmt 0;
  last_chunk_id ← _column_int stmt 1;
  uniqueid ← _column_text stmt 2;
  mboxname ← _column_text stmt 3;
  mboxtype ← _column_text stmt 4;
  last_uid ← _column_int stmt 5;
  highestmodseq ← _column_int64 stmt 6;
  recentuid ← _column_int stmt 7;
  recenttime ← _column_int64 stmt 8;
  last_appenddate ← _column_int64 stmt 9;
  pop3_last_login ← _column_int64 stmt 10;
  pop3_show_after ← _column_int64 stmt 11;
  uidvalidity ← _column_int stmt 12;
  partition ← _column_text stmt 13;
  acl ← _column_text stmt 14;
  options ← _column_text stmt 15;
  sync_crc ← _column_int stmt 16;
  sync_crc_annot ← _column_int stmt 17;
  quotaroot ← _column_text stmt 18;
  xconvmodseq ← _column_int64 stmt 19;
  annotations ← _column_text stmt 20;
  deleted ← _column_int64 stmt 21;
  let mailbox :=
    {| mb_id := id; mb_last_chunk_id := last_chunk_id; mb_uniqueid := uniqueid;
       mb_mboxname := mboxname; mb_mboxtype := mboxtype; mb_last_uid := last_uid;
       mb_highestmodseq := highestmodseq; mb_recentuid := recentuid;
       mb_recenttime := recenttime; mb_last_appenddate := last_appenddate;
       mb_pop3_last_login := pop3_last_login;
       mb_pop3_show_after := pop3_show_after; mb_uidvalidity := uidvalidity;
       mb_partition := partition; mb_acl := acl; mb_options := options;
       mb_sync_crc := sync_crc; mb_sync_crc_annot := sync_crc_annot;
       mb_quotaroot := quotaroot; mb_xconvmodseq := xconvmodseq;
       mb_annotations := annotations; mb_deleted := deleted;
       mb_records := None |} in
  '(r, mailbox) ←
    (if mr_want_records mbrock =? 0 then Ret (0, mailbox)
     else
       '(r, _, _) ← sqldb_exec (mr_db mbrock)
                      backup_index_mailbox_message_select_mailbox_sql
                      [(":mailbox_id", VInt id)]
                      (Some _mailbox_message_row_cb) (mb_records mailbox);
       if r =? 0 then Ret (r, set_records mailbox (Some []))
       else Ret (r, mailbox));
  let '(r, rock) :=
    match mr_proc mbrock with
    | Some proc => proc mailbox (mr_rock mbrock)
    | None => (r, mr_rock mbrock)
    end in
  Ret (r,
       match mr_save_list mbrock, mr_save_one mbrock with
       | Some l, _ =>
           {| mr_db := mr_db mbrock; mr_proc := mr_proc mbrock; mr_rock := rock;
              mr_save_list := Some (backup_mailbox_list_add l mailbox);
              mr_save_one := mr_save_one mbrock;
              mr_want_records := mr_want_records mbrock |}
       | None, Some _ =>
           {| mr_db := mr_db mbrock; mr_proc := mr_proc mbrock; mr_rock := rock;
              mr_save_list := None; mr_save_one := Some (Some mailbox);
              mr_want_records := mr_want_records mbrock |}
       | None, None =>
           {| mr_db := mr_db mbrock; mr_proc := mr_proc mbrock; mr_rock := rock;
              mr_save_list := None; mr_save_one := None;
              mr_want_records := mr_want_records mbrock |}
       end).

Definition backup_mailbox_foreach {U} (b : backup) (chunk_id : Z)
    (want_records : Z) (cb : option (backup_mailbox -> U -> Z * U)) (rock : U)
  : res (Z * U) :=
  d ← the_db b;
  let mbrock := {| mr_db := d; mr_proc := cb; mr_rock := rock;
                   mr_save_list := None; mr_save_one := None;
                   mr_want_records := want_records |} in
  let bval := [(":last_chunk_id", VInt chunk_id)] in
  let sql := if chunk_id =? 0
             then backup_index_mailbox_select_all_sql
             else backup_index_mailbox_select_chunkid_sql in
  '(r, mbrock, _) ← sqldb_exec d sql bval (Some _mailbox_row_cb) mbrock;
  Ret (r, mr_rock mbrock).

Definition backup_get_mailboxes (b : backup) (chunk_id : Z) (want_records : Z)
  : res (option (list backup_mailbox)) :=
  d ← the_db b;
  let mbrock := {| mr_db := d; mr_proc := None; mr_rock := tt;
                   mr_save_list := Some []; mr_save_one := None;
                   mr_want_records := want_records |} in
  let bval := [(":last_chunk_id", VInt chunk_id)] in
  let sql := if chunk_id =? 0
             then backup_index_mailbox_select_all_sql
             else backup_index_mailbox_select_chunkid_sql in
  '(r, mbrock, _) ← sqldb_exec d sql bval (Some _mailbox_row_cb) mbrock;
  if r =? 0 then Ret (mr_save_list mbrock) else Ret None.

Definition backup_get_mailbox_by_name (b : backup) (mbname : string)
    (want_records : Z) : res (option backup_mailbox) :=
  d ← the_db b;
  let mbrock := {| mr_db := d; mr_proc := None; mr_rock := tt;
                   mr_save_list := None; mr_save_one := Some None;
                   mr_want_records := want_records |} in
  '(r, mbrock, _) ← sqldb_exec d backup_index_mailbox_select_mboxname_sql
                      [(":mboxname", VText mbname)] (Some _mailbox_row_cb) mbrock;
  if r =? 0 then Ret (mjoin (mr_save_one mbrock)) else Ret None.

Definition _get_message_id_cb : sqldb_cb Z := fun stmt _ =>
  id ← _column_int stmt 0;
  Ret (0, id).

(** "FIXME distinguish between error and not found" *)
Definition backup_get_message_id (b : backup) (guid : string) : res Z :=
  d ← the_db b;
  '(r, id, _) ← sqldb_exec d backup_index_message_select_guid_sql
                  [(":guid", VText guid)] (Some _get_message_id_cb) (-1);
  Ret id.

Definition _get_message_cb : sqldb_cb backup_message := fun stmt message =>
  id ← _column_int stmt 0;
  guid_str ← _column_text stmt 1;
  partition ← _column_text stmt 2;
  chunk_id ← _column_int stmt 3;
  offset ← _column_int64 stmt 4;
  length ← _column_int64 stmt 5;
  let message :=
    {| msg_id := id; msg_guid := msg_guid message;
       msg_partition := Some partition; msg_chunk_id := chunk_id;
       msg_offset := offset; msg_length := length |} in
  match message_guid_decode guid_str with
  | Some guid =>
      Ret (0, {| msg_id := id; msg_guid := Some guid;
                 msg_partition := Some partition; msg_chunk_id := chunk_id;
                 msg_offset := offset; msg_length := length |})
  | None => Ret (-1, message)
  end.

Definition backup_get_message (b : backup) (guid : message_guid)
  : res (option backup_message) :=
  d ← the_db b;
  let bm := zero_message in
  '(r, bm, _) ← sqldb_exec d backup_index_message_select_guid_sql
                  [(":guid", message_guid_encode guid)]
                  (Some _get_message_cb) bm;
  if r =? 0 then Ret (Some bm) else Ret None.

(** [struct message_row_rock] over the rock [U] of the caller *)
Definition _message_row_cb {U} (proc : backup_message -> U -> Z * U)
  : sqldb_cb U := fun stmt rock =>
  id ← _column_int stmt 0;
  guid_str ← _column_text stmt 1;
  partition ← _column_text stmt 2;
  chunk_id ← _column_int stmt 3;
  offset ← _column_int64 stmt 4;
  length ← _column_int64 stmt 5;
  match message_guid_decode guid_str with
  | Some guid =>
      Ret (proc {| msg_id := id; msg_guid := Some guid;
                   msg_partition := Some partition; msg_chunk_id := chunk_id;
                   msg_offset := offset; msg_length := length |} rock)
  | None => Ret (-1, rock)
  end.

Definition backup_message_foreach {U} (b : backup) (chunk_id : Z)
    (cb : backup_message -> U -> Z * U) (rock : U) : res (Z * U) :=
  d ← the_db b;
  let bval := [(":chunk_id", VInt chunk_id)] in
  let sql := if chunk_id =? 0
             then backup_index_message_select_all_sql
             else backup_index_message_select_chunkid_sql in
  '(r, rock, _) ← sqldb_exec d sql bval (Some (_message_row_cb cb)) rock;
  Ret (r, rock).

(** [struct _chunk_row_rock] *)
Record _chunk_row_rock : Type := {
  cr_save_list : option (list backup_chunk);
  cr_save_one : option (option backup_chunk);
}.

Definition _chunk_row_cb : sqldb_cb _chunk_row_rock := fun stmt crock =>
  id ← _column_int stmt 0;
  ts_start ← _column_int64 stmt 1;
  ts_end ← _column_int64 stmt 2;
  offset ← _column_int64 stmt 3;
  length ← _column_int64 stmt 4;
  file_sha1 ← _column_text stmt 5;
  data_sha1 ← _column_text stmt 6;
  let chunk :=
    {| c_id := id; c_ts_start := ts_start; c_ts_end := ts_end;
       c_offset := offset; c_length := length; c_file_sha1 := file_sha1;
       c_data_sha1 := data_sha1 |} in
  Ret (0,
       match cr_save_list crock, cr_save_one crock with
       | Some l, _ =>
           {| cr_save_list := Some (backup_chunk_list_add l chunk);
              cr_save_one := cr_save_one crock |}
       | None, Some _ =>
           {| cr_save_list := None; cr_save_one := Some (Some chunk) |}
       | None, None => crock
       end).

Definition backup_get_chunks (b : backup) : res (option (list backup_chunk)) :=
  d ← the_db b;
  let crock := {| cr_save_list := Some []; cr_save_one := None |} in
  '(r, crock, _) ← sqldb_exec d backup_index_chunk_select_all_sql []
                     (Some _chunk_row_cb) crock;
  if r =? 0 then Ret (cr_save_list crock) else Ret None.

Definition backup_get_latest_chunk (b : backup) : res (option backup_chunk) :=
  d ← the_db b;
  let crock := {| cr_save_list := None; cr_save_one := Some None |} in
  '(r, crock, _) ← sqldb_exec d backup_index_chunk_select_latest_sql []
                     (Some _chunk_row_cb) crock;
  if r =? 0 then Ret (mjoin (cr_save_one crock)) else Ret None.


(** * The store: backup/api.c *)

(** com_err code of imap_err.et (generated, not under src/); only its being
    non-zero is observed *)
Definition IMAP_INTERNAL : Z := -1904809472.

Inductive backup_open_mode : Type :=
| BACKUP_OPEN_NORMAL
| BACKUP_OPEN_REINDEX.

(** [SHA1_LIMIT_WHOLE_FILE]: [(size_t) -1] *)
Definition SHA1_LIMIT_WHOLE_FILE : Z := 2^64 - 1.

(** [off_t] or [time_t] given where a [size_t] is taken *)
Definition to_size_t (z : Z) : Z := z mod 2^64.

(** [_sha1_file]: the digest of the first [min(limit, len)] raw bytes of the
    file.  Its [assert] on the length of the hexadecimal text never fails
    ([sha1_hex_length]). *)
Definition _sha1_file (w : world) (fname : string) (limit : Z) : string :=
  let map := raw_bytes (members_of (w_fs w !! fname)) in
  let len := Z.of_nat (length map) in
  let calc_len := if limit =? SHA1_LIMIT_WHOLE_FILE then len else Z.min limit len in
  sha1_hex (take (Z.to_nat calc_len) map).

(** [strncmp]: the difference at the first of the [n] characters that
    differ, the end of a string counting as NUL *)
Fixpoint strncmp (a b : string) (n : nat) : Z :=
  match n with
  | O => 0
  | S n' =>
      match a, b with
      | EmptyString, EmptyString => 0
      | EmptyString, String c _ => - Z.of_nat (nat_of_ascii c)
      | String c _, EmptyString => Z.of_nat (nat_of_ascii c)
      | String c1 a', String c2 b' =>
          if Ascii.eqb c1 c2 then strncmp a' b' n'
          else Z.of_nat (nat_of_ascii c1) - Z.of_nat (nat_of_ascii c2)
      end
  end.

(** the header line of a chunk: [snprintf] into 80 bytes, of which at most
    50 are used *)
Definition header_line (ts : Z) : bytes :=
  bytes_of "# cyrus backup: chunk start " ++ decimal ts ++ CRLF.

(** [sqldb_open]: a missing or empty file becomes a database with the
    schema of the index and no row; a log is not a database *)
Definition sqldb_open (fname : string) (w : world) : option sqldb * world :=
  let fresh t := {| db_fname := fname; db_tables := t; db_savepoint := None;
                    db_lastid := 0; db_step_rc := w_db_step_rc w;
                    db_close_rc := w_db_close_rc w |} in
  match w_fs w !! fname with
  | None | Some (FData []) =>
      (Some (fresh empty_tables),
       set_fs w (<[fname := FIndex empty_tables]> (w_fs w)))
  | Some (FIndex t) => (Some (fresh t), w)
  | Some (FData (_ :: _)) => (None, w)
  end.

(** [sqldb_close]: the file holds what was committed; changes of an open
    transaction are lost *)
Definition sqldb_close (d : sqldb) (w : world) : Z * world :=
  (db_close_rc d,
   set_fs w (<[db_fname d := FIndex (default (db_tables d) (db_savepoint d))]>
               (w_fs w))).

(** the member that starts at raw offset [off], if one does *)
Fixpoint member_at (ms : list member) (off : Z) : option member :=
  match ms with
  | [] => None
  | m :: rest =>
      if off =? 0 then Some m
      else if off <? Z.of_nat (length (m_raw m)) then None
      else member_at rest (off - Z.of_nat (length (m_raw m)))
  end.

(** what [gzuc_read] delivers between [gzuc_member_start_from(offset)] and
    [gzuc_member_eof] (backup/gzuncat.c is not under src/): the decoded
    bytes of the member at that offset, nothing where no member starts *)
Definition gzuc_member_data (ms : list member) (offset : Z) : bytes :=
  match member_at ms offset with
  | Some m => m_data m
  | None => []
  end.

(** the read loop of the validation: [gzuc_read] fills a buffer of 8192
    bytes at a time, each is hashed and counted, until the member is at its
    end; every pass takes at least one byte, [fuel] bounds the passes *)
Fixpoint read_loop (fuel : nat) (data sha_ctx : bytes) (len : Z) : bytes * Z :=
  match fuel with
  | O => (sha_ctx, len)
  | S fuel' =>
      match data with
      | [] => (sha_ctx, len)
      | _ :: _ =>
          let buf := take (Z.to_nat 8192) data in
          read_loop fuel' (drop (Z.to_nat 8192) data) (sha_ctx ++ buf)
            (len + Z.of_nat (length buf))
      end
  end.

(** [struct backup_meta]; [{0}] is [zero_meta] *)
Record backup_meta : Type := {
  bm_id : Z;
  bm_timestamp : Z;
  bm_offset : Z;
  bm_length : Z;
  bm_file_sha1 : option string;
  bm_data_sha1 : option string;
}.

Definition zero_meta : backup_meta :=
  {| bm_id := 0; bm_timestamp := 0; bm_offset := 0; bm_length := 0;
     bm_file_sha1 := None; bm_data_sha1 := None |}.

Definition _validate_cb : sqldb_cb backup_meta := fun stmt _ =>
  id ← _column_int stmt 0;
  timestamp ← _column_int64 stmt 1;
  offset ← _column_int64 stmt 2;
  length ← _column_int64 stmt 3;
  file_sha1 ← _column_text stmt 4;
  data_sha1 ← _column_text stmt 5;
  Ret (0, {| bm_id := id; bm_timestamp := timestamp; bm_offset := offset;
             bm_length := length; bm_file_sha1 := Some file_sha1;
             bm_data_sha1 := Some data_sha1 |}).

(** [_validate_checksums]: 0 when the latest chunk of the index agrees
    with the log *)
Definition _validate_checksums (b : backup) (w : world) : res Z :=
  d ← the_db b;
  '(r, backup_meta, _) ← sqldb_exec d backup_index_backup_select_latest_sql []
                           (Some _validate_cb) zero_meta;
  if negb (r =? 0) then Ret r
  else if bm_id backup_meta =? 0 then Ret (-1)
  else
    (* validate file-prior-to-this-backup checksum *)
    let file_sha1 :=
      _sha1_file w (data_fname b) (to_size_t (bm_offset backup_meta)) in
    let r := strncmp (default "" (bm_file_sha1 backup_meta)) file_sha1 41 in
    if negb (r =? 0) then Ret r
    else
      (* validate data-within-this-backup checksum *)
      let data := gzuc_member_data (members_of (w_fs w !! data_fname b))
                    (bm_offset backup_meta) in
      let '(sha_ctx, len) := read_loop (length data) data [] 0 in
      if negb (len =? to_size_t (bm_length backup_meta)) then Ret (-1)
      else
        let data_sha1 := sha1_hex sha_ctx in
        Ret (strncmp (default "" (bm_data_sha1 backup_meta)) data_sha1 41).

(** Code that api.c calls and that is not under src/: [backup_index]
    applies a command to the tables of the index, given the id of the chunk,
    the dlist and where its line lies in the chunk (spec 4.E, command
    semantics), and answers its result code; [gz_image] is the raw image
    zlib gives a member with the given decoded bytes, open ([false]) or
    closed by [gzclose_w] ([true]); [dir_hash_b] is the directory hash of a
    userid. *)
Class Collaborators : Type := {
  backup_index : tables -> Z -> dlist -> Z -> Z -> Z * tables;
  gz_image : bytes -> bool -> bytes;
  dir_hash_b : string -> string;
}.

Section Engine.

Context `{Collaborators}.

(** ** The compressed writer (zlib) *)

(** [gzdopen(dup(fd), "ab")] *)
Definition gzdopen (fd : Z) (fname : string) : option gzFile :=
  if fd <? 0 then None
  else Some {| gz_fname := fname; gz_pending := []; gz_flushed := [];
               gz_started := false; gz_errnum := Z_OK |}.

(** [gzwrite]: the number of bytes taken, 0 on error *)
Definition gzwrite (gz : gzFile) (l : log_line) : Z * gzFile :=
  if gz_errnum gz =? Z_OK then
    (Z.of_nat (length (line_bytes l)),
     {| gz_fname := gz_fname gz; gz_pending := gz_pending gz ++ [l];
        gz_flushed := gz_flushed gz; gz_started := gz_started gz;
        gz_errnum := gz_errnum gz |})
  else (0, gz).

(** the member of the writer as it stands in the file: it is appended by
    the first flush and grows in place afterwards *)
Definition gz_put (gz : gzFile) (closed : bool) (w : world) : world :=
  let lines := gz_flushed gz ++ gz_pending gz in
  let m := {| m_raw := gz_image (flat_map line_bytes lines) closed;
              m_lines := lines |} in
  let ms := members_of (w_fs w !! gz_fname gz) in
  set_fs w (<[gz_fname gz :=
                FData ((if gz_started gz then removelast ms else ms) ++ [m])]>
              (w_fs w)).

(** [gzflush(.., Z_FULL_FLUSH)] *)
Definition gzflush (gz : gzFile) (w : world) : Z * gzFile * world :=
  if gz_errnum gz =? Z_OK then
    (Z_OK,
     {| gz_fname := gz_fname gz; gz_pending := [];
        gz_flushed := gz_flushed gz ++ gz_pending gz; gz_started := true;
        gz_errnum := gz_errnum gz |},
     gz_put gz false w)
  else (gz_errnum gz, gz, w).

Definition gzclose_w (gz : gzFile) (w : world) : Z * world :=
  if gz_errnum gz =? Z_OK then (Z_OK, gz_put gz true w)
  else (gz_errnum gz, w).

(** ** Append sessions (api.c 808-1014) *)

Definition _append_start (b : backup) (ts offset : Z) (file_sha1 : string)
    (index_only noflush : Z) (w : world) : res (Z * backup * world) :=
  match append_state b with
  | Some _ => Fatal "backup append already started" EC_SOFTWARE
  | None =>
      let mode0 := if index_only =? 0 then 0
                   else Z.lor 0 BACKUP_APPEND_INDEXONLY in
      let mode := if noflush =? 0 then mode0
                  else Z.lor mode0 BACKUP_APPEND_NOFLUSH in
      let header := header_line ts in
      let opened :=
        if index_only =? 0 then
          match gzdopen (fd b) (data_fname b) with
          | None => None
          | Some gz =>
              let '(_, gz) := gzwrite gz (Comment header) in
              if noflush =? 0 then
                let '(_, gz, w) := gzflush gz w in Some (Some gz, w)
              else Some (Some gz, w)
          end
        else Some (None, w) in
      match opened with
      | None => Ret (-1, b, w)
      | Some (gzfile, w) =>
          let sha_ctx := [] ++ header in
          let wrote := 0 + Z.of_nat (length header) in
          let bval := [(":timestamp", VInt ts); (":offset", VInt offset);
                       (":file_sha1", VText file_sha1)] in
          d ← the_db b;
          let d := sqldb_begin d "backup_index" in
          '(r, _, d) ← sqldb_exec d backup_index_start_sql bval None tt;
          if negb (r =? 0) then
            let d := sqldb_rollback d "backup_index" in
            let w := match gzfile with
                     | Some gz => snd (gzclose_w gz w)
                     | None => w
                     end in
            Ret (-1, set_db b (Some d), w)
          else
            let append_state :=
              {| mode := mode; gzfile := gzfile;
                 index_id := wrap32 (sqldb_lastid d);
                 wrote := wrote; sha_ctx := sha_ctx |} in
            Ret (0, set_append_state (set_db b (Some d)) (Some append_state), w)
      end
  end.

Definition backup_append_start (b : backup) (w : world)
  : res (Z * backup * world) :=
  let offset :=
    Z.of_nat (length (raw_bytes (members_of (w_fs w !! data_fname b)))) in
  let file_sha1 := _sha1_file w (data_fname b) SHA1_LIMIT_WHOLE_FILE in
  _append_start b (w_time w) offset file_sha1 0 0 w.

Definition set_sha_ctx (st : backup_append_state) (ctx : bytes)
  : backup_append_state :=
  {| mode := mode st; gzfile := gzfile st; index_id := index_id st;
     wrote := wrote st; sha_ctx := ctx |}.

Definition set_gzfile (st : backup_append_state) (gz : option gzFile)
  : backup_append_state :=
  {| mode := mode st; gzfile := gz; index_id := index_id st;
     wrote := wrote st; sha_ctx := sha_ctx st |}.

Definition set_wrote (st : backup_append_state) (n : Z) : backup_append_state :=
  {| mode := mode st; gzfile := gzfile st; index_id := index_id st;
     wrote := n; sha_ctx := sha_ctx st |}.

(** the write of [backup_append]: [gzwrite] takes the whole buffer or
    nothing (the loop over pieces of at most INT32_MAX bytes ends when
    nothing is left), then the full flush unless NOFLUSH.  [inl r] is the
    jump to [error]. *)
Definition write_out (st : backup_append_state) (line : log_line) (w : world)
  : res (Z + backup_append_state * world) :=
  match gzfile st with
  | None => Fatal "gzwrite: invalid stream" EC_IOERR
  | Some gz =>
      let '(n, gz) := gzwrite gz line in
      if 0 <? n then
        if Z.land (mode st) BACKUP_APPEND_NOFLUSH =? 0 then
          let '(r, gz, w) := gzflush gz w in
          if r =? Z_OK then Ret (inr (set_gzfile st (Some gz), w))
          else Ret (inl IMAP_INTERNAL)
        else Ret (inr (set_gzfile st (Some gz), w))
      else
        let r := gz_errnum gz in
        if r =? Z_STREAM_ERROR then Fatal "gzwrite: invalid stream" EC_IOERR
        else if r =? Z_MEM_ERROR then Fatal "gzwrite: out of memory" EC_TEMPFAIL
        else Ret (inl IMAP_INTERNAL)
  end.

(** [backup_index], on the tables of the open index; a failing engine
    fails its first statement *)
Definition index_apply (d : sqldb) (index_id : Z) (dl : dlist) (start len : Z)
  : Z * sqldb :=
  if db_step_rc d =? 0 then
    let '(r, t) := backup_index (db_tables d) index_id dl start len in
    (r, set_tables d t (db_lastid d))
  else (-1, d).

Definition backup_append (b : backup) (dl : dlist) (ts : Z) (w : world)
  : res (Z * backup * world) :=
  match append_state b with
  | None => Fatal "backup append not started" EC_SOFTWARE
  | Some st =>
      let start := wrote st in
      (* build a buffer containing the data to be written *)
      let line := Command ts "APPLY" dl in
      let buf := line_bytes line in
      (* track the sha1sum *)
      let st := set_sha_ctx st (sha_ctx st ++ buf) in
      (* if we're not in index-only mode, write the data out *)
      out ← (if Z.land (mode st) BACKUP_APPEND_INDEXONLY =? 0
             then write_out st line w else Ret (inr (st, w)));
      match out with
      | inl r => Ret (r, set_append_state b (Some st), w)
      | inr (st, w) =>
          (* count the written bytes *)
          let len := Z.of_nat (length buf) in
          let st := set_wrote st (wrote st + len) in
          let b := set_append_state b (Some st) in
          (* update the index *)
          d ← the_db b;
          let '(r, d) := index_apply d (index_id st) dl start len in
          Ret (r, set_db b (Some d), w)
      end
  end.

Definition backup_append_end (b : backup) (w : world)
  : res (Z * backup * world) :=
  let append_state := append_state b in
  let b := set_append_state b None in
  match append_state with
  | None => Fatal "backup append not started" EC_SOFTWARE
  | Some st =>
      let w :=
        if Z.land (mode st) BACKUP_APPEND_INDEXONLY =? 0 then
          match gzfile st with
          | Some gz =>
              let '(r, gz, w) := gzflush gz w in
              if r =? 0 then snd (gzclose_w gz w) else w
          | None => w
          end
        else w in
      let data_sha1 := sha1_hex (sha_ctx st) in
      let bval := [(":id", VInt (index_id st)); (":length", VInt (wrote st));
                   (":data_sha1", VText data_sha1)] in
      d ← the_db b;
      '(r, _, d) ← sqldb_exec d backup_index_end_sql bval None tt;
      let d := if negb (r =? 0) then sqldb_rollback d "backup_index"
               else sqldb_commit d "backup_index" in
      Ret (r, set_db b (Some d), w)
  end.

Definition backup_append_abort (b : backup) : res (Z * backup) :=
  let append_state := append_state b in
  let b := set_append_state b None in
  match append_state with
  | None => Fatal "backup append not started" EC_SOFTWARE
  | Some _ =>
      d ← the_db b;
      let d := sqldb_rollback d "backup_index" in
      Ret (0, set_db b (Some d))
  end.


(** ** Open and close (api.c 95-171, 265-285, 431-476) *)

Definition backup_close (b : backup) (w : world) : res (Z * world) :=
  '(r1, b, w) ← match append_state b with
                | Some _ => backup_append_end b w
                | None => Ret (0, b, w)
                end;
  let '(r2, w) := match db b with
                  | Some d => sqldb_close d w
                  | None => (0, w)
                  end in
  let w := match oldindex_fname b with
           | Some oldindex_fname =>
               if negb (r2 =? 0) then snd (rename oldindex_fname (index_fname b) w)
               else w
           | None => w
           end in
  Ret (if negb (r1 =? 0) then r1 else r2, w).

(** [open(.., O_RDWR | O_CREAT | O_APPEND, ..)]: a missing file is created
    empty.  The model has one process and no permissions: [open], the lock
    and [fstat] succeed. *)
Definition open_creat (path : string) (w : world) : Z * world :=
  match w_fs w !! path with
  | Some _ => (3, w)
  | None => (3, set_fs w (<[path := FData []]> (w_fs w)))
  end.

Definition _open_internal (data_fname index_fname : string)
    (mode : backup_open_mode) (w : world) : res (option backup * world) :=
  let '(fd, w) := open_creat data_fname w in
  let bk := {| fd := fd; data_fname := data_fname;
                   index_fname := index_fname; oldindex_fname := None;
                   db := None; append_state := None |} in
  let error (bk : backup) (w : world) : res (option backup * world) :=
    '(_, w) ← backup_close bk w; Ret (None, w) in
  let open_db (bk : backup) (w : world) : res (option backup * world) :=
    match sqldb_open index_fname w with
    | (Some d, w) => Ret (Some (set_db bk (Some d)), w)
    | (None, w) => error bk w
    end in
  match mode with
  | BACKUP_OPEN_REINDEX =>
      (* when reindexing, we want to move the old index out of the way
         and create a new, empty one -- while holding the lock *)
      let oldindex_fname := (index_fname +:+ ".old")%string in
      let '(r, w) := rename index_fname oldindex_fname w in
      if negb (r =? 0) && negb (w_errno w =? ENOENT) then
        error bk (syslog w ("IOERROR: rename " +:+ index_fname))
      else
        open_db {| fd := fd; data_fname := data_fname;
                   index_fname := index_fname;
                   oldindex_fname := Some oldindex_fname;
                   db := None; append_state := None |} w
  | BACKUP_OPEN_NORMAL =>
      (* if there's data in the data file but the index file is empty
         or doesn't exist, insist on a reindex before opening *)
      let data_size := st_size (FData (members_of (w_fs w !! data_fname))) in
      if 0 <? data_size then
        let '(r, index_size, w) := stat index_fname w in
        if negb (r =? 0) && negb (w_errno w =? ENOENT) then
          error bk (syslog w ("IOERROR: stat " +:+ index_fname))
        else if (w_errno w =? ENOENT) || (default 0 index_size =? 0) then
          error bk (syslog w ("reindex needed: " +:+ index_fname))
        else open_db bk w
      else open_db bk w
  end.

Definition PATH_MAX : Z := 4096.

(** [backup_make_path] with [out_fd] null: the descriptor is closed again *)
Definition backup_make_path (userid : string) (w : world)
  : option string * world :=
  match w_backup_data_path w with
  | None => (None, syslog w ("unable to make backup path for " +:+ userid))
  | Some backup_data_path =>
      let template := (backup_data_path +:+ "/" +:+ dir_hash_b userid +:+ "/"
                         +:+ userid +:+ "_XXXXXX")%string in
      match w_mkstemp w template with
      | Some path =>
          let w := set_fs w (<[path := FData []]> (w_fs w)) in
          if Z.of_nat (String.length path) <? PATH_MAX then (Some path, w)
          else (None, set_fs (syslog w ("unable to make backup path for " +:+ userid))
                        (delete path (w_fs w)))
      | None => (None, syslog w ("unable to make backup path for " +:+ userid))
      end
  end.

Definition backup_get_paths (userid : string) (w : world)
  : Z * string * string * world :=
  match w_backups_db w !! userid with
  | Some backup_path =>
      if (String.length backup_path =? 0)%nat then (IMAP_INTERNAL, "", "", w)
      else (0, backup_path, (backup_path +:+ ".index")%string, w)
  | None =>
      match backup_make_path userid w with
      | (None, w) => (IMAP_INTERNAL, "", "", w)
      | (Some backup_path, w) =>
          let w := set_backups_db w (<[userid := backup_path]> (w_backups_db w)) in
          if (String.length backup_path =? 0)%nat then (IMAP_INTERNAL, "", "", w)
          else (0, backup_path, (backup_path +:+ ".index")%string, w)
      end
  end.

(** [backup_open] gives what [_open_internal] answers to
    [_validate_checksums] unchecked: a null handle is dereferenced there *)
Definition backup_open (userid : string) (w : world)
  : res (option backup * world) :=
  let '(r, data_fname, index_fname, w) := backup_get_paths userid w in
  if negb (r =? 0) then Ret (None, w)
  else
    '(bk, w) ← _open_internal data_fname index_fname BACKUP_OPEN_NORMAL w;
    match bk with
    | None => Fatal "null backup handle" 139
    | Some b =>
        r ← _validate_checksums b w;
        if negb (r =? 0) then '(_, w) ← backup_close b w; Ret (None, w)
        else Ret (Some b, w)
    end.

(** "If index_fname is NULL, it will be automatically derived from
    data_fname" *)
Definition backup_open_paths (data_fname : string) (index_fname : option string)
    (w : world) : res (option backup * world) :=
  match index_fname with
  | Some index_fname =>
      _open_internal data_fname index_fname BACKUP_OPEN_NORMAL w
  | None =>
      let tmp := (data_fname +:+ ".index")%string in
      '(bk, w) ← _open_internal data_fname tmp BACKUP_OPEN_NORMAL w;
      match bk with
      | Some b =>
          r ← _validate_checksums b w;
          if negb (r =? 0) then '(_, w) ← backup_close b w; Ret (None, w)
          else Ret (Some b, w)
      | None => Ret (None, w)
      end
  end.

(** ** Reindex (api.c 1016-1146) *)

(** [_parse_line] on the lines the reader delivers: a comment line is
    eaten, then a command line gives its timestamp, word and dlist; at the
    end of the member, and where no timestamp follows, the answer is EOF
    ([None]) *)
Definition _parse_line (input : list log_line)
  : option (Z * string * dlist) * list log_line :=
  let input := match input with
               | Comment _ :: rest => rest
               | _ => input
               end in
  match input with
  | Command ts cmd dl :: rest => (Some (ts, cmd, dl), rest)
  | _ => (None, input)
  end.

(** the variables of [backup_reindex] that live across the lines of a
    member *)
Record reindex_state : Type := {
  rx_backup : backup;
  rx_world : world;
  rx_member_ts : Z;
  rx_r : Z;
}.

(** the body of the inner loop, for one parsed line *)
Definition reindex_line (member_offset prev_member_ts : Z)
    (s : reindex_state) (ts : Z) (cmd : string) (dl : dlist)
  : res reindex_state :=
  s ← (if rx_member_ts s =? -1 then
         if negb (prev_member_ts =? -1) && (ts <? prev_member_ts) then
           Fatal "member timestamp older than previous" EC_DATAERR
         else
           let member_ts := ts in
           let file_sha1 :=
             _sha1_file (rx_world s) (data_fname (rx_backup s))
               (to_size_t member_offset) in
           '(_, b, w) ← _append_start (rx_backup s) member_ts member_offset
                          file_sha1 1 0 (rx_world s);
           Ret {| rx_backup := b; rx_world := w; rx_member_ts := member_ts;
                  rx_r := rx_r s |}
       else if ts <? rx_member_ts s then
         Fatal "line timestamp older than previous" EC_DATAERR
       else Ret s);
  if negb (String.eqb cmd "APPLY") then Ret s
  else
    let dl := ucase_name dl in
    '(r, b, w) ← backup_append (rx_backup s) dl ts (rx_world s);
    Ret {| rx_backup := b; rx_world := w; rx_member_ts := rx_member_ts s;
           rx_r := r |}.

(** the inner loop: lines are parsed until EOF; every pass takes at least
    one line, [fuel] bounds the passes *)
Fixpoint reindex_lines (fuel : nat) (member_offset prev_member_ts : Z)
    (input : list log_line) (s : reindex_state) : res reindex_state :=
  match fuel with
  | O => Ret s
  | S fuel' =>
      match _parse_line input with
      | (None, _) => Ret s
      | (Some (ts, cmd, dl), rest) =>
          s ← reindex_line member_offset prev_member_ts s ts cmd dl;
          reindex_lines fuel' member_offset prev_member_ts rest s
      end
  end.

(** the outer loop, over the members from [member_offset] on *)
Fixpoint reindex_members (ms : list member) (member_offset prev_member_ts : Z)
    (b : backup) (w : world) (r : Z) : res (Z * backup * world) :=
  match ms with
  | [] => Ret (r, b, w)
  | m :: rest =>
      s ← reindex_lines (S (length (m_lines m))) member_offset prev_member_ts
            (m_lines m)
            {| rx_backup := b; rx_world := w; rx_member_ts := -1; rx_r := r |};
      '(_, b, w) ← backup_append_end (rx_backup s) (rx_world s);
      reindex_members rest (member_offset + Z.of_nat (length (m_raw m)))
        (rx_member_ts s) b w (rx_r s)
  end.

(** [backup_reindex]; [r0] is what the uninitialised [r] holds, which is
    the answer when no APPLY line is met *)
Definition backup_reindex (name : string) (r0 : Z) (w : world)
  : res (Z * world) :=
  let data_fname := name in
  let index_fname := (name +:+ ".index")%string in
  '(bk, w) ← _open_internal data_fname index_fname BACKUP_OPEN_REINDEX w;
  match bk with
  | None => Ret (-1, w)
  | Some b =>
      '(r, b, w) ← reindex_members (members_of (w_fs w !! data_fname)) 0 (-1)
                     b w r0;
      '(_, w) ← backup_close b w;
      Ret (r, w)
  end.

End Engine.

(** * Sample collaborators and stores, to run the engine on *)

(** a [backup_index] that files every MESSAGE under the chunk and the place
    of its line, accepts MAILBOX and EXPUNGE, and refuses other verbs *)
Definition sample_index (t : tables) (index_id : Z) (dl : dlist)
    (start len : Z) : Z * tables :=
  if String.eqb (dl_name dl) "MESSAGE" then
    (0, {| t_chunk := t_chunk t; t_mailbox := t_mailbox t;
           t_message :=
             t_message t ++
               [[VInt (next_id (t_message t)); VText (sha1_hex (dl_value dl));
                 VText "default"; VInt index_id; VInt start; VInt len]];
           t_mailbox_message := t_mailbox_message t |})
  else if String.eqb (dl_name dl) "MAILBOX" || String.eqb (dl_name dl) "EXPUNGE"
  then (0, t)
  else (IMAP_INTERNAL, t).

(** a stand-in for deflate: a two-byte mark, the bytes as they are, and two
    closing bytes *)
Definition stored_image (data : bytes) (closed : bool) : bytes :=
  [x1f; x8b] ++ data ++ (if closed then [x03; x00] else []).

Definition sample : Collaborators :=
  {| backup_index := sample_index;
     gz_image := stored_image;
     dir_hash_b := fun userid => String.substring 0 1 userid |}.

(** a host with no file, at 1700000000 on its clock *)
Definition empty_world : world :=
  {| w_fs := ∅; w_errno := 0; w_time := 1700000000; w_syslog := [];
     w_backups_db := ∅; w_backup_data_path := Some "/var/spool/backup";
     w_mkstemp := fun template =>
       Some (String.substring 0 (String.length template - 6) template
               +:+ "q7Yc2k")%string;
     w_db_step_rc := 0; w_db_close_rc := 0 |}.

Definition with_files (w : world) (files : list (string * fobj)) : world :=
  set_fs w (list_to_map files ∪ w_fs w).

(** a column read as an integer, 0 where it holds none *)
Definition col_int (i : nat) (r : row) : Z :=
  match col i r with VInt z => z | _ => 0 end.

(** two chunks, ids 1 and 2, as two finished sessions leave them *)
Definition two_chunks : tables :=
  {| t_chunk :=
       [[VInt 1; VInt 1700000000; VInt 1700000030; VInt 0; VInt 40;
         VText "da39a3ee5e6b4b0d3255bfef95601890afd80709";
         VText "9d4f8facf910224312a21c360e43a8f2fb752750"];
        [VInt 2; VInt 1700000060; VInt 1700000090; VInt 44; VInt 40;
         VText "0f3c5b6c2f2a0f6d3c1e9b1a7d5e4c3b2a190807";
         VText "5a4e2f5d8c0b7a6958473625140312f1e0dfcebd"]];
     t_mailbox :=
       [[VInt 1; VInt 0; VText "6e1f7a2c"; VText "user.alice"; VText "e";
         VInt 5; VInt 9; VInt 5; VInt 1700000000; VInt 1700000000; VInt 0;
         VInt 0; VInt 1447000000; VText "default"; VText "alice lrswipkxtecda";
         VText "P"; VInt 77; VInt 0; VText "user.alice"; VInt 0; VText "()";
         VInt 0];
        [VInt 2; VInt 2; VText "9b0d4e11"; VText "user.alice.Sent"; VText "e";
         VInt 3; VInt 4; VInt 3; VInt 1700000060; VInt 1700000060; VInt 0;
         VInt 0; VInt 1447000001; VText "default"; VText "alice lrswipkxtecda";
         VText "P"; VInt 12; VInt 0; VText "user.alice"; VInt 0; VText "()";
         VInt 0]];
     t_message :=
       [[VInt 1; VText "8f1d9a0c5b7e4f3a2d6c1b0e9f8a7d6c5b4e3f2a"; VText "default";
         VInt 1; VInt 152; VInt 2048];
        [VInt 2; VText "0a1b2c3d4e5f60718293a4b5c6d7e8f901234567"; VText "default";
         VInt 2; VInt 180; VInt 512]];
     t_mailbox_message :=
       [[VInt 1; VInt 1; VText "6e1f7a2c"; VInt 1; VInt 1; VInt 5; VInt 9;
         VInt 1700000000; VText "(\\Seen)"; VInt 1699990000;
         VText "8f1d9a0c5b7e4f3a2d6c1b0e9f8a7d6c5b4e3f2a"; VInt 2048; VText "()";
         VInt 0];
        [VInt 2; VInt 2; VText "9b0d4e11"; VInt 2; VInt 2; VInt 3; VInt 4;
         VInt 1700000060; VText "()"; VInt 1699990500;
         VText "0a1b2c3d4e5f60718293a4b5c6d7e8f901234567"; VInt 512; VText "()";
         VInt 0]] |}.

(** an open index with the given tables; the engine answers [step_rc] to
    its statements *)
Definition index_on (t : tables) (step_rc : Z) : sqldb :=
  {| db_fname := "log.index"; db_tables := t; db_savepoint := None;
     db_lastid := 0; db_step_rc := step_rc; db_close_rc := 0 |}.

(** an open handle on such an index *)
Definition handle_on (t : tables) (step_rc : Z) : backup :=
  {| fd := 3; data_fname := "log"; index_fname := "log.index";
     oldindex_fname := None; db := Some (index_on t step_rc);
     append_state := None |}.

(** a callback that notes the id of every mailbox or message it is given *)
Definition note_mailbox (m : backup_mailbox) (seen : list Z) : Z * list Z :=
  (0, seen ++ [mb_id m]).

Definition note_message (m : backup_message) (seen : list Z) : Z * list Z :=
  (0, seen ++ [msg_id m]).

(** a member as a finished session leaves it, under the sample image *)
Definition written (lines : list log_line) : member :=
  {| m_raw := stored_image (flat_map line_bytes lines) true;
     m_lines := lines |}.

Definition mailbox_cmd : dlist :=
  {| dl_name := "MAILBOX";
     dl_value := bytes_of "%(UNIQUEID 6e1f7a2c MBOXNAME user.alice LAST_UID 5)" |}.

Definition expunge_cmd : dlist :=
  {| dl_name := "EXPUNGE";
     dl_value := bytes_of "%(MBOXNAME user.alice UNIQUEID 6e1f7a2c UID (5))" |}.

Definition unknown_cmd : dlist :=
  {| dl_name := "RESERVE"; dl_value := bytes_of "%(PARTITION default)" |}.

(** a chunk of one header and one APPLY line, both at [ts] *)
Definition one_apply (ts : Z) : member :=
  written [Comment (header_line ts); Command ts "APPLY" mailbox_cmd].


(** a chunk whose third line is older than its second *)
Definition out_of_order : member :=
  written [Comment (header_line 1700000010);
           Command 1700000010 "APPLY" mailbox_cmd;
           Command 1700000020 "APPLY" expunge_cmd;
           Command 1700000015 "APPLY" mailbox_cmd].

(** a chunk whose first command is older than its header *)
Definition older_than_header : member :=
  written [Comment (header_line 1700000100);
           Command 1700000050 "APPLY" mailbox_cmd].

(** a chunk with a command that [sample_index] refuses *)
Definition refused : member :=
  written [Comment (header_line 1700000000);
           Command 1700000000 "APPLY" unknown_cmd].

(** the index of a log that holds [one_apply 1700000000], with the data
    checksum of its chunk row off by its last digit *)
Definition stale_index : tables :=
  {| t_chunk :=
       [[VInt 1; VInt 1700000000; VNull; VInt 0; VInt 118;
         VText "da39a3ee5e6b4b0d3255bfef95601890afd80709";
         VText "db25df0b76a0655d7f81fff3acd7aa32b913f5e1"]];
     t_mailbox := []; t_message := []; t_mailbox_message := [] |}.

(** the index of a log that holds [one_apply 1700000000] *)
Definition good_index : tables :=
  {| t_chunk :=
       [[VInt 1; VInt 1700000000; VNull; VInt 0; VInt 118;
         VText "da39a3ee5e6b4b0d3255bfef95601890afd80709";
         VText "db25df0b76a0655d7f81fff3acd7aa32b913f5e0"]];
     t_mailbox := []; t_message := []; t_mailbox_message := [] |}.

Definition message_cmd : dlist :=
  {| dl_name := "MESSAGE";
     dl_value :=
       bytes_of "(%{default 8f1d9a0c5b7e4f3a2d6c1b0e9f8a7d6c5b4e3f2a 12} Subject: hi)" |}.

(** a store with one finished chunk and no index *)
Definition unindexed_world : world :=
  with_files empty_world [("log", FData [one_apply 1700000000])].

(** a store whose index disagrees with its log *)
Definition stale_world : world :=
  with_files empty_world
    [("log", FData [one_apply 1700000000]); ("log.index", FIndex stale_index)].

(** a store with one finished chunk and its index *)
Definition good_world : world :=
  with_files empty_world
    [("log", FData [one_apply 1700000000]); ("log.index", FIndex good_index)].


(** a store whose only chunk has a line older than the one before *)
Definition out_of_order_world : world :=
  with_files empty_world [("log", FData [out_of_order])].

(** a store whose only chunk starts with a command older than its header *)
Definition older_than_header_world : world :=
  with_files empty_world [("log", FData [older_than_header])].

(** a store with its index, whose only chunk holds a command that
    [sample_index] refuses *)
Definition refused_world : world :=
  with_files empty_world
    [("log", FData [refused]); ("log.index", FIndex good_index)].

(** a store of two chunks whose index knows the first only *)
Definition two_member_world : world :=
  with_files empty_world
    [("log", FData [one_apply 1700000000; one_apply 1700000060]);
     ("log.index", FIndex good_index)].

(** * Sessions as a caller drives them, and what holds while one is open *)

Section Sessions.

Context `{Collaborators}.

(** [backup_append] for each command in turn, its result not looked at *)
Fixpoint append_all (cmds : list (dlist * Z)) (b : backup) (w : world)
  : res (backup * world) :=
  match cmds with
  | [] => Ret (b, w)
  | (dl, ts) :: rest =>
      '(_, b, w) ← backup_append b dl ts w;
      append_all rest b w
  end.

(** the lines of a chunk with the given commands *)
Definition chunk_lines (start : Z) (cmds : list (dlist * Z)) : list log_line :=
  Comment (header_line start)
    :: map (fun '(dl, ts) => Command ts "APPLY" dl) cmds.

(** the chunk row as [backup_index_start_sql] inserts it *)
Definition start_row (id ts offset : Z) (file_sha1 : string) : row :=
  [VInt id; VInt ts; VNull; VInt offset; VNull; VText file_sha1; VNull].

(** the chunk row after [backup_index_end_sql] *)
Definition end_row_of (id ts offset : Z) (file_sha1 : string) (data : bytes)
  : row :=
  [VInt id; VInt ts; VNull; VInt offset; VInt (Z.of_nat (length data));
   VText file_sha1; VText (sha1_hex data)].

(** An append session is open on [b], started from the handle [b0] with
    index [d0] over a log of members [ms] in the world [w0]; [lines] are the
    lines written so far.  The writer is sound and has flushed them into
    the last member of the log, the digest context and the byte count
    cover them, and the index holds the savepoint taken at the start. *)
Definition session_open (b0 : backup) (d0 : sqldb) (ms : list member)
    (w0 : world) (lines : list log_line) (b : backup) (w : world) : Prop :=
  data_fname b = data_fname b0 /\ index_fname b = index_fname b0
  /\ oldindex_fname b = oldindex_fname b0 /\ fd b = fd b0
  /\ (exists st gz d,
        append_state b = Some st /\ mode st = 0 /\ gzfile st = Some gz
        /\ gz_errnum gz = 0 /\ gz_started gz = true /\ gz_pending gz = []
        /\ gz_flushed gz = lines /\ gz_fname gz = data_fname b0
        /\ index_id st = wrap32 (next_id (t_chunk (db_tables d0)))
        /\ sha_ctx st = flat_map line_bytes lines
        /\ wrote st = Z.of_nat (length (flat_map line_bytes lines))
        /\ db b = Some d /\ db_step_rc d = 0
        /\ db_savepoint d = Some (db_tables d0)
        /\ db_close_rc d = db_close_rc d0 /\ db_fname d = db_fname d0)
  /\ w_fs w !! data_fname b0
     = Some (FData (ms ++ [{| m_raw := gz_image (flat_map line_bytes lines) false;
                              m_lines := lines |}]))
  /\ (forall path, path <> data_fname b0 -> w_fs w !! path = w_fs w0 !! path).

(** open the store as [backup_open_paths] does when it is given the name
    of the index, run one session with the given commands, and look up the
    latest chunk row of the index *)
Definition run_session (data index : string) (cmds : list (dlist * Z))
    (w : world) : res (option row) :=
  '(bk, w) ← backup_open_paths data (Some index) w;
  match bk with
  | None => Ret None
  | Some b =>
      '(_, b, w) ← backup_append_start b w;
      '(b, w) ← append_all cmds b w;
      '(_, b, w) ← backup_append_end b w;
      d ← the_db b;
      Ret (latest (t_chunk (db_tables d)))
  end.

(** [backup_index] leaves the chunk table alone *)
Definition index_keeps_chunks : Prop :=
  forall t index_id dl start len,
    t_chunk (backup_index t index_id dl start len).2 = t_chunk t.

(** the chunk table of the open index of [b] *)
Definition chunks_are (b : backup) (rows : list row) : Prop :=
  exists d, db b = Some d /\ t_chunk (db_tables d) = rows.

(** An index-only session, as reindex runs it, is open on [b]: it was
    started from the handle [b0] with index [d0], [data] are the bytes it
    has hashed and counted; there is no writer. *)
Definition reindexing (b0 : backup) (d0 : sqldb) (data : bytes) (b : backup)
  : Prop :=
  data_fname b = data_fname b0 /\ index_fname b = index_fname b0
  /\ oldindex_fname b = oldindex_fname b0 /\ fd b = fd b0
  /\ exists st d,
       append_state b = Some st /\ mode st = BACKUP_APPEND_INDEXONLY
       /\ gzfile st = None
       /\ index_id st = wrap32 (next_id (t_chunk (db_tables d0)))
       /\ sha_ctx st = data /\ wrote st = Z.of_nat (length data)
       /\ db b = Some d /\ db_step_rc d = 0
       /\ db_savepoint d = Some (db_tables d0)
       /\ db_close_rc d = db_close_rc d0 /\ db_fname d = db_fname d0.

(** the commands the inner loop of reindex meets in the lines of a member:
    what [_parse_line] answers, call after call, until it answers EOF *)
Fixpoint commands_of (lines : list log_line) : list (Z * string * dlist) :=
  match lines with
  | [] => []
  | Command ts cmd dl :: rest => (ts, cmd, dl) :: commands_of rest
  | Comment _ :: rest =>
      match rest with
      | Command ts cmd dl :: rest' => (ts, cmd, dl) :: commands_of rest'
      | _ => []
      end
  end.

(** the inner loop over the commands *)
Fixpoint reindex_commands (member_offset prev_member_ts : Z)
    (cmds : list (Z * string * dlist)) (s : reindex_state)
  : res reindex_state :=
  match cmds with
  | [] => Ret s
  | (ts, cmd, dl) :: rest =>
      s ← reindex_line member_offset prev_member_ts s ts cmd dl;
      reindex_commands member_offset prev_member_ts rest s
  end.

(** the bytes reindex hashes and counts for a command: the line as
    [backup_append] builds it for an APPLY, nothing for another word *)
Definition reindexed_line (c : Z * string * dlist) : bytes :=
  let '(ts, cmd, dl) := c in
  if String.eqb cmd "APPLY" then line_bytes (Command ts "APPLY" (ucase_name dl))
  else [].

(** the bytes reindex hashes and counts for a member: the header line of
    the timestamp of its first command, then its APPLY lines *)
Definition reindexed_bytes (cmds : list (Z * string * dlist)) : bytes :=
  match cmds with
  | [] => []
  | (ts, _, _) :: _ => header_line ts ++ flat_map reindexed_line cmds
  end.

(** the timestamps of a member that the loop lets through, the member
    before having started at [prev_member_ts] (-1: there was none) *)
Definition accepted (prev_member_ts : Z) (cmds : list (Z * string * dlist))
  : Prop :=
  match cmds with
  | [] => False
  | (ts, _, _) :: rest =>
      ts <> -1 /\ (prev_member_ts = -1 \/ prev_member_ts <= ts)
      /\ Forall (fun c => ts <= c.1.1) rest
  end.

(** the timestamp of the first command, -1 where there is none *)
Definition first_ts (cmds : list (Z * string * dlist)) : Z :=
  match cmds with
  | (ts, _, _) :: _ => ts
  | [] => -1
  end.

(** every member of a log is let through, one after the other *)
Fixpoint all_accepted (prev_member_ts : Z) (ms : list member) : Prop :=
  match ms with
  | [] => True
  | m :: rest =>
      accepted prev_member_ts (commands_of (m_lines m))
      /\ all_accepted (first_ts (commands_of (m_lines m))) rest
  end.

(** the chunk rows reindex leaves for the members [ms] of the log with raw
    bytes [log], the first of them lying at [member_offset], after the rows
    [rows]: for each member its first timestamp, its offset, the digest of
    the raw bytes before it, and the size and digest of what was hashed *)
Fixpoint reindexed_chunks (log : bytes) (ms : list member) (member_offset : Z)
    (rows : list row) : list row :=
  match ms with
  | [] => rows
  | m :: rest =>
      let cmds := commands_of (m_lines m) in
      reindexed_chunks log rest
        (member_offset + Z.of_nat (length (m_raw m)))
        (rows ++ [end_row_of (next_id rows) (first_ts cmds) member_offset
                    (sha1_hex (take (Z.to_nat member_offset) log))
                    (reindexed_bytes cmds)])
  end.

(** the world [backup_reindex] leaves when it returns: the index moved to
    its .old name if there was one, the rebuilt index with the tables [t]
    in its place, and, where closing the database fails, the .old file
    renamed back over it *)
Definition reindexed_world (name : string) (t : tables) (w : world) : world :=
  let index := name +:+ ".index" in
  let old := index +:+ ".old" in
  let w1 := (rename index old w).2 in
  let w2 := set_fs w1 (<[index := FIndex t]> (w_fs w1)) in
  if w_db_close_rc w =? 0 then w2 else (rename old index w2).2.


End Sessions.

(** * What the further properties are stated with *)

(** the handle [_open_internal] returns in NORMAL mode on an index it
    opens with the tables [t] *)
Definition opened (data index : string) (t : tables) (w : world) : backup :=
  {| fd := 3; data_fname := data; index_fname := index; oldindex_fname := None;
     db := Some {| db_fname := index; db_tables := t; db_savepoint := None;
                   db_lastid := 0; db_step_rc := w_db_step_rc w;
                   db_close_rc := w_db_close_rc w |};
     append_state := None |}.

(** the host but for its files: what the calls of a session leave alone *)
Definition same_host (w w' : world) : Prop :=
  w_errno w' = w_errno w /\ w_time w' = w_time w /\ w_syslog w' = w_syslog w
  /\ w_backups_db w' = w_backups_db w
  /\ w_backup_data_path w' = w_backup_data_path w
  /\ w_mkstemp w' = w_mkstemp w
  /\ w_db_step_rc w' = w_db_step_rc w /\ w_db_close_rc w' = w_db_close_rc w.

(** the store of [unindexed_world], recorded for alice in the directory of
    backups *)
Definition recorded_world : world :=
  set_backups_db unindexed_world {["alice" := "log"]}.

(** a handle in a session whose writer is in the error state [errnum] *)
Definition broken_writer (errnum : Z) : backup :=
  {| fd := 3; data_fname := "log"; index_fname := "log.index";
     oldindex_fname := None; db := Some (index_on good_index 0);
     append_state :=
       Some {| mode := 0;
               gzfile := Some {| gz_fname := "log"; gz_pending := [];
                                 gz_flushed := [Comment (header_line 1700000000)];
                                 gz_started := true; gz_errnum := errnum |};
               index_id := 2; wrote := 40;
               sha_ctx := header_line 1700000000 |} |}.

(** [prev_member_ts] of [backup_reindex] after the members [ms], having
    been [prev] before them *)
Definition member_ts_after (prev : Z) (ms : list member) : Z :=
  match last ms with
  | Some m => first_ts (commands_of (m_lines m))
  | None => prev
  end.

(** a chunk that holds its header line alone, as a session without an
    append leaves it *)
Definition header_only : member := written [Comment (header_line 1700000000)].

(** a chunk whose second command is older than its first *)
Definition older_line : member :=
  written [Comment (header_line 1700000010);
           Command 1700000010 "APPLY" mailbox_cmd;
           Command 1700000005 "APPLY" expunge_cmd].

(** a chunk as a session writes it that starts at 1700000000 and takes
    its first command 65 seconds later *)
Definition later_append : member :=
  written (chunk_lines 1700000000 [(mailbox_cmd, 1700000065)]).

(** a store whose log holds [later_append] beside an index without a
    row *)
Definition later_append_world : world :=
  with_files empty_world
    [("log", FData [later_append]); ("log.index", FIndex empty_tables)].

(** a store with the given members in its log and no index *)
Definition log_world (ms : list member) : world :=
  with_files empty_world [("log", FData ms)].

(** a C string holds no NUL character *)
Fixpoint no_nul (s : string) : bool :=
  match s with
  | EmptyString => true
  | String c r => negb (Ascii.eqb c "000"%char) && no_nul r
  end.

(** a host with no file, where the directory of backups has alice's store
    at the path "log" *)
Definition recorded_fresh_world : world :=
  set_backups_db empty_world {["alice" := "log"]}.

(** ** Rows as the readers take them *)

Definition is_int (v : sqlval) : bool :=
  match v with VInt _ => true | _ => false end.

Definition is_text (v : sqlval) : bool :=
  match v with VText _ => true | _ => false end.

(** a column read as text, the empty string where it holds none *)
Definition col_text (i : nat) (r : row) : string :=
  match col i r with VText s => s | _ => EmptyString end.

(** the column types [_chunk_row_cb] asserts of a row *)
Definition chunk_typed (r : row) : bool :=
  is_int (col 0 r) && is_int (col 1 r) && is_int (col 2 r)
  && is_int (col 3 r) && is_int (col 4 r) && is_text (col 5 r)
  && is_text (col 6 r).

(** the [struct backup_chunk] that [_chunk_row_cb] fills from a row *)
Definition chunk_of_row (r : row) : backup_chunk :=
  {| c_id := wrap32 (col_int 0 r); c_ts_start := col_int 1 r;
     c_ts_end := col_int 2 r; c_offset := col_int 3 r;
     c_length := col_int 4 r; c_file_sha1 := col_text 5 r;
     c_data_sha1 := col_text 6 r |}.

(** the column types [_mailbox_row_cb] asserts of a row *)
Definition mailbox_typed (r : row) : bool :=
  is_int (col 0 r) && is_int (col 1 r) && is_text (col 2 r)
  && is_text (col 3 r) && is_text (col 4 r) && is_int (col 5 r)
  && is_int (col 6 r) && is_int (col 7 r) && is_int (col 8 r)
  && is_int (col 9 r) && is_int (col 10 r) && is_int (col 11 r)
  && is_int (col 12 r) && is_text (col 13 r) && is_text (col 14 r)
  && is_text (col 15 r) && is_int (col 16 r) && is_int (col 17 r)
  && is_text (col 18 r) && is_int (col 19 r) && is_text (col 20 r)
  && is_int (col 21 r).

(** the [struct backup_mailbox] that [_mailbox_row_cb] fills from a row
    when no records are wanted *)
Definition mailbox_of_row (r : row) : backup_mailbox :=
  {| mb_id := wrap32 (col_int 0 r); mb_last_chunk_id := wrap32 (col_int 1 r);
     mb_uniqueid := col_text 2 r; mb_mboxname := col_text 3 r;
     mb_mboxtype := col_text 4 r; mb_last_uid := wrap32 (col_int 5 r);
     mb_highestmodseq := col_int 6 r; mb_recentuid := wrap32 (col_int 7 r);
     mb_recenttime := col_int 8 r; mb_last_appenddate := col_int 9 r;
     mb_pop3_last_login := col_int 10 r; mb_pop3_show_after := col_int 11 r;
     mb_uidvalidity := wrap32 (col_int 12 r); mb_partition := col_text 13 r;
     mb_acl := col_text 14 r; mb_options := col_text 15 r;
     mb_sync_crc := wrap32 (col_int 16 r);
     mb_sync_crc_annot := wrap32 (col_int 17 r);
     mb_quotaroot := col_text 18 r; mb_xconvmodseq := col_int 19 r;
     mb_annotations := col_text 20 r; mb_deleted := col_int 21 r;
     mb_records := None |}.

(** the column types [_message_row_cb] asserts of a row *)
Definition message_typed (r : row) : bool :=
  is_int (col 0 r) && is_text (col 1 r) && is_text (col 2 r)
  && is_int (col 3 r) && is_int (col 4 r) && is_int (col 5 r).

(** the [struct backup_message] that [_message_row_cb] fills from a row
    whose guid decodes to [guid] *)
Definition message_of_row (r : row) (guid : message_guid) : backup_message :=
  {| msg_id := wrap32 (col_int 0 r); msg_guid := Some guid;
     msg_partition := Some (col_text 2 r);
     msg_chunk_id := wrap32 (col_int 3 r); msg_offset := col_int 4 r;
     msg_length := col_int 5 r |}.

(** a callback taken through a list until it answers non-zero *)
Fixpoint visit {A U} (proc : A -> U -> Z * U) (l : list A) (rock : U)
  : Z * U :=
  match l with
  | [] => (0, rock)
  | a :: rest =>
      let '(r, rock') := proc a rock in
      if r =? 0 then visit proc rest rock' else (r, rock')
  end.

(** what [backup_message_foreach] does with a row: the callback of the
    caller on the message, or -1 where the guid does not decode *)
Definition visit_message {U} (cb : backup_message -> U -> Z * U) (r : row)
    (rock : U) : Z * U :=
  match message_guid_decode (col_text 1 r) with
  | Some guid => cb (message_of_row r guid) rock
  | None => (-1, rock)
  end.

(** the record list [_mailbox_row_cb] leaves on a mailbox *)
Definition records_left (want_records : Z)
  : option (list backup_mailbox_message) :=
  if want_records =? 0 then None else Some [].

(** the column types [_mailbox_message_row_cb] asserts of a row *)
Definition mailbox_message_typed (r : row) : bool :=
  is_int (col 0 r) && is_int (col 1 r) && is_text (col 2 r)
  && is_int (col 3 r) && is_int (col 4 r) && is_int (col 5 r)
  && is_int (col 6 r) && is_int (col 7 r) && is_text (col 8 r)
  && is_int (col 9 r) && is_text (col 10 r) && is_int (col 11 r)
  && is_text (col 12 r) && is_int (col 13 r).

(** the [struct backup_mailbox] that [_mailbox_row_cb] leaves for a row:
    its columns, and the record list as [want_records] has it *)
Definition mailbox_read (want_records : Z) (r : row) : backup_mailbox :=
  set_records (mailbox_of_row r) (records_left want_records).

(** the index of a log that holds [one_apply 1700000000], its chunk at the
    last id an [int] holds *)
Definition last_id_index : tables :=
  {| t_chunk :=
       [[VInt 2147483647; VInt 1700000000; VNull; VInt 0; VInt 118;
         VText "da39a3ee5e6b4b0d3255bfef95601890afd80709";
         VText "db25df0b76a0655d7f81fff3acd7aa32b913f5e0"]];
     t_mailbox := []; t_message := []; t_mailbox_message := [] |}.

(** a store with one finished chunk and that index *)
Definition last_id_world : world :=
  with_files empty_world
    [("log", FData [one_apply 1700000000]);
     ("log.index", FIndex last_id_index)].


(** * The linked lists of backup/indexr.c, in memory

    The lists of indexr.c are kept above as the sequence of their elements.
    Here they are the structs the code works on: nodes in memory, each with
    its [next] pointer, under a head, a tail and a count. *)

Module Linked.

(** the address of a node; a null pointer is [None] *)
Abbreviation addr := positive.

(** a node: the fields of the struct other than [next], and [next] *)
Record node (A : Type) : Type := {
  payload : A;
  next : option addr;
}.
Arguments payload {A} _.
Arguments next {A} _.

Definition set_next {A} (n : node A) (p : option addr) : node A :=
  {| payload := payload n; next := p |}.

(** [struct backup_mailbox_list] and its like *)
Record llist : Type := {
  head : option addr;
  tail : option addr;
  count : Z;
}.

(** a list zeroed by [memset] *)
Definition zero_list : llist := {| head := None; tail := None; count := 0 |}.

Section Nodes.

Context {A : Type}.

(** the memory that holds the nodes *)
Abbreviation heap := (gmap addr (node A)).

(** [p->next = q]; a null or dangling [p] is a fault *)
Definition store_next (h : heap) (p : option addr) (q : option addr)
  : res heap :=
  match p with
  | Some a =>
      match h !! a with
      | Some n => Ret (<[a := set_next n q]> h)
      | None => Fatal "dangling node" 139
      end
  | None => Fatal "null node" 139
  end.

(** [p->next] *)
Definition load_next (h : heap) (p : addr) : res (option addr) :=
  match h !! p with
  | Some n => Ret (next n)
  | None => Fatal "dangling node" 139
  end.

(** [backup_mailbox_list_add], and [backup_mailbox_message_list_add], which
    is the same code on the other struct: the node goes to the tail *)
Definition backup_mailbox_list_add (h : heap) (list : llist)
    (mailbox : option addr) : res (heap * llist) :=
  h ← store_next h mailbox None;
  let list := if head list is None
              then {| head := mailbox; tail := tail list; count := count list |}
              else list in
  h ← (if tail list is Some t then store_next h (Some t) mailbox else Ret h);
  Ret (h, {| head := head list; tail := mailbox;
             count := to_size_t (count list + 1) |}).

(** the loop of [backup_mailbox_list_remove]: from [node] on, with [prev]
    behind it, to the node [mailbox] or to the end.  Every pass takes one
    node; [None] is a walk that [fuel] passes did not end. *)
Fixpoint find_node (fuel : nat) (h : heap) (prev node : option addr)
    (mailbox : addr) : option (res (option addr * option addr)) :=
  match node with
  | None => Some (Ret (prev, None))
  | Some a =>
      if decide (a = mailbox) then Some (Ret (prev, Some a))
      else
        match fuel with
        | O => None
        | S fuel' =>
            match load_next h a with
            | Ret nx => find_node fuel' h (Some a) nx mailbox
            | Fatal msg code => Some (Fatal msg code)
            end
        end
  end.

(** [backup_mailbox_list_remove], and [backup_mailbox_message_list_remove]:
    the node is unlinked and returned, null where the list does not hold
    it *)
Definition backup_mailbox_list_remove (fuel : nat) (h : heap) (list : llist)
    (mailbox : option addr) : option (res (heap * llist * option addr)) :=
  match mailbox with
  | None => Some (Fatal "mailbox != NULL" 134)
  | Some target =>
      found ← find_node fuel h None (head list) target;
      Some (
        '(prev, node) ← found;
        match node with
        | None => Ret (h, list, None)
        | Some a =>
            nx ← load_next h a;
            '(h, list) ←
              (if prev is Some _ then
                 h ← store_next h prev nx; Ret (h, list)
               else
                 _ ← assert (bool_decide (Some a = head list))
                       "node == list->head";
                 Ret (h, {| head := nx; tail := tail list;
                            count := count list |}));
            nx ← load_next h a;
            list ←
              (if nx is None then
                 _ ← assert (bool_decide (Some a = tail list))
                       "node == list->tail";
                 Ret {| head := head list; tail := prev; count := count list |}
               else Ret list);
            h ← store_next h (Some a) None;
            Ret (h, {| head := head list; tail := tail list;
                       count := to_size_t (count list - 1) |}, Some a)
        end)
  end.

(** the loop of [backup_mailbox_message_list_empty] and of
    [backup_chunk_list_empty]: every node from [node] on is freed, its
    [next] read before *)
Fixpoint free_nodes (fuel : nat) (h : heap) (node : option addr)
  : option (res heap) :=
  match node with
  | None => Some (Ret h)
  | Some a =>
      match fuel with
      | O => None
      | S fuel' =>
          match load_next h a with
          | Ret nx => free_nodes fuel' (delete a h) nx
          | Fatal msg code => Some (Fatal msg code)
          end
      end
  end.

(** [backup_mailbox_message_list_empty] and [backup_chunk_list_empty]: the
    nodes are freed and the list is zeroed *)
Definition backup_mailbox_message_list_empty (fuel : nat) (h : heap) (list : llist)
  : option (res (heap * llist)) :=
  freed ← free_nodes fuel h (head list);
  Some (h ← freed; Ret (h, zero_list)).

(** [backup_chunk_list_add]: "n.b. always inserts at head" *)
Definition backup_chunk_list_add (h : heap) (list : llist)
    (chunk : option addr) : res (heap * llist) :=
  h ← store_next h chunk (head list);
  let list := {| head := chunk; tail := tail list; count := count list |} in
  let list := if tail list is None
              then {| head := head list; tail := chunk; count := count list |}
              else list in
  Ret (h, {| head := head list; tail := tail list;
             count := to_size_t (count list + 1) |}).

(** the nodes from [start] on are those at [addrs], in this order, and the
    last of them has no successor *)
Fixpoint chain (h : heap) (start : option addr) (addrs : list addr) : Prop :=
  match addrs with
  | [] => start = None
  | a :: rest =>
      start = Some a /\ exists n, h !! a = Some n /\ chain h (next n) rest
  end.

(** [l] is a sound list of the nodes at [addrs] *)
Definition is_list (h : heap) (l : llist) (addrs : list addr) : Prop :=
  chain h (head l) addrs /\ tail l = last addrs
  /\ count l = Z.of_nat (length addrs).

(** the elements of the nodes at [addrs] *)
Definition payloads (h : heap) (addrs : list addr) : list A :=
  omap (fun a => payload <$> h !! a) addrs.

End Nodes.

(** three nodes in memory: the first two chained, the third on its own with
    a stale [next]; and the list of the first two *)
Definition three_nodes : gmap addr (node Z) :=
  {[ 1%positive := {| payload := 10; next := Some 2%positive |};
     2%positive := {| payload := 20; next := None |};
     3%positive := {| payload := 30; next := Some 1%positive |} ]}.

Definition two_list : llist :=
  {| head := Some 1%positive; tail := Some 2%positive; count := 2 |}.

End Linked.

(** * Properties *)

(** ** Checksums and the result monad *)

Example sha1_empty : sha1_hex [] = "da39a3ee5e6b4b0d3255bfef95601890afd80709".
Proof. vm_compute. reflexivity. Qed.

Example sha1_abc : sha1_hex (bytes_of "abc") = "a9993e364706816aba3e25717850c26c9cd0d89d".
Proof. vm_compute. reflexivity. Qed.

Lemma sha1_hex_length (m : bytes) : String.length (sha1_hex m) = 40%nat.
Proof.
  unfold sha1_hex, SHA1.xsha1.
  destruct (SHA1.blocks _ _ _) as [[[[h0 h1] h2] h3] h4].
  reflexivity.
Qed.

Lemma strncmp_refl (a : string) (n : nat) : strncmp a a n = 0.
Proof.
  revert a. induction n as [|n IH]; intros [|c a]; simpl; auto.
  rewrite Ascii.eqb_refl. apply IH.
Qed.

Lemma bind_ret_inv {A B} (m : res A) (k : A -> res B) (v : B) :
  m ≫= k = Ret v -> exists a, m = Ret a /\ k a = Ret v.
Proof. destruct m; simpl; [eauto | discriminate]. Qed.

Lemma read_loop_all (fuel : nat) (data ctx : bytes) (len : Z) :
  (length data <= fuel)%nat ->
  read_loop fuel data ctx len = (ctx ++ data, len + Z.of_nat (length data)).
Proof.
  revert data ctx len. induction fuel as [|fuel IH]; intros data ctx len Hf.
  - destruct data; simpl in *; [|lia]. by rewrite app_nil_r, Z.add_0_r.
  - destruct data as [|x data]; [simpl; by rewrite app_nil_r, Z.add_0_r|].
    cbn [read_loop]. rewrite IH.
    + rewrite <- app_assoc, take_drop. f_equal.
      rewrite <- Z.add_assoc, <- Nat2Z.inj_add, <- length_app, take_drop. done.
    + rewrite length_drop. simpl in *. lia.
Qed.

(** ** The readers *)

Lemma column_int_inv (stmt : row) (i : nat) (z : Z) :
  _column_int stmt i = Ret z -> z = wrap32 (col_int i stmt).
Proof.
  unfold _column_int, col_int. destruct (col i stmt); intros [=]; done.
Qed.

Lemma wrap32_small (z : Z) : -2^31 <= z < 2^31 -> wrap32 z = z.
Proof. intros Hz. unfold wrap32. rewrite Z.mod_small; lia. Qed.

(** peel the binds of a callback that answered *)
Ltac peel H :=
  repeat (let x := fresh "x" in let Hx := fresh "Hx" in
          apply bind_ret_inv in H as (x & Hx & H)).

Lemma chunk_row_cb_inv (stmt : row) (crock : _chunk_row_rock) (r : Z)
    (crock' : _chunk_row_rock) :
  _chunk_row_cb stmt crock = Ret (r, crock') ->
  r = 0 /\ exists c, c_id c = wrap32 (row_id stmt) /\
    crock' = match cr_save_list crock, cr_save_one crock with
             | Some l, _ => {| cr_save_list := Some (c :: l);
                               cr_save_one := cr_save_one crock |}
             | None, Some _ => {| cr_save_list := None;
                                  cr_save_one := Some (Some c) |}
             | None, None => crock
             end.
Proof.
  unfold _chunk_row_cb. intros H. peel H.
  injection H as <- <-. split; [done|].
  eexists. split; [|reflexivity]. simpl.
  by apply column_int_inv.
Qed.

Lemma exec_chunk_rows (rows : list row) (acc : list backup_chunk) (r : Z)
    (crock' : _chunk_row_rock) :
  exec_rows _chunk_row_cb rows {| cr_save_list := Some acc; cr_save_one := None |}
    = Ret (r, crock') ->
  r = 0 /\ exists cs,
    crock' = {| cr_save_list := Some (reverse cs ++ acc); cr_save_one := None |}
    /\ map c_id cs = map (fun row => wrap32 (row_id row)) rows.
Proof.
  revert acc. induction rows as [|row rows IH]; intros acc H; simpl in H.
  - injection H as <- <-. split; [done|]. by exists [].
  - apply bind_ret_inv in H as ([rc rock1] & Hcb & H).
    apply chunk_row_cb_inv in Hcb as (-> & c & Hc & ->). simpl in H.
    apply IH in H as (-> & cs & -> & Hcs). split; [done|].
    exists (c :: cs). rewrite reverse_cons, <- app_assoc. simpl.
    by rewrite Hc, Hcs.
Qed.

Lemma StronglySorted_reverse (l : list Z) :
  StronglySorted Z.lt l -> StronglySorted Z.gt (reverse l).
Proof.
  induction l as [|x l IH]; intros Hs; [constructor|].
  apply StronglySorted_cons in Hs as [Hx Hs].
  rewrite reverse_cons. apply StronglySorted_app. split_and!.
  - intros y z Hy Hz. apply list_elem_of_singleton in Hz as ->.
    rewrite elem_of_reverse in Hy. rewrite Forall_forall in Hx.
    specialize (Hx y Hy). lia.
  - by apply IH.
  - repeat constructor.
Qed.

Lemma map_reverse {A B} (f : A -> B) (l : list A) :
  map f (reverse l) = reverse (map f l).
Proof.
  induction l as [|x l IH]; [done|].
  simpl. by rewrite !reverse_cons, map_app, IH.
Qed.

(** C8, as amended: [backup_get_chunks] gives all the chunk rows in the
    reverse of the order in which the select-all statement yields them,
    every row being inserted at the head of the list; the table being in
    ascending id order, the first element of the list has the greatest id
    and every next one a smaller id. *)
Theorem backup_get_chunks_latest_first (b : backup) (d : sqldb)
    (l : list backup_chunk) :
  db b = Some d -> db_step_rc d = 0 ->
  backup_get_chunks b = Ret (Some l) ->
  map c_id l
    = reverse (map (fun row => wrap32 (row_id row)) (t_chunk (db_tables d)))
  /\ (StronglySorted Z.lt (map row_id (t_chunk (db_tables d))) ->
      Forall (fun row => -2^31 <= row_id row < 2^31) (t_chunk (db_tables d)) ->
      StronglySorted Z.gt (map c_id l)).
Proof.
  intros Hdb Hrc H. unfold backup_get_chunks, the_db in H.
  rewrite Hdb in H. simpl in H. unfold sqldb_exec in H.
  rewrite Hrc in H. simpl in H.
  apply bind_ret_inv in H as ([[r crock] d'] & Hex & H).
  apply bind_ret_inv in Hex as ([r' crock'] & Hex & [= -> -> <-]).
  apply exec_chunk_rows in Hex as (-> & cs & -> & Hcs).
  simpl in H. injection H as <-. rewrite app_nil_r.
  assert (Hl : map c_id (reverse cs)
               = reverse (map (fun row => wrap32 (row_id row))
                            (t_chunk (db_tables d)))).
  { by rewrite <- Hcs, map_reverse. }
  split; [done|]. intros Hs Hr. rewrite Hl.
  replace (map (fun row => wrap32 (row_id row)) (t_chunk (db_tables d)))
    with (map row_id (t_chunk (db_tables d))).
  - by apply StronglySorted_reverse.
  - apply map_ext_Forall. eapply Forall_impl; [exact Hr|].
    intros row Hrow. simpl. by rewrite wrap32_small.
Qed.

Lemma backup_get_chunks_latest_first_witness :
  exists l, backup_get_chunks (handle_on two_chunks 0) = Ret (Some l)
    /\ map c_id l = [2; 1] /\ StronglySorted Z.gt (map c_id l).
Proof.
  eexists. split; [vm_compute; reflexivity|].
  destruct (backup_get_chunks_latest_first (handle_on two_chunks 0) _ _
              eq_refl eq_refl eq_refl) as [Hids Hs].
  split; [exact Hids|]. apply Hs.
  - repeat constructor.
  - repeat constructor; vm_compute; congruence.
Defined.

(** C8, as stated, fails: on an index with the chunks 1 and 2 the list
    starts with chunk 2. *)
Lemma backup_get_chunks_not_ascending :
  exists l, backup_get_chunks (handle_on two_chunks 0) = Ret (Some l)
    /\ map c_id l = [2; 1] /\ ~ StronglySorted Z.lt (map c_id l).
Proof.
  eexists. split; [vm_compute; reflexivity|]. split; [reflexivity|].
  intros Hs. apply StronglySorted_cons in Hs as [Hx _].
  apply Forall_cons in Hx as [Hx _]. vm_compute in Hx. discriminate.
Qed.

Lemma sqldb_exec_ok {S} (d : sqldb) (cmd : sql) (bval : bindvals)
    (cb : sqldb_cb S) (rock : S) :
  db_step_rc d = 0 ->
  (forall bv t, sql_write cmd bv t = t) ->
  cmd <> backup_index_start_sql ->
  sqldb_exec d cmd bval (Some cb) rock
  = '(rc, rock') ← exec_rows cb (sql_rows cmd bval (db_tables d)) rock;
    Ret (rc, rock', d).
Proof.
  intros Hrc Hw Hcmd. unfold sqldb_exec. rewrite Hrc. simpl.
  rewrite Hw. destruct d; destruct cmd; done.
Qed.

Lemma sqldb_exec_error {S} (d : sqldb) (cmd : sql) (bval : bindvals)
    (cb : option (sqldb_cb S)) (rock : S) :
  db_step_rc d <> 0 -> sqldb_exec d cmd bval cb rock = Ret (-1, rock, d).
Proof.
  intros Hrc. unfold sqldb_exec.
  destruct (db_step_rc d =? 0) eqn:E; [lia|done].
Qed.

(** no row with the guid: the zeroed object is what the caller gets *)
Lemma backup_get_message_no_row (b : backup) (d : sqldb) (guid : message_guid) :
  db b = Some d -> db_step_rc d = 0 ->
  where_eq 1 (message_guid_encode guid) (t_message (db_tables d)) = [] ->
  backup_get_message b guid = Ret (Some zero_message).
Proof.
  intros Hdb Hrc Hno. unfold backup_get_message, the_db. rewrite Hdb. simpl.
  rewrite sqldb_exec_ok by done. simpl. by rewrite Hno.
Qed.

Lemma backup_get_message_id_no_row (b : backup) (d : sqldb) (guid : string) :
  db b = Some d -> db_step_rc d = 0 ->
  where_eq 1 (VText guid) (t_message (db_tables d)) = [] ->
  backup_get_message_id b guid = Ret (-1).
Proof.
  intros Hdb Hrc Hno. unfold backup_get_message_id, the_db. rewrite Hdb. simpl.
  rewrite sqldb_exec_ok by done. simpl. by rewrite Hno.
Qed.

Lemma backup_get_message_id_error (b : backup) (d : sqldb) (guid : string) :
  db b = Some d -> db_step_rc d <> 0 ->
  backup_get_message_id b guid = Ret (-1).
Proof.
  intros Hdb Hrc. unfold backup_get_message_id, the_db. rewrite Hdb. simpl.
  by rewrite sqldb_exec_error.
Qed.

(** C9: on an index that holds no message with the guid ffff..ff,
    [backup_get_message] hands a message object back, the zeroed one, where
    the claim has it answer "no message"; and [backup_get_message_id]
    answers -1 for the missing row as it does when the engine fails. *)
Theorem backup_get_message_missing_row :
  let guid := "ffffffffffffffffffffffffffffffffffffffff" in
  backup_get_message (handle_on two_chunks 0) (Guid guid)
    = Ret (Some zero_message)
  /\ backup_get_message (handle_on two_chunks 1) (Guid guid) = Ret None
  /\ backup_get_message_id (handle_on two_chunks 0) guid = Ret (-1)
  /\ backup_get_message_id (handle_on two_chunks 1) guid = Ret (-1)
  /\ backup_get_message_id (handle_on two_chunks 0)
       "8f1d9a0c5b7e4f3a2d6c1b0e9f8a7d6c5b4e3f2a" = Ret 1.
Proof. vm_compute. repeat split. Qed.

Lemma mailbox_message_row_cb_inv (stmt : row)
    (save_list : option (list backup_mailbox_message)) (r : Z)
    (save_list' : option (list backup_mailbox_message)) :
  _mailbox_message_row_cb stmt save_list = Ret (r, save_list') ->
  r = 0 /\ exists mm,
    mm_id mm = wrap32 (col_int 0 stmt)
    /\ mm_last_chunk_id mm = wrap32 (col_int 4 stmt)
    /\ save_list' = (fun l => l ++ [mm]) <$> save_list.
Proof.
  unfold _mailbox_message_row_cb. intros H. peel H.
  injection H as <- <-. split; [done|].
  eexists. split_and!; [| |destruct save_list; reflexivity]; simpl;
    by apply column_int_inv.
Qed.

Lemma exec_mailbox_message_rows (rows : list row)
    (save_list : option (list backup_mailbox_message)) (r : Z)
    (save_list' : option (list backup_mailbox_message)) :
  exec_rows _mailbox_message_row_cb rows save_list = Ret (r, save_list') ->
  r = 0 /\ exists mms,
    save_list' = (fun l => l ++ mms) <$> save_list
    /\ map (fun mm => (mm_id mm, mm_last_chunk_id mm)) mms
       = map (fun row => (wrap32 (col_int 0 row), wrap32 (col_int 4 row))) rows.
Proof.
  revert save_list. induction rows as [|row rows IH]; intros save_list H;
    simpl in H.
  - injection H as <- <-. split; [done|]. exists [].
    split; [|done]. destruct save_list; simpl; [|done].
    by rewrite app_nil_r.
  - apply bind_ret_inv in H as ([rc rock1] & Hcb & H).
    apply mailbox_message_row_cb_inv in Hcb as (-> & mm & Hid & Hck & ->).
    simpl in H. apply IH in H as (-> & mms & -> & Hids).
    split; [done|]. exists (mm :: mms). split.
    + destruct save_list; simpl; [|done]. by rewrite <- app_assoc.
    + simpl. by rewrite Hid, Hck, Hids.
Qed.

Lemma mailbox_row_cb_inv {U} (stmt : row) (mbrock : _mailbox_row_rock U)
    (r : Z) (mbrock' : _mailbox_row_rock U) :
  _mailbox_row_cb stmt mbrock = Ret (r, mbrock') ->
  exists m,
    mb_id m = wrap32 (col_int 0 stmt)
    /\ mb_last_chunk_id m = wrap32 (col_int 1 stmt)
    /\ mr_save_list mbrock' = (fun l => l ++ [m]) <$> mr_save_list mbrock
    /\ mr_db mbrock' = mr_db mbrock /\ mr_proc mbrock' = mr_proc mbrock
    /\ mr_want_records mbrock' = mr_want_records mbrock
    /\ (mr_proc mbrock = None -> db_step_rc (mr_db mbrock) = 0 -> r = 0).
Proof.
  unfold _mailbox_row_cb. intros H. peel H.
  destruct x21 as [r1 m]. 
  assert (Hm : mb_id m = wrap32 (col_int 0 stmt)
               /\ mb_last_chunk_id m = wrap32 (col_int 1 stmt)
               /\ (db_step_rc (mr_db mbrock) = 0 -> r1 = 0)).
  { destruct (mr_want_records mbrock =? 0).
    - injection Hx21 as <- <-. simpl.
      split_and!; [by apply column_int_inv..|done].
    - apply bind_ret_inv in Hx21 as ([[r2 sl] d2] & Hex & Hx21).
      assert (Hr2 : db_step_rc (mr_db mbrock) = 0 -> r2 = 0).
      { intros Hrc. rewrite sqldb_exec_ok in Hex by done.
        apply bind_ret_inv in Hex as ([r3 sl3] & Hex & [= -> _ _]).
        by apply exec_mailbox_message_rows in Hex as [-> _]. }
      destruct (r2 =? 0) eqn:E; injection Hx21 as <- <-; simpl;
        (split_and!; [by apply column_int_inv..|auto]). }
  destruct Hm as (Hid & Hck & Hr1).
  exists m. destruct (mr_proc mbrock) as [proc|] eqn:Hproc.
  - destruct (proc m (mr_rock mbrock)) as [r' rock'].
    injection H as <- <-.
    destruct (mr_save_list mbrock), (mr_save_one mbrock); simpl;
      split_and!; done.
  - injection H as <- <-.
    destruct (mr_save_list mbrock), (mr_save_one mbrock); simpl;
      split_and!; auto.
Qed.

Lemma exec_mailbox_rows {U} (rows : list row) (mbrock : _mailbox_row_rock U)
    (r : Z) (mbrock' : _mailbox_row_rock U) :
  mr_proc mbrock = None -> db_step_rc (mr_db mbrock) = 0 ->
  exec_rows _mailbox_row_cb rows mbrock = Ret (r, mbrock') ->
  r = 0 /\ exists ms,
    mr_save_list mbrock' = (fun l => l ++ ms) <$> mr_save_list mbrock
    /\ map (fun m => (mb_id m, mb_last_chunk_id m)) ms
       = map (fun row => (wrap32 (col_int 0 row), wrap32 (col_int 1 row))) rows.
Proof.
  revert mbrock. induction rows as [|row rows IH]; intros mbrock Hp Hrc H;
    simpl in H.
  - injection H as <- <-. split; [done|]. exists [].
    split; [|done]. destruct (mr_save_list mbrock); simpl; [|done].
    by rewrite app_nil_r.
  - apply bind_ret_inv in H as ([rc rock1] & Hcb & H).
    apply mailbox_row_cb_inv in Hcb
      as (m & Hid & Hck & Hsl & Hdb & Hpr & _ & Hr).
    rewrite (Hr Hp Hrc) in H. simpl in H.
    apply IH in H as (-> & ms & Hsl' & Hids); [|congruence..].
    split; [done|]. exists (m :: ms). split.
    + rewrite Hsl', Hsl. destruct (mr_save_list mbrock); simpl; [|done].
      by rewrite <- app_assoc.
    + simpl. by rewrite Hid, Hck, Hids.
Qed.

(** C10: with [chunk_id] 0 the four readers run their select-all statement:
    [backup_mailbox_foreach] and [backup_message_foreach] take their
    callback through the whole table, and [backup_get_mailboxes] and
    [backup_get_mailbox_messages] return one element for every row of the
    table, whatever its last_chunk_id; so a row whose chunk id is not 0 is
    among those returned for the argument 0. *)
Theorem chunk_id_zero_is_no_filter (b : backup) (d : sqldb) :
  db b = Some d -> db_step_rc d = 0 ->
  (forall U want cb (rock : U),
     backup_mailbox_foreach b 0 want cb rock
     = '(r, mbrock) ← exec_rows _mailbox_row_cb (t_mailbox (db_tables d))
                        {| mr_db := d; mr_proc := cb; mr_rock := rock;
                           mr_save_list := None; mr_save_one := None;
                           mr_want_records := want |};
       Ret (r, mr_rock mbrock))
  /\ (forall want l,
        backup_get_mailboxes b 0 want = Ret (Some l) ->
        map (fun m => (mb_id m, mb_last_chunk_id m)) l
        = map (fun row => (wrap32 (col_int 0 row), wrap32 (col_int 1 row)))
            (t_mailbox (db_tables d)))
  /\ (forall l,
        backup_get_mailbox_messages b 0 = Ret (Some l) ->
        map (fun mm => (mm_id mm, mm_last_chunk_id mm)) l
        = map (fun row => (wrap32 (col_int 0 row), wrap32 (col_int 4 row)))
            (t_mailbox_message (db_tables d)))
  /\ (forall U cb (rock : U),
        backup_message_foreach b 0 cb rock
        = exec_rows (_message_row_cb cb) (t_message (db_tables d)) rock).
Proof.
  intros Hdb Hrc. split_and!.
  - intros U want cb rock. unfold backup_mailbox_foreach, the_db.
    rewrite Hdb. simpl. rewrite sqldb_exec_ok by done. simpl.
    destruct (exec_rows _ _ _) as [[r mbrock]|]; reflexivity.
  - intros want l H. unfold backup_get_mailboxes, the_db in H.
    rewrite Hdb in H. simpl in H. rewrite sqldb_exec_ok in H by done.
    apply bind_ret_inv in H as ([[r mbrock] d'] & Hex & H).
    apply bind_ret_inv in Hex as ([r' mbrock'] & Hex & [= -> -> _]).
    apply exec_mailbox_rows in Hex as (-> & ms & Hsl & Hids); [|done..].
    simpl in H, Hsl. rewrite Hsl in H. by injection H as <-.
  - intros l H. unfold backup_get_mailbox_messages, the_db in H.
    rewrite Hdb in H. simpl in H. rewrite sqldb_exec_ok in H by done.
    apply bind_ret_inv in H as ([[r sl] d'] & Hex & H).
    apply bind_ret_inv in Hex as ([r' sl'] & Hex & [= -> -> _]).
    apply exec_mailbox_message_rows in Hex as (-> & mms & -> & Hids).
    simpl in H. by injection H as <-.
  - intros U cb rock. unfold backup_message_foreach, the_db.
    rewrite Hdb. simpl. rewrite sqldb_exec_ok by done. simpl.
    destruct (exec_rows _ _ _) as [[r rock']|]; reflexivity.
Qed.

Lemma chunk_id_zero_is_no_filter_witness :
  let b := handle_on two_chunks 0 in
  backup_mailbox_foreach b 0 0 (Some note_mailbox) [] = Ret (0, [1; 2])
  /\ backup_mailbox_foreach b 2 0 (Some note_mailbox) [] = Ret (0, [2])
  /\ (exists l, backup_get_mailboxes b 0 0 = Ret (Some l)
        /\ map (fun m => (mb_id m, mb_last_chunk_id m)) l = [(1, 0); (2, 2)])
  /\ (exists l, backup_get_mailbox_messages b 0 = Ret (Some l)
        /\ map (fun mm => (mm_id mm, mm_last_chunk_id mm)) l = [(1, 1); (2, 2)])
  /\ backup_message_foreach b 0 note_message [] = Ret (0, [1; 2])
  /\ backup_message_foreach b 2 note_message [] = Ret (0, [2]).
Proof.
  intros b.
  destruct (chunk_id_zero_is_no_filter b _ eq_refl eq_refl)
    as (Hfe & Hmb & Hmm & Hmsg).
  split_and!.
  - rewrite Hfe. vm_compute. reflexivity.
  - vm_compute. reflexivity.
  - assert (E : exists l, backup_get_mailboxes b 0 0 = Ret (Some l)).
    { vm_compute. eexists. reflexivity. }
    destruct E as [l E]. exists l. split; [exact E|]. rewrite (Hmb _ _ E).
    vm_compute. reflexivity.
  - assert (E : exists l, backup_get_mailbox_messages b 0 = Ret (Some l)).
    { vm_compute. eexists. reflexivity. }
    destruct E as [l E]. exists l. split; [exact E|]. rewrite (Hmm _ E).
    vm_compute. reflexivity.
  - rewrite Hmsg. vm_compute. reflexivity.
  - vm_compute. reflexivity.
Defined.


(** ** Further properties of the readers *)

Lemma column_int_typed (r : row) (i : nat) :
  is_int (col i r) = true -> _column_int r i = Ret (wrap32 (col_int i r)).
Proof. unfold _column_int, col_int. by destruct (col i r). Qed.

Lemma column_int64_typed (r : row) (i : nat) :
  is_int (col i r) = true -> _column_int64 r i = Ret (col_int i r).
Proof. unfold _column_int64, col_int. by destruct (col i r). Qed.

Lemma column_text_typed (r : row) (i : nat) :
  is_text (col i r) = true -> _column_text r i = Ret (col_text i r).
Proof. unfold _column_text, col_text. by destruct (col i r). Qed.

Lemma column_int_untyped (r : row) (i : nat) :
  is_int (col i r) = false ->
  _column_int r i
  = Fatal "sqlite3_column_type(stmt, column) == SQLITE_INTEGER" 134.
Proof. unfold _column_int. by destruct (col i r). Qed.

Lemma column_int64_untyped (r : row) (i : nat) :
  is_int (col i r) = false ->
  _column_int64 r i
  = Fatal "sqlite3_column_type(stmt, column) == SQLITE_INTEGER" 134.
Proof. unfold _column_int64. by destruct (col i r). Qed.

Lemma column_text_untyped (r : row) (i : nat) :
  is_text (col i r) = false ->
  _column_text r i
  = Fatal "sqlite3_column_type(stmt, column) == SQLITE_TEXT" 134.
Proof. unfold _column_text. by destruct (col i r). Qed.

(** read the columns of a row whose types are known *)
Ltac typed_columns :=
  repeat match goal with
         | H : _ && _ = true |- _ => apply andb_true_iff in H as [? ?]
         end;
  repeat first [ rewrite column_int_typed by assumption
               | rewrite column_int64_typed by assumption
               | rewrite column_text_typed by assumption ];
  cbn [mbind res_bind].

(** read the columns of a row up to the first of the wrong type *)
Ltac untyped_columns r :=
  repeat match goal with
         | |- context [_column_int r ?i] =>
             destruct (is_int (col i r)) eqn:?;
             [rewrite (column_int_typed r i) by assumption; cbn [mbind res_bind]
             |rewrite (column_int_untyped r i) by assumption;
              eexists; reflexivity]
         | |- context [_column_int64 r ?i] =>
             destruct (is_int (col i r)) eqn:?;
             [rewrite (column_int64_typed r i) by assumption;
              cbn [mbind res_bind]
             |rewrite (column_int64_untyped r i) by assumption;
              eexists; reflexivity]
         | |- context [_column_text r ?i] =>
             destruct (is_text (col i r)) eqn:?;
             [rewrite (column_text_typed r i) by assumption;
              cbn [mbind res_bind]
             |rewrite (column_text_untyped r i) by assumption;
              eexists; reflexivity]
         end.

Lemma chunk_row_cb_typed (r : row) (crock : _chunk_row_rock) :
  chunk_typed r = true ->
  _chunk_row_cb r crock
  = Ret (0,
         match cr_save_list crock, cr_save_one crock with
         | Some l, _ => {| cr_save_list := Some (chunk_of_row r :: l);
                           cr_save_one := cr_save_one crock |}
         | None, Some _ => {| cr_save_list := None;
                              cr_save_one := Some (Some (chunk_of_row r)) |}
         | None, None => crock
         end).
Proof.
  unfold chunk_typed, _chunk_row_cb. intros Ht. typed_columns. reflexivity.
Qed.

Lemma chunk_row_cb_untyped (r : row) (crock : _chunk_row_rock) :
  chunk_typed r = false ->
  exists msg, _chunk_row_cb r crock = Fatal msg 134.
Proof.
  unfold chunk_typed, _chunk_row_cb. intros Ht. untyped_columns r.
  repeat match goal with H : _ = true |- _ => rewrite H in Ht end.
  discriminate.
Qed.

Lemma exec_chunk_rows_typed (rows : list row) :
  forall acc : list backup_chunk,
  Forall (fun r => chunk_typed r = true) rows ->
  exec_rows _chunk_row_cb rows {| cr_save_list := Some acc; cr_save_one := None |}
  = Ret (0, {| cr_save_list := Some (reverse (map chunk_of_row rows) ++ acc);
               cr_save_one := None |}).
Proof.
  induction rows as [|r rows IH]; intros acc Ht; [done|].
  apply Forall_cons in Ht as [Hr Ht]. cbn [exec_rows].
  rewrite chunk_row_cb_typed by done. cbn [mbind res_bind cr_save_list cr_save_one].
  change (0 =? 0) with true. cbv iota. rewrite IH by done.
  cbn [map]. by rewrite reverse_cons, <- app_assoc.
Qed.

Lemma exec_rows_fatal {S} (cb : sqldb_cb S) (pre : list row) (r : row)
    (post : list row) (msg : string) (code : Z) :
  forall rock : S,
  (forall rock', cb r rock' = Fatal msg code) ->
  Forall (fun r' => forall rock', exists rock'', cb r' rock' = Ret (0, rock'')) pre ->
  exec_rows cb (pre ++ r :: post) rock = Fatal msg code.
Proof.
  intros rock Hr Hpre. revert rock.
  induction Hpre as [|r' pre Hr' _ IH]; intros rock; cbn [app exec_rows].
  - by rewrite Hr.
  - destruct (Hr' rock) as [rock'' ->]. cbn. apply IH.
Qed.

Lemma last_map {A B} (f : A -> B) (l : list A) :
  last (map f l) = f <$> last l.
Proof.
  induction l as [|x l IH]; [done|].
  destruct l as [|y l]; [done|]. cbn [map] in *.
  by rewrite !last_cons_cons.
Qed.

Lemma latest_sorted (rows : list row) :
  StronglySorted Z.lt (map row_id rows) -> latest rows = last rows.
Proof.
  induction rows as [|r rows IH]; intros Hs; [done|].
  cbn [map] in Hs. apply StronglySorted_cons in Hs as [Hr Hs].
  cbn [latest]. rewrite (IH Hs).
  destruct rows as [|r' rows]; [done|]. rewrite last_cons_cons.
  destruct (last (r' :: rows)) as [r''|] eqn:E; [|by apply last_None in E].
  assert (Hin : row_id r'' ∈ map row_id (r' :: rows)).
  { apply list_elem_of_In, in_map, list_elem_of_In. 
    apply last_Some in E as [l' ->]. set_solver. }
  rewrite Forall_forall in Hr. specialize (Hr _ Hin).
  destruct (row_id r <? row_id r'') eqn:E'; [done|lia].
Qed.

(** [backup_get_chunks] on a table whose rows have the column types the
    callback asserts returns the chunk of every row, the last row first; a
    row with a column of another type, a NULL for one, aborts the
    process. *)
Theorem backup_get_chunks_reads_rows (b : backup) (d : sqldb) :
  db b = Some d -> db_step_rc d = 0 ->
  (Forall (fun r => chunk_typed r = true) (t_chunk (db_tables d)) ->
   backup_get_chunks b
   = Ret (Some (reverse (map chunk_of_row (t_chunk (db_tables d))))))
  /\ (forall pre r post,
        t_chunk (db_tables d) = pre ++ r :: post ->
        Forall (fun r => chunk_typed r = true) pre -> chunk_typed r = false ->
        exists msg, backup_get_chunks b = Fatal msg 134).
Proof.
  intros Hdb Hrc. unfold backup_get_chunks, the_db. rewrite Hdb.
  cbn [mbind res_bind]. rewrite sqldb_exec_ok by done.
  cbn [sql_rows]. split.
  - intros Ht. rewrite exec_chunk_rows_typed by done. cbn.
    by rewrite app_nil_r.
  - intros pre r post -> Hpre Hr.
    destruct (chunk_row_cb_untyped r {| cr_save_list := None;
                                        cr_save_one := None |} Hr)
      as [msg Hmsg].
    exists msg. erewrite (exec_rows_fatal _ pre r post msg 134); [done| |].
    + intros rock'. destruct (chunk_row_cb_untyped r rock' Hr) as [msg' Hmsg'].
      rewrite Hmsg'. f_equal.
      unfold _chunk_row_cb in Hmsg, Hmsg'.
      destruct (_column_int r 0) as [?|m0 c0]; cbn [mbind res_bind] in *;
        [|congruence].
      destruct (_column_int64 r 1) as [?|m0 c0]; cbn [mbind res_bind] in *;
        [|congruence].
      destruct (_column_int64 r 2) as [?|m0 c0]; cbn [mbind res_bind] in *;
        [|congruence].
      destruct (_column_int64 r 3) as [?|m0 c0]; cbn [mbind res_bind] in *;
        [|congruence].
      destruct (_column_int64 r 4) as [?|m0 c0]; cbn [mbind res_bind] in *;
        [|congruence].
      destruct (_column_text r 5) as [?|m0 c0]; cbn [mbind res_bind] in *;
        [|congruence].
      destruct (_column_text r 6) as [?|m0 c0]; cbn [mbind res_bind] in *;
        [|congruence].
      discriminate.
    + eapply Forall_impl; [exact Hpre|]. intros r' Hr' rock'.
      rewrite chunk_row_cb_typed by done. by eexists.
Qed.

(** The latest chunk is the head of the chunk list: on a table in
    ascending id order whose rows have the column types the callback
    asserts, [backup_get_latest_chunk] returns the first element of what
    [backup_get_chunks] returns, and null where the table has no row; when
    the engine fails both return null, so that "no chunk" and an error are
    one answer of [backup_get_latest_chunk]. *)
Theorem backup_get_latest_chunk_is_head (b : backup) (d : sqldb) :
  db b = Some d ->
  (db_step_rc d <> 0 ->
   backup_get_latest_chunk b = Ret None /\ backup_get_chunks b = Ret None)
  /\ (db_step_rc d = 0 ->
      Forall (fun r => chunk_typed r = true) (t_chunk (db_tables d)) ->
      StronglySorted Z.lt (map row_id (t_chunk (db_tables d))) ->
      exists l,
        backup_get_chunks b = Ret (Some l)
        /\ backup_get_latest_chunk b = Ret (head l)
        /\ (t_chunk (db_tables d) = [] -> head l = None)).
Proof.
  intros Hdb. split.
  - intros Hrc. unfold backup_get_latest_chunk, backup_get_chunks, the_db.
    rewrite Hdb. cbn [mbind res_bind]. by rewrite !sqldb_exec_error.
  - intros Hrc Ht Hs. eexists. split; [|split].
    + unfold backup_get_chunks, the_db. rewrite Hdb.
      cbn [mbind res_bind]. rewrite sqldb_exec_ok by done.
      cbn [sql_rows]. rewrite exec_chunk_rows_typed by done. cbn.
      rewrite app_nil_r. reflexivity.
    + unfold backup_get_latest_chunk, the_db. rewrite Hdb.
      cbn [mbind res_bind]. rewrite sqldb_exec_ok by done.
      cbn [sql_rows]. rewrite latest_sorted by done.
      rewrite head_reverse, last_map.
      destruct (last (t_chunk (db_tables d))) as [r|] eqn:E; [|done].
      change (option_list (Some r)) with [r]. cbn [exec_rows].
      rewrite chunk_row_cb_typed; [done|].
      rewrite Forall_forall in Ht. apply Ht.
      apply last_Some in E as [l' ->]. set_solver.
    + intros ->. done.
Qed.

(** a record row given to a null list is read and dropped *)
Lemma mailbox_message_row_cb_dropped (r : row) :
  mailbox_message_typed r = true ->
  _mailbox_message_row_cb r None = Ret (0, None).
Proof.
  unfold mailbox_message_typed, _mailbox_message_row_cb. intros Ht.
  typed_columns. reflexivity.
Qed.

Lemma exec_mailbox_message_rows_dropped (rows : list row) :
  Forall (fun r => mailbox_message_typed r = true) rows ->
  exec_rows _mailbox_message_row_cb rows None = Ret (0, None).
Proof.
  induction 1 as [|r rows Hr _ IH]; [done|]. cbn [exec_rows].
  rewrite mailbox_message_row_cb_dropped by done. cbn [mbind res_bind].
  exact IH.
Qed.

Lemma where_eq_Forall (P : row -> Prop) (i : nat) (v : sqlval)
    (rows : list row) :
  Forall P rows -> Forall P (where_eq i v rows).
Proof.
  unfold where_eq. induction 1 as [|r rows Hr _ IH]; [constructor|].
  simpl. destruct (sql_eq (col i r) v); [by constructor|done].
Qed.

Lemma mailbox_row_cb_wanted {U} (r : row) (mbrock : _mailbox_row_rock U) :
  mailbox_typed r = true -> mr_proc mbrock = None ->
  db_step_rc (mr_db mbrock) = 0 ->
  mr_want_records mbrock = 0
  \/ Forall (fun r => mailbox_message_typed r = true)
       (t_mailbox_message (db_tables (mr_db mbrock))) ->
  _mailbox_row_cb r mbrock
  = Ret (0,
         let m := mailbox_read (mr_want_records mbrock) r in
         match mr_save_list mbrock, mr_save_one mbrock with
         | Some l, _ =>
             {| mr_db := mr_db mbrock; mr_proc := None; mr_rock := mr_rock mbrock;
                mr_save_list := Some (l ++ [m]);
                mr_save_one := mr_save_one mbrock;
                mr_want_records := mr_want_records mbrock |}
         | None, Some _ =>
             {| mr_db := mr_db mbrock; mr_proc := None; mr_rock := mr_rock mbrock;
                mr_save_list := None; mr_save_one := Some (Some m);
                mr_want_records := mr_want_records mbrock |}
         | None, None =>
             {| mr_db := mr_db mbrock; mr_proc := None; mr_rock := mr_rock mbrock;
                mr_save_list := None; mr_save_one := None;
                mr_want_records := mr_want_records mbrock |}
         end).
Proof.
  unfold mailbox_typed, _mailbox_row_cb, mailbox_read, records_left.
  intros Ht Hp Hrc Hw. typed_columns. rewrite Hp.
  destruct (mr_want_records mbrock =? 0) eqn:E.
  - cbn. destruct (mr_save_list mbrock), (mr_save_one mbrock); reflexivity.
  - destruct Hw as [Hw|Hw]; [apply Z.eqb_neq in E; done|].
    rewrite sqldb_exec_ok by done.
    rewrite exec_mailbox_message_rows_dropped
      by (by apply where_eq_Forall).
    cbn. destruct (mr_save_list mbrock), (mr_save_one mbrock); reflexivity.
Qed.

Lemma exec_mailbox_rows_wanted (rows : list row) :
  forall (d : sqldb) (want_records : Z) (one : option backup_mailbox),
  Forall (fun r => mailbox_typed r = true) rows ->
  db_step_rc d = 0 ->
  want_records = 0
  \/ Forall (fun r => mailbox_message_typed r = true)
       (t_mailbox_message (db_tables d)) ->
  exec_rows _mailbox_row_cb rows
    {| mr_db := d; mr_proc := None; mr_rock := tt; mr_save_list := None;
       mr_save_one := Some one; mr_want_records := want_records |}
  = Ret (0, {| mr_db := d; mr_proc := None; mr_rock := tt;
               mr_save_list := None;
               mr_save_one :=
                 Some (if last rows is Some r
                       then Some (mailbox_read want_records r) else one);
               mr_want_records := want_records |}).
Proof.
  induction rows as [|r rows IH]; intros d want_records one Ht Hrc Hw; [done|].
  apply Forall_cons in Ht as [Hr Ht]. cbn [exec_rows].
  rewrite mailbox_row_cb_wanted by done.
  cbn [mbind res_bind mr_save_list mr_save_one mr_db mr_rock mr_want_records].
  change (0 =? 0) with true. cbv iota. rewrite IH by done.
  destruct rows as [|r' rows]; [done|]. rewrite last_cons_cons.
  destruct (last (r' :: rows)) eqn:E; [done|]. by apply last_None in E.
Qed.

(** [backup_get_mailbox_by_name], with records wanted or not, answers the
    mailbox of the last row with the name: where several rows carry it,
    the rows before the last are dropped; and it answers null both where
    no row has the name and where the engine fails.  With records wanted
    the inner statement reads the rows of the record table, which must
    have the types its callback asserts, and the mailbox comes back with an
    empty record list; without, its record list is null. *)
Theorem backup_get_mailbox_by_name_answers (b : backup) (d : sqldb)
    (mbname : string) (want_records : Z) :
  db b = Some d ->
  let rows := where_eq 3 (VText mbname) (t_mailbox (db_tables d)) in
  (db_step_rc d <> 0 ->
   backup_get_mailbox_by_name b mbname want_records = Ret None)
  /\ (db_step_rc d = 0 -> Forall (fun r => mailbox_typed r = true) rows ->
      want_records = 0
      \/ Forall (fun r => mailbox_message_typed r = true)
           (t_mailbox_message (db_tables d)) ->
      backup_get_mailbox_by_name b mbname want_records
      = Ret (mailbox_read want_records <$> last rows)).
Proof.
  intros Hdb rows. unfold backup_get_mailbox_by_name, the_db. rewrite Hdb.
  cbn [mbind res_bind]. split.
  - intros Hrc. by rewrite sqldb_exec_error.
  - intros Hrc Ht Hw. rewrite sqldb_exec_ok by done.
    cbn [sql_rows bind_get String.eqb Ascii.eqb Bool.eqb]. fold rows.
    rewrite exec_mailbox_rows_wanted by done. cbn.
    by destruct (last rows).
Qed.

Lemma get_mailbox_id_cb_typed (r : row) (id : Z) :
  is_int (col 0 r) = true ->
  _get_mailbox_id_cb r id = Ret (0, wrap32 (col_int 0 r)).
Proof.
  intros Hr. unfold _get_mailbox_id_cb. by rewrite column_int_typed.
Qed.

Lemma exec_mailbox_id_rows (rows : list row) :
  forall id : Z,
  Forall (fun r => is_int (col 0 r) = true) rows ->
  exec_rows _get_mailbox_id_cb rows id
  = Ret (0, if last rows is Some r then wrap32 (col_int 0 r) else id).
Proof.
  induction rows as [|r rows IH]; intros id Ht; [done|].
  apply Forall_cons in Ht as [Hr Ht]. cbn [exec_rows].
  rewrite get_mailbox_id_cb_typed by done.
  cbn [mbind res_bind]. change (0 =? 0) with true. cbv iota.
  rewrite IH by done.
  destruct rows as [|r' rows]; [done|]. rewrite last_cons_cons.
  destruct (last (r' :: rows)) eqn:E; [done|]. by apply last_None in E.
Qed.

(** [backup_get_mailbox_id] answers the id of the last row with the
    uniqueid, cut to 32 bits, and -1 both where no row has it and where the
    engine fails. *)
Theorem backup_get_mailbox_id_answers (b : backup) (d : sqldb)
    (uniqueid : string) :
  db b = Some d ->
  let rows := where_eq 2 (VText uniqueid) (t_mailbox (db_tables d)) in
  (db_step_rc d <> 0 -> backup_get_mailbox_id b uniqueid = Ret (-1))
  /\ (db_step_rc d = 0 -> Forall (fun r => is_int (col 0 r) = true) rows ->
      backup_get_mailbox_id b uniqueid
      = Ret (if last rows is Some r then wrap32 (col_int 0 r) else -1)).
Proof.
  intros Hdb rows. unfold backup_get_mailbox_id, the_db. rewrite Hdb.
  cbn [mbind res_bind]. split.
  - intros Hrc. by rewrite sqldb_exec_error.
  - intros Hrc Ht. rewrite sqldb_exec_ok by done.
    cbn [sql_rows bind_get String.eqb Ascii.eqb Bool.eqb]. fold rows.
    by rewrite exec_mailbox_id_rows.
Qed.

Lemma message_row_cb_typed {U} (cb : backup_message -> U -> Z * U) (r : row)
    (rock : U) :
  message_typed r = true ->
  _message_row_cb cb r rock = Ret (visit_message cb r rock).
Proof.
  unfold message_typed, _message_row_cb, visit_message. intros Ht.
  typed_columns. by destruct (message_guid_decode _).
Qed.

Lemma exec_message_rows {U} (cb : backup_message -> U -> Z * U)
    (rows : list row) :
  forall rock : U,
  Forall (fun r => message_typed r = true) rows ->
  exec_rows (_message_row_cb cb) rows rock
  = Ret (visit (visit_message cb) rows rock).
Proof.
  induction rows as [|r rows IH]; intros rock Ht; [done|].
  apply Forall_cons in Ht as [Hr Ht]. cbn [exec_rows visit].
  rewrite message_row_cb_typed by done. cbn [mbind res_bind].
  destruct (visit_message cb r rock) as [rc rock'].
  destruct (rc =? 0); [by apply IH|done].
Qed.

(** [backup_message_foreach] takes the callback through the messages of
    the rows in their order, each with the columns of its row, until the
    callback answers non-zero, which is then the answer; a row whose guid
    does not decode ends the walk with -1 and is not given to the
    callback. *)
Theorem backup_message_foreach_visits {U} (b : backup) (d : sqldb)
    (chunk_id : Z) (cb : backup_message -> U -> Z * U) (rock : U) :
  db b = Some d -> db_step_rc d = 0 ->
  let rows := if chunk_id =? 0 then t_message (db_tables d)
              else where_eq 3 (VInt chunk_id) (t_message (db_tables d)) in
  Forall (fun r => message_typed r = true) rows ->
  backup_message_foreach b chunk_id cb rock
  = Ret (visit (visit_message cb) rows rock).
Proof.
  intros Hdb Hrc rows Ht. unfold backup_message_foreach, the_db. rewrite Hdb.
  cbn [mbind res_bind]. subst rows.
  destruct (chunk_id =? 0); rewrite sqldb_exec_ok by done;
    cbn [sql_rows bind_get String.eqb Ascii.eqb Bool.eqb];
    rewrite exec_message_rows by done;
    cbn; by destruct (visit _ _ _).
Qed.

Lemma mailbox_row_cb_records {U} (stmt : row) (mbrock : _mailbox_row_rock U)
    (mbrock' : _mailbox_row_rock U) :
  _mailbox_row_cb stmt mbrock = Ret (0, mbrock') -> mr_proc mbrock = None ->
  mr_proc mbrock' = None /\ mr_want_records mbrock' = mr_want_records mbrock
  /\ exists m,
       mb_records m = records_left (mr_want_records mbrock)
       /\ mr_save_list mbrock' = (fun l => l ++ [m]) <$> mr_save_list mbrock
       /\ (mr_save_list mbrock = None ->
           mr_save_one mbrock' = (fun _ => Some m) <$> mr_save_one mbrock).
Proof.
  unfold _mailbox_row_cb, records_left. intros H Hp. peel H.
  destruct x21 as [r1 m]. rewrite Hp in H.
  assert (Hm : r1 = 0 -> mb_records m
                         = if mr_want_records mbrock =? 0 then None else Some []).
  { intros ->. destruct (mr_want_records mbrock =? 0).
    - by injection Hx21 as <-.
    - apply bind_ret_inv in Hx21 as ([[r2 sl] d2] & _ & Hx21).
      destruct (r2 =? 0) eqn:E; injection Hx21 as Hr <-; [done|lia]. }
  destruct (mr_save_list mbrock), (mr_save_one mbrock);
    injection H as -> <-; cbn; split_and!; try done;
    eexists; (split; [by apply Hm|]); done.
Qed.

Lemma exec_mailbox_rows_records {U} (rows : list row) :
  forall (mbrock mbrock' : _mailbox_row_rock U),
  exec_rows _mailbox_row_cb rows mbrock = Ret (0, mbrock') ->
  mr_proc mbrock = None ->
  exists ms,
    Forall (fun m => mb_records m = records_left (mr_want_records mbrock)) ms
    /\ mr_save_list mbrock' = (fun l => l ++ ms) <$> mr_save_list mbrock
    /\ (mr_save_list mbrock = None ->
        mr_save_one mbrock'
        = (fun one => if last ms is Some m then Some m else one)
            <$> mr_save_one mbrock).
Proof.
  induction rows as [|r rows IH]; intros mbrock mbrock' H Hp; cbn in H.
  - injection H as <-. exists []. split_and!; [done| |].
    + destruct (mr_save_list mbrock); cbn; [|done]. by rewrite app_nil_r.
    + intros _. by destruct (mr_save_one mbrock).
  - apply bind_ret_inv in H as ([rc rock1] & Hcb & H).
    destruct (rc =? 0) eqn:E; [|injection H as -> _; lia].
    apply Z.eqb_eq in E as ->.
    apply mailbox_row_cb_records in Hcb as (Hp1 & Hw1 & m & Hm & Hsl & Hso);
      [|done].
    apply IH in H as (ms & Hms & Hsl' & Hso'); [|done].
    exists (m :: ms). rewrite Hw1 in Hms. split_and!.
    + by constructor.
    + rewrite Hsl', Hsl. destruct (mr_save_list mbrock); cbn; [|done].
      by rewrite <- app_assoc.
    + intros Hnone. rewrite Hsl, Hnone in Hso'. rewrite Hso', Hso by done.
      destruct (mr_save_one mbrock); cbn; [|done].
      destruct ms as [|m' ms]; [done|]. rewrite last_cons_cons.
      destruct (last (m' :: ms)) eqn:E; [done|]. by apply last_None in E.
Qed.

(** The records of a mailbox are never filled: [_mailbox_row_cb] gives the
    inner statement the record list of the mailbox, which is still null,
    and keeps a fresh empty list.  So with [want_records] every mailbox that
    [backup_get_mailboxes] or [backup_get_mailbox_by_name] returns has an
    empty record list, whatever the index holds for it, and without
    [want_records] it has none. *)
Theorem mailbox_records_are_never_filled (b : backup) (chunk_id : Z)
    (want_records : Z) (mbname : string) :
  (forall l, backup_get_mailboxes b chunk_id want_records = Ret (Some l) ->
             Forall (fun m => mb_records m = records_left want_records) l)
  /\ (forall m, backup_get_mailbox_by_name b mbname want_records
                = Ret (Some m) ->
                mb_records m = records_left want_records).
Proof.
  split.
  - intros l H. unfold backup_get_mailboxes, the_db in H.
    destruct (db b) as [d|]; [|done]. cbn [mbind res_bind] in H.
    apply bind_ret_inv in H as ([[r mbrock] d'] & Hex & H).
    destruct (r =? 0) eqn:E; [|done]. apply Z.eqb_eq in E as ->.
    injection H as H. unfold sqldb_exec in Hex.
    destruct (db_step_rc d =? 0); [|done].
    apply bind_ret_inv in Hex as ([r' mbrock'] & Hex & [= -> -> _]).
    apply exec_mailbox_rows_records in Hex as (ms & Hms & Hsl & _); [|done].
    rewrite Hsl in H. by injection H as <-.
  - intros m H. unfold backup_get_mailbox_by_name, the_db in H.
    destruct (db b) as [d|]; [|done]. cbn [mbind res_bind] in H.
    apply bind_ret_inv in H as ([[r mbrock] d'] & Hex & H).
    destruct (r =? 0) eqn:E; [|done]. apply Z.eqb_eq in E as ->.
    injection H as H. unfold sqldb_exec in Hex.
    destruct (db_step_rc d =? 0); [|done].
    apply bind_ret_inv in Hex as ([r' mbrock'] & Hex & [= -> -> _]).
    apply exec_mailbox_rows_records in Hex as (ms & Hms & _ & Hso); [|done].
    rewrite Hso in H by done. cbn in H.
    destruct (last ms) as [m'|] eqn:E; [|done]. injection H as ->.
    rewrite Forall_forall in Hms. apply Hms.
    apply last_Some in E as [l' ->]. set_solver.
Qed.

(** *** Runs of the readers *)

Lemma backup_get_chunks_reads_rows_witness :
  backup_get_chunks (handle_on two_chunks 0)
  = Ret (Some (reverse (map chunk_of_row (t_chunk two_chunks))))
  /\ exists msg, backup_get_chunks (handle_on stale_index 0) = Fatal msg 134.
Proof.
  split.
  - apply (backup_get_chunks_reads_rows (handle_on two_chunks 0)
             (index_on two_chunks 0) eq_refl eq_refl).
    repeat constructor.
  - exact (proj2 (backup_get_chunks_reads_rows (handle_on stale_index 0)
                    (index_on stale_index 0) eq_refl eq_refl)
             [] _ [] eq_refl (List.Forall_nil _) eq_refl).
Defined.

Lemma backup_get_latest_chunk_is_head_witness :
  (backup_get_latest_chunk (handle_on two_chunks 1) = Ret None
   /\ backup_get_chunks (handle_on two_chunks 1) = Ret None)
  /\ exists l,
       backup_get_chunks (handle_on two_chunks 0) = Ret (Some l)
       /\ backup_get_latest_chunk (handle_on two_chunks 0) = Ret (head l)
       /\ (t_chunk two_chunks = [] -> head l = None).
Proof.
  split.
  - apply (backup_get_latest_chunk_is_head (handle_on two_chunks 1)
             (index_on two_chunks 1) eq_refl).
    vm_compute. congruence.
  - apply (backup_get_latest_chunk_is_head (handle_on two_chunks 0)
             (index_on two_chunks 0) eq_refl); [reflexivity| |].
    + repeat constructor.
    + repeat constructor.
Defined.

Lemma backup_get_mailbox_by_name_answers_witness :
  backup_get_mailbox_by_name (handle_on two_chunks 1) "user.alice" 1 = Ret None
  /\ backup_get_mailbox_by_name (handle_on two_chunks 0) "user.bob" 1 = Ret None
  /\ (exists m,
        backup_get_mailbox_by_name (handle_on two_chunks 0) "user.alice.Sent" 0
        = Ret (Some m)
        /\ mb_id m = 2 /\ mb_mboxname m = "user.alice.Sent"
        /\ mb_records m = None)
  /\ (exists m,
        backup_get_mailbox_by_name (handle_on two_chunks 0) "user.alice.Sent" 1
        = Ret (Some m)
        /\ mb_id m = 2 /\ mb_mboxname m = "user.alice.Sent"
        /\ mb_records m = Some []).
Proof.
  assert (Hrecords : Forall (fun r => mailbox_message_typed r = true)
                       (t_mailbox_message two_chunks))
    by (vm_compute; repeat constructor).
  split_and!.
  - apply (backup_get_mailbox_by_name_answers (handle_on two_chunks 1)
             (index_on two_chunks 1) "user.alice" 1 eq_refl).
    vm_compute. congruence.
  - rewrite (proj2 (backup_get_mailbox_by_name_answers (handle_on two_chunks 0)
                      (index_on two_chunks 0) "user.bob" 1 eq_refl) eq_refl);
      [reflexivity|constructor|by right].
  - rewrite (proj2 (backup_get_mailbox_by_name_answers (handle_on two_chunks 0)
                      (index_on two_chunks 0) "user.alice.Sent" 0 eq_refl)
               eq_refl).
    + eexists. split; [reflexivity|]. split_and!; reflexivity.
    + vm_compute. repeat constructor.
    + by left.
  - rewrite (proj2 (backup_get_mailbox_by_name_answers (handle_on two_chunks 0)
                      (index_on two_chunks 0) "user.alice.Sent" 1 eq_refl)
               eq_refl).
    + eexists. split; [reflexivity|]. split_and!; reflexivity.
    + vm_compute. repeat constructor.
    + by right.
Defined.

Lemma backup_get_mailbox_id_answers_witness :
  backup_get_mailbox_id (handle_on two_chunks 1) "9b0d4e11" = Ret (-1)
  /\ backup_get_mailbox_id (handle_on two_chunks 0) "00000000" = Ret (-1)
  /\ backup_get_mailbox_id (handle_on two_chunks 0) "9b0d4e11" = Ret 2.
Proof.
  split_and!.
  - apply (backup_get_mailbox_id_answers (handle_on two_chunks 1)
             (index_on two_chunks 1) "9b0d4e11" eq_refl).
    vm_compute. congruence.
  - rewrite (proj2 (backup_get_mailbox_id_answers (handle_on two_chunks 0)
                      (index_on two_chunks 0) "00000000" eq_refl) eq_refl);
      [reflexivity|constructor].
  - rewrite (proj2 (backup_get_mailbox_id_answers (handle_on two_chunks 0)
                      (index_on two_chunks 0) "9b0d4e11" eq_refl) eq_refl);
      [reflexivity|]. vm_compute. repeat constructor.
Defined.

Lemma backup_message_foreach_visits_witness :
  backup_message_foreach (handle_on two_chunks 0) 0 note_message []
  = Ret (0, [1; 2])
  /\ backup_message_foreach (handle_on two_chunks 0) 2
       (fun m seen => (7, seen ++ [msg_id m])) []
     = Ret (7, [2]).
Proof.
  split.
  - rewrite (backup_message_foreach_visits (handle_on two_chunks 0)
               (index_on two_chunks 0) 0 note_message [] eq_refl eq_refl);
      [reflexivity|]. repeat constructor.
  - rewrite (backup_message_foreach_visits (handle_on two_chunks 0)
               (index_on two_chunks 0) 2 _ [] eq_refl eq_refl);
      [reflexivity|]. vm_compute. repeat constructor.
Defined.

Lemma mailbox_records_are_never_filled_witness :
  exists l,
    backup_get_mailboxes (handle_on two_chunks 0) 0 1 = Ret (Some l)
    /\ length l = 2%nat
    /\ Forall (fun m => mb_records m = Some []) l
    /\ length (where_eq 1 (VInt 1) (t_mailbox_message two_chunks)) = 1%nat.
Proof.
  assert (E : exists l,
            backup_get_mailboxes (handle_on two_chunks 0) 0 1 = Ret (Some l)
            /\ length l = 2%nat).
  { vm_compute. eexists. split; reflexivity. }
  destruct E as (l & E & Hlen). exists l. split_and!; [done..| |reflexivity].
  exact (proj1 (mailbox_records_are_never_filled (handle_on two_chunks 0) 0 1
                  "user.alice") l E).
Defined.

(** ** The linked lists in memory *)
Section LinkedProperties.

Context {A : Type}.

Implicit Types (h : gmap positive (Linked.node A)) (l : Linked.llist).
Implicit Types (addrs pre post : list positive) (p q : positive).

Lemma chain_head h (s : option positive) addrs :
  Linked.chain h s addrs -> s = head addrs.
Proof. destruct addrs; simpl; [done|]. by intros [-> _]. Qed.

Lemma chain_frame h h' (s : option positive) addrs :
  (forall a, a ∈ addrs -> h' !! a = h !! a) ->
  Linked.chain h s addrs -> Linked.chain h' s addrs.
Proof.
  revert s. induction addrs as [|a addrs IH]; intros s Hsame; [done|].
  simpl. intros (-> & n & Hn & Hrest). split; [done|]. exists n. split.
  - rewrite Hsame; [done|]. set_solver.
  - apply IH; [|done]. intros b Hb. apply Hsame. set_solver.
Qed.

Lemma chain_det h (s : option positive) addrs addrs' :
  Linked.chain h s addrs -> Linked.chain h s addrs' -> addrs = addrs'.
Proof.
  revert s addrs'. induction addrs as [|a addrs IH]; intros s [|a' addrs'];
    simpl; try done.
  - by intros -> [? _].
  - by intros [-> _] ?.
  - intros (-> & n & Hn & Hrest) ([= <-] & n' & Hn' & Hrest').
    rewrite Hn in Hn'. injection Hn' as <-. f_equal. by eapply IH.
Qed.

Lemma chain_suffix h (s : option positive) pre addrs :
  Linked.chain h s (pre ++ addrs) ->
  exists s', Linked.chain h s' addrs.
Proof.
  revert s. induction pre as [|a pre IH]; intros s; simpl; [by eexists|].
  intros (_ & n & _ & Hrest). by eapply IH.
Qed.

Lemma chain_NoDup h (s : option positive) addrs :
  Linked.chain h s addrs -> NoDup addrs.
Proof.
  revert s. induction addrs as [|a addrs IH]; intros s; [constructor|].
  intros Hc. pose proof Hc as (-> & n & Hn & Hrest).
  constructor; [|by eapply IH]. intros Hin.
  apply list_elem_of_split in Hin as (pre & post & ->).
  destruct (chain_suffix h (Linked.next n) pre (a :: post) Hrest) as [s' Hs'].
  pose proof Hs' as [-> _].
  pose proof (chain_det _ _ _ _ Hc Hs') as E.
  apply (f_equal length) in E. rewrite !length_cons, length_app in E.
  simpl in E. lia.
Qed.

Lemma chain_snoc h (s : option positive) addrs (t p : positive)
    (tn pn : Linked.node A) :
  Linked.chain h s addrs -> last addrs = Some t -> p ∉ addrs ->
  h !! t = Some tn -> Linked.next pn = None ->
  Linked.chain (<[t := Linked.set_next tn (Some p)]> (<[p := pn]> h)) s
    (addrs ++ [p]).
Proof.
  intros Hc Hlast Hp Ht Hpn. pose proof (chain_NoDup _ _ _ Hc) as Hnd.
  revert s Hc Hlast Hp Hnd.
  induction addrs as [|a addrs IH]; intros s Hc Hlast Hp Hnd; [done|].
  destruct Hc as (-> & n & Hn & Hrest).
  apply NoDup_cons in Hnd as [Ha Hnd].
  assert (Hap : a <> p) by set_solver.
  destruct addrs as [|b addrs].
  - injection Hlast as <-. simpl in Hrest.
    rewrite Hn in Ht. injection Ht as <-.
    cbn. split; [done|]. eexists. rewrite lookup_insert_eq.
    split; [done|]. cbn. split; [done|]. exists pn.
    rewrite lookup_insert_ne by done. rewrite lookup_insert_eq. done.
  - rewrite last_cons_cons in Hlast.
    assert (Hat : a <> t).
    { intros ->. apply Ha. apply last_Some in Hlast as [l' ->].
      rewrite ?elem_of_app, ?elem_of_cons. tauto. }
    cbn [app]. split; [done|]. exists n.
    rewrite !lookup_insert_ne by done. split; [done|].
    apply IH; [done..| |done].
    intros Hin. apply Hp. by right.
Qed.

Lemma chain_lookup h (s : option positive) addrs (a : positive) :
  Linked.chain h s addrs -> a ∈ addrs -> exists n, h !! a = Some n.
Proof.
  revert s. induction addrs as [|b addrs IH]; intros s Hc Ha;
    [by apply elem_of_nil in Ha|].
  destruct Hc as (-> & n & Hn & Hrest).
  apply elem_of_cons in Ha as [->|Ha]; [by eexists|]. by eapply IH.
Qed.

Lemma payloads_ext h h' addrs :
  (forall a, a ∈ addrs ->
             Linked.payload <$> h' !! a = Linked.payload <$> h !! a) ->
  Linked.payloads h' addrs = Linked.payloads h addrs.
Proof.
  induction addrs as [|a addrs IH]; intros Hsame; [done|].
  unfold Linked.payloads in *. cbn [omap list_omap].
  rewrite (Hsame a) by set_solver. rewrite IH; [done|].
  intros b Hb. apply Hsame. set_solver.
Qed.

Lemma payloads_snoc h addrs p (x : A) :
  Linked.payload <$> h !! p = Some x ->
  Linked.payloads h (addrs ++ [p]) = Linked.payloads h addrs ++ [x].
Proof.
  intros Hp. unfold Linked.payloads. rewrite omap_app. cbn. by rewrite Hp.
Qed.

(** [backup_mailbox_list_add] on a sound list and a node that is not in
    it: the list is sound again and holds the node after the nodes it had,
    the elements of which are as they were; this is the sequence with the
    element added at its end.  No node but the new one and the old tail is
    written. *)
Theorem list_add_appends h l addrs p (n : Linked.node A) :
  Linked.is_list h l addrs -> h !! p = Some n -> p ∉ addrs ->
  Z.of_nat (length addrs) + 1 < 2^64 ->
  exists h' l',
    Linked.backup_mailbox_list_add h l (Some p) = Ret (h', l')
    /\ Linked.is_list h' l' (addrs ++ [p])
    /\ Linked.payloads h' (addrs ++ [p])
       = Linked.payloads h addrs ++ [Linked.payload n]
    /\ (forall q, q <> p -> Some q <> Linked.tail l -> h' !! q = h !! q).
Proof.
  intros (Hc & Htail & Hcount) Hp Hnotin Hmax.
  unfold Linked.backup_mailbox_list_add, Linked.store_next. rewrite Hp.
  cbn [mbind res_bind].
  destruct (last addrs) as [t|] eqn:Hlast.
  - assert (Htin : t ∈ addrs).
    { apply last_Some in Hlast as [l' ->]. set_solver. }
    destruct (chain_lookup _ _ _ _ Hc Htin) as [tn Htn].
    assert (Htp : t <> p) by (intros ->; done).
    destruct addrs as [|a0 addrs0]; [done|].
    pose proof Hc as [Hhead _]. rewrite Hhead, Htail.
    cbn [Linked.tail Linked.head Linked.count].
    rewrite lookup_insert_ne by done. rewrite Htn. cbn [mbind res_bind].
    do 2 eexists. split; [reflexivity|]. split_and!.
    + split_and!; cbn [Linked.tail Linked.head Linked.count].
      * apply chain_snoc; done.
      * by rewrite last_snoc.
      * rewrite Hcount. unfold to_size_t. cbn [length app] in *.
        rewrite length_app. cbn [length]. rewrite Z.mod_small; lia.
    + rewrite (payloads_snoc _ _ _ (Linked.payload n)).
      * f_equal. apply payloads_ext. intros a Ha.
        destruct (decide (a = t)) as [->|Hat].
        -- rewrite lookup_insert_eq, Htn. done.
        -- rewrite !lookup_insert_ne; [done| |done]. by intros ->.
      * rewrite lookup_insert_ne by done. by rewrite lookup_insert_eq.
    + intros q Hq Hqt. rewrite !lookup_insert_ne by congruence. done.
  - apply last_None in Hlast. subst addrs. simpl in Hc, Htail.
    rewrite Hc, Htail. cbn.
    do 2 eexists. split; [reflexivity|]. split_and!.
    + split_and!; cbn; [|done|rewrite Hcount; done].
      split; [done|]. eexists. rewrite lookup_insert_eq. done.
    + unfold Linked.payloads. cbn. by rewrite lookup_insert_eq.
    + intros q Hq _. by rewrite lookup_insert_ne.
Qed.

(** [backup_chunk_list_add] on a sound list and a node that is not in it:
    the list is sound again and holds the node before the nodes it had;
    this is the sequence with the element added at its head.  No other node
    is written. *)
Theorem chunk_list_add_prepends h l addrs p (n : Linked.node A) :
  Linked.is_list h l addrs -> h !! p = Some n -> p ∉ addrs ->
  Z.of_nat (length addrs) + 1 < 2^64 ->
  exists h' l',
    Linked.backup_chunk_list_add h l (Some p) = Ret (h', l')
    /\ Linked.is_list h' l' (p :: addrs)
    /\ Linked.payloads h' (p :: addrs)
       = Linked.payload n :: Linked.payloads h addrs
    /\ (forall q, q <> p -> h' !! q = h !! q).
Proof.
  intros (Hc & Htail & Hcount) Hp Hnotin Hmax.
  unfold Linked.backup_chunk_list_add, Linked.store_next. rewrite Hp.
  cbn [mbind res_bind Linked.tail Linked.head Linked.count].
  do 2 eexists. split; [reflexivity|].
  assert (Hframe : forall a, a ∈ addrs ->
            <[p := Linked.set_next n (Linked.head l)]> h !! a = h !! a).
  { intros a Ha. rewrite lookup_insert_ne; [done|]. by intros ->. }
  split_and!.
  - split_and!.
    + destruct (Linked.tail l); cbn; (split; [done|]);
        eexists; rewrite lookup_insert_eq; (split; [done|]); cbn;
        by apply (chain_frame h).
    + rewrite Htail. destruct addrs as [|a addrs]; [done|].
      rewrite last_cons_cons.
      by destruct (last (a :: addrs)) eqn:E; [|apply last_None in E].
    + destruct (Linked.tail l); cbn; rewrite Hcount; unfold to_size_t;
        cbn [length]; rewrite Z.mod_small; lia.
  - unfold Linked.payloads. cbn [omap list_omap]. rewrite lookup_insert_eq.
    cbn. f_equal. apply payloads_ext. intros a Ha. by rewrite Hframe.
  - intros q Hq. by rewrite lookup_insert_ne.
Qed.

Lemma find_node_found h pre :
  forall (fuel : nat) (prev s : option positive) post p,
  Linked.chain h s (pre ++ p :: post) -> p ∉ pre ->
  (length pre <= fuel)%nat ->
  Linked.find_node fuel h prev s p
  = Some (Ret (if last pre is Some q then Some q else prev, Some p)).
Proof.
  induction pre as [|a pre IH]; intros fuel prev s post p Hc Hp Hfuel.
  - destruct Hc as (-> & _). destruct fuel; cbn; by rewrite decide_True.
  - destruct Hc as (-> & n & Hn & Hrest).
    destruct fuel as [|fuel]; [simpl in Hfuel; lia|].
    cbn [Linked.find_node]. rewrite decide_False by set_solver.
    unfold Linked.load_next. rewrite Hn.
    rewrite (IH fuel (Some a) _ post p Hrest); [|set_solver|simpl in Hfuel; lia].
    destruct pre as [|b pre]; [done|]. rewrite last_cons_cons.
    by destruct (last (b :: pre)) eqn:E; [|apply last_None in E].
Qed.

Lemma find_node_absent h addrs :
  forall (fuel : nat) (prev s : option positive) p,
  Linked.chain h s addrs -> p ∉ addrs -> (length addrs <= fuel)%nat ->
  Linked.find_node fuel h prev s p
  = Some (Ret (if last addrs is Some q then Some q else prev, None)).
Proof.
  induction addrs as [|a addrs IH]; intros fuel prev s p Hc Hp Hfuel.
  - simpl in Hc. subst. by destruct fuel.
  - destruct Hc as (-> & n & Hn & Hrest).
    destruct fuel as [|fuel]; [simpl in Hfuel; lia|].
    cbn [Linked.find_node]. rewrite decide_False by set_solver.
    unfold Linked.load_next. rewrite Hn.
    rewrite (IH fuel (Some a) _ p Hrest); [|set_solver|simpl in Hfuel; lia].
    destruct addrs as [|b addrs]; [done|]. rewrite last_cons_cons.
    by destruct (last (b :: addrs)) eqn:E; [|apply last_None in E].
Qed.

(** [backup_mailbox_list_remove] of a node the list does not hold: the
    walk ends at the end of the list, null is returned and neither the list
    nor a node has changed. *)
Theorem list_remove_absent h l addrs p (fuel : nat) :
  Linked.is_list h l addrs -> p ∉ addrs -> (length addrs <= fuel)%nat ->
  Linked.backup_mailbox_list_remove fuel h l (Some p)
  = Some (Ret (h, l, None)).
Proof.
  intros (Hc & _) Hp Hfuel. unfold Linked.backup_mailbox_list_remove.
  rewrite (find_node_absent h addrs fuel None _ p Hc Hp Hfuel). reflexivity.
Qed.

Lemma chain_unlink h pre :
  forall (s : option positive) q p post (qn pn' : Linked.node A),
  Linked.chain h s (pre ++ p :: post) -> last pre = Some q ->
  h !! q = Some qn ->
  Linked.chain (<[p := pn']> (<[q := Linked.set_next qn (head post)]> h)) s
    (pre ++ post).
Proof.
  induction pre as [|a pre IH]; intros s q p post qn pn' Hc Hlast Hq; [done|].
  pose proof (chain_NoDup _ _ _ Hc) as Hnd.
  destruct Hc as (-> & n & Hn & Hrest).
  cbn [app] in Hnd. apply NoDup_cons in Hnd as [Ha Hnd].
  assert (Hap : a <> p) by (intros ->; set_solver).
  destruct pre as [|b pre].
  - injection Hlast as <-. rewrite Hn in Hq. injection Hq as <-.
    cbn [app] in *. destruct Hrest as (Hnext & pn & Hpn & Hpost).
    split; [done|]. eexists. rewrite lookup_insert_ne by done.
    rewrite lookup_insert_eq. split; [done|]. cbn.
    apply NoDup_cons in Hnd as [Hp Hnd].
    rewrite (chain_head _ _ _ Hpost) in Hpost.
    apply (chain_frame h); [|done]. intros c Hc.
    rewrite !lookup_insert_ne; [done|intros ->; set_solver|intros ->; done].
  - rewrite last_cons_cons in Hlast.
    assert (Haq : a <> q).
    { intros ->. apply Ha. apply last_Some in Hlast as [l' ->].
      rewrite ?elem_of_app, ?elem_of_cons. tauto. }
    cbn [app]. split; [done|]. exists n.
    rewrite !lookup_insert_ne by done. split; [done|].
    by apply IH.
Qed.

(** [backup_mailbox_list_remove] of a node of a sound list: a walk of as
    many passes as there are nodes before it finds it; it is unlinked and
    returned with its [next] cleared, and the list is sound again and holds
    the other nodes in their order, their elements as they were. *)
Theorem list_remove_unlinks h l pre p post (fuel : nat) :
  Linked.is_list h l (pre ++ p :: post) -> (length pre <= fuel)%nat ->
  Z.of_nat (length (pre ++ p :: post)) < 2^64 ->
  exists h' l',
    Linked.backup_mailbox_list_remove fuel h l (Some p)
    = Some (Ret (h', l', Some p))
    /\ Linked.is_list h' l' (pre ++ post)
    /\ Linked.payloads h' (pre ++ post) = Linked.payloads h (pre ++ post)
    /\ Linked.next <$> h' !! p = Some None
    /\ Linked.payload <$> h' !! p = Linked.payload <$> h !! p.
Proof.
  intros (Hc & Htail & Hcount) Hfuel Hmax.
  pose proof (chain_NoDup _ _ _ Hc) as Hnd.
  apply NoDup_app in Hnd as (Hnd1 & Hdisj & Hnd2).
  apply NoDup_cons in Hnd2 as [Hppost Hnd2].
  assert (Hppre : p ∉ pre) by (intros Hin; apply (Hdisj p Hin); set_solver).
  destruct (chain_suffix _ _ _ _ Hc) as [s' Hs'].
  destruct Hs' as (_ & pn & Hpn & Hpost).
  pose proof (chain_head _ _ _ Hpost) as Hnx.
  unfold Linked.backup_mailbox_list_remove.
  rewrite (find_node_found h pre fuel None _ post p Hc Hppre Hfuel).
  cbn [mbind option_bind].
  rewrite length_app in Hcount, Hmax. cbn [length] in Hcount, Hmax.
  assert (Hpay : Linked.payload <$> h !! p = Some (Linked.payload pn))
    by (by rewrite Hpn).
  rewrite Hpay. clear Hpay.
  destruct (last pre) as [q|] eqn:Hlast.
  - assert (Hqin : q ∈ pre).
    { apply last_Some in Hlast as [l' ->]. set_solver. }
    assert (Hqp : q <> p) by (intros ->; done).
    destruct (chain_lookup _ _ _ q Hc ltac:(set_solver)) as [qn Hqn].
    cbn [mbind res_bind].
    unfold Linked.load_next, Linked.store_next.
    rewrite Hpn. cbn [mbind res_bind]. rewrite Hqn. cbn [mbind res_bind].
    rewrite lookup_insert_ne by done. rewrite Hpn.
    cbn [mbind res_bind Linked.next]. rewrite Hnx.
    assert (Hl2 : exists l2,
      (if head post is Some _ then Ret l
       else _ ← assert (bool_decide (Some p = Linked.tail l))
                   "node == list->tail";
            Ret {| Linked.head := Linked.head l; Linked.tail := Some q;
                   Linked.count := Linked.count l |}) = Ret l2
      /\ Linked.head l2 = Linked.head l /\ Linked.tail l2 = last (pre ++ post)
      /\ Linked.count l2 = Linked.count l).
    { destruct post as [|b post]; cbn [head].
      - rewrite Htail, last_snoc. rewrite bool_decide_true by done.
        eexists. split; [reflexivity|]. cbn. by rewrite app_nil_r.
      - exists l. split_and!; try done. rewrite Htail.
        by rewrite !last_app, last_cons_cons. }
    destruct Hl2 as (l2 & -> & Hh2 & Ht2 & Hc2). cbn [mbind res_bind].
    do 2 eexists. split; [reflexivity|].
    split_and!.
    + split_and!; cbn [Linked.head Linked.tail Linked.count].
      * rewrite Hh2. by eapply chain_unlink.
      * done.
      * rewrite Hc2, Hcount, length_app. unfold to_size_t.
        rewrite Z.mod_small; lia.
    + apply payloads_ext. intros a Ha.
      assert (a <> p).
      { intros ->. apply elem_of_app in Ha as [?|?]; done. }
      rewrite lookup_insert_ne by done.
      destruct (decide (a = q)) as [->|Haq].
      * rewrite lookup_insert_eq, Hqn. done.
      * by rewrite lookup_insert_ne.
    + by rewrite lookup_insert_eq.
    + by rewrite lookup_insert_eq.
  - apply last_None in Hlast. subst pre. cbn [app] in *.
    pose proof Hc as (Hhead & _).
    cbn [last mbind res_bind].
    unfold Linked.load_next, Linked.store_next.
    rewrite Hpn. cbn [mbind res_bind].
    rewrite bool_decide_true by done. cbn [mbind res_bind assert].
    rewrite Hpn. cbn [mbind res_bind Linked.next Linked.tail Linked.head
                      Linked.count].
    rewrite Hnx.
    assert (Hl2 : exists l2,
      (if head post is Some _
       then Ret {| Linked.head := head post; Linked.tail := Linked.tail l;
                   Linked.count := Linked.count l |}
       else _ ← assert (bool_decide (Some p = Linked.tail l))
                  "node == list->tail";
            Ret {| Linked.head := head post; Linked.tail := None;
                   Linked.count := Linked.count l |}) = Ret l2
      /\ Linked.head l2 = head post /\ Linked.tail l2 = last post
      /\ Linked.count l2 = Linked.count l).
    { destruct post as [|b post]; cbn [head].
      - rewrite Htail. cbn [last].
        rewrite bool_decide_true by done.
        eexists. split; [reflexivity|]. done.
      - eexists. split; [reflexivity|]. cbn [Linked.head Linked.tail
          Linked.count]. split_and!; done. }
    destruct Hl2 as (l2 & -> & Hh2 & Ht2 & Hc2).
    cbn [mbind res_bind]. do 2 eexists. split; [reflexivity|].
    split_and!.
    + split_and!; cbn [Linked.head Linked.tail Linked.count].
      * rewrite Hh2. rewrite Hnx in Hpost. apply (chain_frame h); [|done].
        intros a Ha. rewrite lookup_insert_ne; [done|]. by intros ->.
      * done.
      * rewrite Hc2, Hcount. cbn [length Nat.add] in *. unfold to_size_t.
        rewrite Z.mod_small; lia.
    + apply payloads_ext. intros a Ha.
      rewrite lookup_insert_ne; [done|]. by intros ->.
    + by rewrite lookup_insert_eq.
    + by rewrite lookup_insert_eq.
Qed.
Lemma free_nodes_frees h addrs :
  forall (fuel : nat) (s : option positive),
  Linked.chain h s addrs -> (length addrs <= fuel)%nat ->
  exists h', Linked.free_nodes fuel h s = Some (Ret h')
    /\ (forall a, a ∈ addrs -> h' !! a = None)
    /\ (forall a, a ∉ addrs -> h' !! a = h !! a).
Proof.
  revert h. induction addrs as [|a addrs IH]; intros h fuel s Hc Hfuel.
  - simpl in Hc. subst s. exists h. destruct fuel; split_and!; try done.
    all: intros a Ha; by apply elem_of_nil in Ha.
  - pose proof (chain_NoDup _ _ _ Hc) as Hnd.
    apply NoDup_cons in Hnd as [Ha Hnd].
    destruct Hc as (-> & n & Hn & Hrest).
    destruct fuel as [|fuel]; [simpl in Hfuel; lia|].
    cbn [Linked.free_nodes]. unfold Linked.load_next. rewrite Hn.
    destruct (IH (delete a h) fuel (Linked.next n)) as (h' & -> & Hin & Hout).
    { apply (chain_frame h); [|done]. intros b Hb.
      rewrite lookup_delete_ne; [done|]. by intros ->. }
    { simpl in Hfuel. lia. }
    exists h'. split_and!; [done| |].
    + intros b Hb. destruct (decide (b ∈ addrs)) as [|Hnb]; [by apply Hin|].
      apply elem_of_cons in Hb as [->|?]; [|done].
      rewrite Hout by done. apply lookup_delete_eq.
    + intros b Hb. apply not_elem_of_cons in Hb as [Hba Hb].
      rewrite Hout by done. by rewrite lookup_delete_ne.
Qed.

(** [backup_mailbox_message_list_empty] and [backup_chunk_list_empty] on a
    sound list: a walk of as many passes as there are nodes frees every
    node of the list and no other, and leaves the empty list. *)
Theorem list_empty_frees_its_nodes h l addrs (fuel : nat) :
  Linked.is_list h l addrs -> (length addrs <= fuel)%nat ->
  exists h',
    Linked.backup_mailbox_message_list_empty fuel h l
    = Some (Ret (h', Linked.zero_list))
    /\ (forall a, a ∈ addrs -> h' !! a = None)
    /\ (forall a, a ∉ addrs -> h' !! a = h !! a)
    /\ Linked.is_list h' Linked.zero_list [].
Proof.
  intros (Hc & _) Hfuel.
  destruct (free_nodes_frees h addrs fuel _ Hc Hfuel) as (h' & Hf & Hin & Hout).
  exists h'. unfold Linked.backup_mailbox_message_list_empty. rewrite Hf.
  by split_and!.
Qed.

End LinkedProperties.

Lemma two_list_sound :
  Linked.is_list Linked.three_nodes Linked.two_list [1; 2]%positive.
Proof.
  split_and!; [|reflexivity..].
  split; [reflexivity|]. eexists. split; [reflexivity|].
  split; [reflexivity|]. eexists. split; reflexivity.
Defined.

Lemma three_not_listed : 3%positive ∉ [1; 2]%positive.
Proof.
  intros H. apply elem_of_cons in H as [H|H]; [discriminate|].
  apply elem_of_cons in H as [H|H]; [discriminate|].
  by apply elem_of_nil in H.
Defined.

Lemma list_add_appends_witness :
  Linked.is_list Linked.three_nodes Linked.two_list [1; 2]%positive
  /\ exists h' l',
    Linked.backup_mailbox_list_add Linked.three_nodes Linked.two_list
      (Some 3%positive) = Ret (h', l')
    /\ Linked.is_list h' l' [1; 2; 3]%positive
    /\ Linked.payloads h' [1; 2; 3]%positive = [10; 20; 30]
    /\ (forall q, q <> 3%positive -> Some q <> Some 2%positive ->
        h' !! q = Linked.three_nodes !! q).
Proof.
  split; [exact two_list_sound|].
  exact (list_add_appends Linked.three_nodes Linked.two_list [1; 2]%positive
           3%positive {| Linked.payload := 30; Linked.next := Some 1%positive |}
           two_list_sound eq_refl three_not_listed eq_refl).
Defined.

Lemma chunk_list_add_prepends_witness :
  Linked.is_list Linked.three_nodes Linked.two_list [1; 2]%positive
  /\ exists h' l',
    Linked.backup_chunk_list_add Linked.three_nodes Linked.two_list
      (Some 3%positive) = Ret (h', l')
    /\ Linked.is_list h' l' [3; 1; 2]%positive
    /\ Linked.payloads h' [3; 1; 2]%positive = [30; 10; 20]
    /\ (forall q, q <> 3%positive -> h' !! q = Linked.three_nodes !! q).
Proof.
  split; [exact two_list_sound|].
  exact (chunk_list_add_prepends Linked.three_nodes Linked.two_list
           [1; 2]%positive 3%positive
           {| Linked.payload := 30; Linked.next := Some 1%positive |}
           two_list_sound eq_refl three_not_listed eq_refl).
Defined.

Lemma list_remove_absent_witness :
  Linked.is_list Linked.three_nodes Linked.two_list [1; 2]%positive
  /\ Linked.backup_mailbox_list_remove 2 Linked.three_nodes Linked.two_list
       (Some 3%positive)
     = Some (Ret (Linked.three_nodes, Linked.two_list, None)).
Proof.
  split; [exact two_list_sound|].
  apply (list_remove_absent _ _ [1; 2]%positive 3%positive 2%nat
           two_list_sound three_not_listed). simpl. lia.
Defined.

Lemma list_remove_unlinks_witness :
  Linked.is_list Linked.three_nodes Linked.two_list ([1%positive] ++ [2%positive])
  /\ exists h' l',
    Linked.backup_mailbox_list_remove 1 Linked.three_nodes Linked.two_list
      (Some 2%positive) = Some (Ret (h', l', Some 2%positive))
    /\ Linked.is_list h' l' [1]%positive
    /\ Linked.payloads h' [1]%positive = [10]
    /\ Linked.next <$> h' !! 2%positive = Some None
    /\ Linked.payload <$> h' !! 2%positive = Some 20.
Proof.
  split; [exact two_list_sound|].
  apply (list_remove_unlinks Linked.three_nodes Linked.two_list
           [1]%positive 2%positive [] 1%nat two_list_sound); [simpl; lia|].
  reflexivity.
Defined.

Lemma list_empty_frees_its_nodes_witness :
  Linked.is_list Linked.three_nodes Linked.two_list [1; 2]%positive
  /\ exists h',
    Linked.backup_mailbox_message_list_empty 2 Linked.three_nodes
      Linked.two_list = Some (Ret (h', Linked.zero_list))
    /\ (forall a, a ∈ [1; 2]%positive -> h' !! a = None)
    /\ (forall a, a ∉ [1; 2]%positive -> h' !! a = Linked.three_nodes !! a)
    /\ Linked.is_list h' Linked.zero_list [].
Proof.
  split; [exact two_list_sound|].
  apply (list_empty_frees_its_nodes Linked.three_nodes Linked.two_list
           [1; 2]%positive 2%nat two_list_sound). simpl. lia.
Defined.

(** ** The store *)

Section EngineProperties.

Context `{Collaborators}.

Lemma backup_close_idle (b : backup) (w : world) :
  append_state b = None -> db b = None -> backup_close b w = Ret (0, w).
Proof.
  intros Hst Hdb. unfold backup_close. rewrite Hst. simpl. rewrite Hdb.
  by destruct (oldindex_fname b).
Qed.

(** the test of [_open_internal] in NORMAL mode: a log that holds bytes
    beside an index that is missing or of size zero is refused, with no
    handle and "reindex needed" in the system log; an empty log beside such
    an index opens as a fresh store, with an index that has its schema and
    no row. *)
Theorem open_normal_gate (data index : string) (w : world) :
  w_fs w !! index = None \/ w_fs w !! index = Some (FData []) ->
  (0 < st_size (FData (members_of (w_fs w !! data))) ->
   exists w',
     _open_internal data index BACKUP_OPEN_NORMAL w = Ret (None, w')
     /\ w_syslog w' = w_syslog w ++ ["reindex needed: " +:+ index]
     /\ w_fs w' = w_fs w)
  /\ (st_size (FData (members_of (w_fs w !! data))) = 0 ->
      exists b w',
        _open_internal data index BACKUP_OPEN_NORMAL w = Ret (Some b, w')
        /\ data_fname b = data /\ index_fname b = index
        /\ append_state b = None
        /\ (exists d, db b = Some d /\ db_tables d = empty_tables
                      /\ db_savepoint d = None)
        /\ w_fs w' !! index = Some (FIndex empty_tables)
        /\ w_syslog w' = w_syslog w).
Proof.
  intros Hindex. split.
  - intros Hsize. unfold _open_internal, open_creat.
    destruct (w_fs w !! data) as [f|] eqn:Hdata; [|simpl in Hsize; lia].
    cbn -[st_size Z.ltb]. rewrite Hdata.
    apply Z.ltb_lt in Hsize. rewrite Hsize. unfold stat.
    destruct Hindex as [Hi|Hi]; rewrite Hi; cbn.
    + by eexists.
    + destruct (w_errno w =? ENOENT); cbn; by eexists.
  - intros Hsize. unfold _open_internal, open_creat.
    destruct (w_fs w !! data) as [f|] eqn:Hdata.
    + cbn -[st_size Z.ltb]. rewrite Hdata, Hsize. cbn. unfold sqldb_open.
      destruct Hindex as [Hi|Hi]; rewrite Hi; cbn;
        (do 2 eexists; split; [reflexivity|]; cbn;
         split_and!; try done; [by eexists|by rewrite lookup_insert_eq]).
    + cbn. rewrite lookup_insert_eq. cbn. unfold sqldb_open. cbn.
      assert (Hi : <[data := FData []]> (w_fs w) !! index = None
                   \/ <[data := FData []]> (w_fs w) !! index = Some (FData [])).
      { destruct (decide (data = index)) as [->|Hne].
        - right. by rewrite lookup_insert_eq.
        - by rewrite lookup_insert_ne. }
      destruct Hi as [Hi|Hi]; rewrite Hi; cbn;
        (do 2 eexists; split; [reflexivity|]; cbn;
         split_and!; try done; [by eexists|by rewrite lookup_insert_eq]).
Qed.

(** *** Open and validate *)

Lemma sha1_file_prefix (w : world) (fname : string) (offset : Z) :
  0 <= offset < 2^63 ->
  _sha1_file w fname (to_size_t offset)
  = sha1_hex (take (Z.to_nat offset)
                (raw_bytes (members_of (w_fs w !! fname)))).
Proof.
  intros Hoff. unfold _sha1_file, to_size_t, SHA1_LIMIT_WHOLE_FILE.
  rewrite Z.mod_small by lia.
  destruct (offset =? 2 ^ 64 - 1) eqn:E; [lia|]. f_equal.
  destruct (Z.min_spec offset
              (Z.of_nat (length (raw_bytes (members_of (w_fs w !! fname))))))
    as [[Hlt ->]|[Hge ->]]; [done|].
  rewrite Nat2Z.id, firstn_all. symmetry. apply take_ge. lia.
Qed.

(** What the validation compares: the latest chunk row being
    [id, ts, _, offset, length, file_sha1, data_sha1], the digest of the raw
    bytes before [offset] against file_sha1, then the number of bytes the
    member at [offset] decodes to against length, then their digest
    against data_sha1; the first that differs makes the answer non-zero. *)
Lemma validate_checksums_compares (b : backup) (d : sqldb) (w : world)
    (id ts offset length_ : Z) (ts_end : sqlval) (file_sha1 data_sha1 : string) :
  db b = Some d -> db_step_rc d = 0 ->
  latest (t_chunk (db_tables d))
  = Some [VInt id; VInt ts; ts_end; VInt offset; VInt length_;
          VText file_sha1; VText data_sha1] ->
  wrap32 id <> 0 -> 0 <= offset < 2^63 -> 0 <= length_ < 2^63 ->
  let ms := members_of (w_fs w !! data_fname b) in
  let data := gzuc_member_data ms offset in
  _validate_checksums b w
  = Ret (if negb (strncmp file_sha1
                    (sha1_hex (take (Z.to_nat offset) (raw_bytes ms))) 41 =? 0)
         then strncmp file_sha1
                (sha1_hex (take (Z.to_nat offset) (raw_bytes ms))) 41
         else if negb (Z.of_nat (length data) =? length_) then -1
         else strncmp data_sha1 (sha1_hex data) 41).
Proof.
  intros Hdb Hrc Hlatest Hid Hoff Hlen ms data.
  unfold _validate_checksums, the_db. rewrite Hdb. simpl.
  rewrite sqldb_exec_ok by done.
  cbn -[sha1_hex strncmp wrap32 _sha1_file to_size_t read_loop]. rewrite Hlatest.
  cbn -[sha1_hex strncmp wrap32 _sha1_file to_size_t read_loop].
  destruct (wrap32 id =? 0) eqn:E; [lia|].
  rewrite sha1_file_prefix by done. fold ms.
  destruct (negb (strncmp file_sha1 _ 41%nat =? 0)); [reflexivity|].
  fold data. rewrite read_loop_all by done. simpl.
  unfold to_size_t. rewrite (Z.mod_small length_), Z.add_0_l by lia.
  by destruct (negb _).
Qed.

(** given the name of the index, [backup_open_paths] is [_open_internal]
    and nothing else *)
Lemma open_paths_with_index_name (data index : string) (w : world) :
  backup_open_paths data (Some index) w
  = _open_internal data index BACKUP_OPEN_NORMAL w.
Proof. reflexivity. Qed.

(** C1: on a store whose index carries a data_sha1 that is not the digest
    of its member, the validation answers non-zero and [backup_open_paths]
    without the name of the index gives no handle, as the claim has it; but
    [backup_open_paths] with the name of the index returns an open handle
    on the same store: its early return leaves the validation out. *)
Theorem open_paths_with_index_name_skips_validation :
  match backup_open_paths "log" (Some "log.index") stale_world with
  | Ret (Some b, w) =>
      _validate_checksums b w = Ret 1
      /\ db b = Some {| db_fname := "log.index"; db_tables := stale_index;
                        db_savepoint := None; db_lastid := 0;
                        db_step_rc := 0; db_close_rc := 0 |}
  | _ => False
  end
  /\ match backup_open_paths "log" None stale_world with
     | Ret (None, w) => w_fs w = w_fs stale_world
     | _ => False
     end.
Proof. vm_compute. repeat split. Qed.

(** *** Append sessions *)

Lemma sha1_file_whole (w : world) (fname : string) :
  _sha1_file w fname SHA1_LIMIT_WHOLE_FILE
  = sha1_hex (raw_bytes (members_of (w_fs w !! fname))).
Proof.
  unfold _sha1_file. rewrite Z.eqb_refl, Nat2Z.id. by rewrite firstn_all.
Qed.

Lemma append_start_opens (b0 : backup) (d0 : sqldb) (ms : list member)
    (w0 : world) :
  append_state b0 = None -> db b0 = Some d0 -> db_step_rc d0 = 0 ->
  0 <= fd b0 -> w_fs w0 !! data_fname b0 = Some (FData ms) ->
  exists b1 w1,
    backup_append_start b0 w0 = Ret (0, b1, w1)
    /\ session_open b0 d0 ms w0 [Comment (header_line (w_time w0))] b1 w1
    /\ chunks_are b1
         (t_chunk (db_tables d0)
            ++ [start_row (next_id (t_chunk (db_tables d0))) (w_time w0)
                  (Z.of_nat (length (raw_bytes ms))) (sha1_hex (raw_bytes ms))]).
Proof.
  intros Hst Hdb Hrc Hfd Hlog.
  unfold backup_append_start. rewrite sha1_file_whole, Hlog. simpl members_of.
  unfold _append_start. rewrite Hst.
  unfold gzdopen. destruct (fd b0 <? 0) eqn:E; [lia|]. clear E.
  unfold the_db. rewrite Hdb.
  cbn -[header_line sha1_hex next_id Z.of_nat].
  unfold sqldb_exec. cbn -[header_line sha1_hex next_id Z.of_nat].
  rewrite Hrc. cbn -[header_line sha1_hex next_id Z.of_nat].
  do 2 eexists. split; [reflexivity|]. split.
  - unfold session_open. cbn -[header_line sha1_hex next_id Z.of_nat].
    split_and!; try done.
    + do 3 eexists. cbn -[header_line sha1_hex next_id Z.of_nat].
      split_and!; try done.
      * simpl. by rewrite app_nil_r.
      * simpl. by rewrite app_nil_r.
    + unfold gz_put. cbn -[header_line]. rewrite Hlog. cbn -[header_line].
      by rewrite lookup_insert_eq.
    + intros path Hne. unfold gz_put. cbn -[header_line].
      by rewrite lookup_insert_ne.
  - eexists. split; [reflexivity|]. reflexivity.
Qed.

Lemma line_bytes_command_pos (ts : Z) (cmd : string) (dl : dlist) :
  (0 <? Z.of_nat (length (line_bytes (Command ts cmd dl)))) = true.
Proof.
  apply Z.ltb_lt. simpl. rewrite !length_app. simpl. lia.
Qed.

Lemma append_keeps_session (b0 : backup) (d0 : sqldb) (ms : list member)
    (w0 : world) (lines : list log_line) (b : backup) (w : world)
    (dl : dlist) (ts : Z) :
  session_open b0 d0 ms w0 lines b w ->
  exists r b' w',
    backup_append b dl ts w = Ret (r, b', w')
    /\ session_open b0 d0 ms w0 (lines ++ [Command ts "APPLY" dl]) b' w'
    /\ (index_keeps_chunks ->
        forall rows, chunks_are b rows -> chunks_are b' rows).
Proof.
  intros (Hdf & Hif & Hof & Hfd & (st & gz & d & Hst & Hmode & Hgz & Herr
          & Hstarted & Hpend & Hflushed & Hgzf & Hid & Hctx & Hwrote & Hdb
          & Hrc & Hsp & Hcrc & Hdbf) & Hlog & Hothers).
  destruct st as [mode0 gzfile0 index_id0 wrote0 sha_ctx0].
  destruct gz as [gzn gzp gzfl gzs gze].
  simpl in Hmode, Hgz, Herr, Hstarted, Hpend, Hflushed, Hgzf, Hid, Hctx, Hwrote.
  subst.
  unfold backup_append. rewrite Hst.
  cbn -[line_bytes Z.of_nat Z.land]. unfold write_out.
  change (Z.land 0 BACKUP_APPEND_INDEXONLY =? 0) with true.
  cbn -[line_bytes Z.of_nat Z.land]. unfold gzwrite.
  cbn -[line_bytes Z.of_nat Z.land].
  rewrite line_bytes_command_pos.
  change (Z.land 0 BACKUP_APPEND_NOFLUSH =? 0) with true.
  cbn -[line_bytes Z.of_nat Z.land].
  unfold the_db. cbn -[line_bytes Z.of_nat]. rewrite Hdb.
  cbn -[line_bytes Z.of_nat]. unfold index_apply. rewrite Hrc.
  cbn -[line_bytes Z.of_nat].
  destruct (backup_index (db_tables d) _ _ _ _) as [r t] eqn:Hbi.
  do 3 eexists. split; [reflexivity|]. split.
  - unfold session_open. cbn -[line_bytes Z.of_nat].
    rewrite flat_map_app. cbn -[line_bytes Z.of_nat]. rewrite app_nil_r.
    split_and!; try done.
    + do 3 eexists. split_and!; try reflexivity; try done.
      cbn -[line_bytes Z.of_nat]. rewrite !length_app. lia.
    + unfold gz_put. cbn -[line_bytes Z.of_nat]. rewrite Hlog.
      cbn -[line_bytes Z.of_nat]. rewrite lookup_insert_eq.
      by rewrite removelast_last.
    + intros path Hne. unfold gz_put. cbn -[line_bytes Z.of_nat].
      rewrite lookup_insert_ne by done. by apply Hothers.
  - intros Hkeep rows (d' & Hd' & Hrows). cbn in Hd'.
    rewrite Hdb in Hd'. injection Hd' as <-.
    eexists. split; [reflexivity|]. cbn.
    match type of Hbi with
    | backup_index ?a1 ?a2 ?a3 ?a4 ?a5 = _ =>
        specialize (Hkeep a1 a2 a3 a4 a5); rewrite Hbi in Hkeep
    end.
    simpl in Hkeep. congruence.
Qed.

Lemma append_all_keeps_session (b0 : backup) (d0 : sqldb) (ms : list member)
    (w0 : world) (cmds : list (dlist * Z)) :
  forall (lines : list log_line) (b : backup) (w : world),
  session_open b0 d0 ms w0 lines b w ->
  exists b' w',
    append_all cmds b w = Ret (b', w')
    /\ session_open b0 d0 ms w0
         (lines ++ map (fun '(dl, ts) => Command ts "APPLY" dl) cmds) b' w'
    /\ (index_keeps_chunks ->
        forall rows, chunks_are b rows -> chunks_are b' rows).
Proof.
  induction cmds as [|[dl ts] cmds IH]; intros lines b w Hs.
  - exists b, w. simpl. rewrite app_nil_r. auto.
  - destruct (append_keeps_session _ _ _ _ _ _ _ dl ts Hs)
      as (r & b1 & w1 & Happ & Hs1 & Hc1).
    destruct (IH _ _ _ Hs1) as (b2 & w2 & Hall & Hs2 & Hc2).
    exists b2, w2. simpl. rewrite Happ. simpl. rewrite Hall.
    rewrite <- app_assoc in Hs2. auto.
Qed.

Lemma abort_from_session (b0 : backup) (d0 : sqldb) (ms : list member)
    (w0 : world) (lines : list log_line) (b : backup) (w : world) :
  session_open b0 d0 ms w0 lines b w ->
  exists b',
    backup_append_abort b = Ret (0, b') /\ append_state b' = None
    /\ exists d', db b' = Some d' /\ db_tables d' = db_tables d0
                  /\ db_savepoint d' = None.
Proof.
  intros (_ & _ & _ & _ & (st & gz & d & Hst & _ & _ & _ & _ & _ & _ & _ & _
          & _ & _ & Hdb & _ & Hsp & _) & _).
  unfold backup_append_abort. rewrite Hst. unfold the_db. simpl.
  rewrite Hdb. simpl. eexists. split; [reflexivity|]. split; [done|].
  eexists. split; [reflexivity|]. unfold sqldb_rollback. rewrite Hsp. done.
Qed.

Lemma row_id_le_max (rows : list row) (r : row) :
  r ∈ rows -> row_id r <= fold_right Z.max 0 (map row_id rows).
Proof.
  induction rows as [|r' rows IH]; intros Hin; [by apply elem_of_nil in Hin|].
  apply elem_of_cons in Hin as [->|Hin]; simpl; [lia|].
  specialize (IH Hin). lia.
Qed.

Lemma next_id_fresh (rows : list row) (bval : bindvals) :
  bind_get ":id" bval = VInt (next_id rows) ->
  map (end_row bval) rows = rows.
Proof.
  intros Hid. rewrite <- (map_id rows) at 2.
  apply map_ext_Forall, Forall_forall. intros r Hin.
  unfold end_row. rewrite Hid.
  destruct (sql_eq (col 0 r) (VInt (next_id rows))) eqn:E; [|done].
  unfold sql_eq in E. destruct (col 0 r) as [|i|] eqn:Hc; try discriminate.
  apply Z.eqb_eq in E.
  pose proof (row_id_le_max rows r Hin) as Hle.
  assert (Hr : row_id r = i) by (unfold row_id; by rewrite Hc).
  unfold next_id in E. lia.
Qed.

Lemma next_id_pos (rows : list row) : 0 < next_id rows.
Proof.
  unfold next_id. assert (0 <= fold_right Z.max 0 (map row_id rows)); [|lia].
  induction rows as [|r rows IH]; simpl; lia.
Qed.

(** a row id within the range of [int] is the id the session keeps *)
Lemma wrap32_next_id (rows : list row) :
  next_id rows < 2^31 -> wrap32 (next_id rows) = next_id rows.
Proof.
  intros Hmax. pose proof (next_id_pos rows). apply wrap32_small. lia.
Qed.

Lemma fold_max_snoc (l : list Z) (x : Z) :
  fold_right Z.max 0 (l ++ [x]) = Z.max (fold_right Z.max 0 l) (Z.max x 0).
Proof. induction l as [|y l IH]; simpl; lia. Qed.

Lemma next_id_snoc (rows : list row) (r : row) :
  row_id r = next_id rows -> next_id (rows ++ [r]) = next_id rows + 1.
Proof.
  intros Hr. pose proof (next_id_pos rows). unfold next_id in *.
  rewrite map_app. cbn [map]. rewrite fold_max_snoc. lia.
Qed.

Lemma end_from_session (b0 : backup) (d0 : sqldb) (ms : list member)
    (w0 : world) (lines : list log_line) (b : backup) (w : world)
    (ts offset : Z) (file_sha1 : string) :
  session_open b0 d0 ms w0 lines b w ->
  chunks_are b (t_chunk (db_tables d0)
                  ++ [start_row (next_id (t_chunk (db_tables d0))) ts offset
                        file_sha1]) ->
  next_id (t_chunk (db_tables d0)) < 2^31 ->
  exists b' w',
    backup_append_end b w = Ret (0, b', w') /\ append_state b' = None
    /\ (exists d', db b' = Some d' /\ db_savepoint d' = None
          /\ t_chunk (db_tables d')
             = t_chunk (db_tables d0)
                 ++ [end_row_of (next_id (t_chunk (db_tables d0))) ts offset
                       file_sha1 (flat_map line_bytes lines)])
    /\ w_fs w' !! data_fname b0
       = Some (FData (ms ++ [{| m_raw := gz_image (flat_map line_bytes lines) true;
                                m_lines := lines |}]))
    /\ (forall path, path <> data_fname b0 ->
        w_fs w' !! path = w_fs w0 !! path).
Proof.
  intros (Hdf & Hif & Hof & Hfd & (st & gz & d & Hst & Hmode & Hgz & Herr
          & Hstarted & Hpend & Hflushed & Hgzf & Hid & Hctx & Hwrote & Hdb
          & Hrc & Hsp & Hcrc & Hdbf) & Hlog & Hothers) (d' & Hd' & Hrows)
         Hmax.
  rewrite wrap32_next_id in Hid by done.
  rewrite Hdb in Hd'. injection Hd' as <-.
  destruct st as [mode0 gzfile0 index_id0 wrote0 sha_ctx0].
  destruct gz as [gzn gzp gzfl gzs gze].
  simpl in Hmode, Hgz, Herr, Hstarted, Hpend, Hflushed, Hgzf, Hid, Hctx, Hwrote.
  subst.
  unfold backup_append_end. rewrite Hst.
  cbn -[sha1_hex Z.of_nat Z.land next_id].
  change (Z.land 0 BACKUP_APPEND_INDEXONLY =? 0) with true.
  cbn -[sha1_hex Z.of_nat Z.land next_id].
  unfold the_db. cbn -[sha1_hex Z.of_nat next_id]. rewrite Hdb.
  cbn -[sha1_hex Z.of_nat next_id]. unfold sqldb_exec. rewrite Hrc.
  cbn -[sha1_hex Z.of_nat next_id end_row].
  do 2 eexists. split; [reflexivity|]. split; [done|]. split_and!.
  - eexists. split; [reflexivity|]. split; [done|].
    cbn -[sha1_hex Z.of_nat next_id end_row]. rewrite Hrows, map_app.
    rewrite next_id_fresh by done. f_equal.
    unfold end_row, start_row, end_row_of.
    cbn -[sha1_hex Z.of_nat next_id]. by rewrite Z.eqb_refl.
  - unfold gz_put. cbn -[Z.of_nat]. rewrite lookup_insert_eq. cbn.
    rewrite lookup_insert_eq. rewrite Hlog. cbn.
    by rewrite !removelast_last, !app_nil_r.
  - intros path Hne. unfold gz_put. cbn.
    rewrite !lookup_insert_ne by done. by apply Hothers.
Qed.

(** C3, as amended: a session that is started on an open store whose next
    chunk id is within the range of the [int] that holds it, takes any
    commands and is ended leaves the append state cleared and the
    transaction committed;
    the chunk row inserted at the start now carries as length the bytes
    counted in [wrote], which are those of the header line and of every
    APPLY line, and as data_sha1 the digest of exactly these bytes, which
    are also what the new member of the log decodes to.  On an empty log at
    1700000000 with no command, the latest chunk has offset 0, the length
    of the header line, the digest of the empty string as file_sha1 and
    the digest of the header line as data_sha1. *)
Theorem append_end_commits_chunk (b0 : backup) (d0 : sqldb) (ms : list member)
    (w0 : world) (cmds : list (dlist * Z)) :
  append_state b0 = None -> db b0 = Some d0 -> db_step_rc d0 = 0 ->
  0 <= fd b0 -> w_fs w0 !! data_fname b0 = Some (FData ms) ->
  index_keeps_chunks -> next_id (t_chunk (db_tables d0)) < 2^31 ->
  let data := flat_map line_bytes (chunk_lines (w_time w0) cmds) in
  (exists b1 w1 b2 w2 b3 w3 st2 d3,
     backup_append_start b0 w0 = Ret (0, b1, w1)
     /\ append_all cmds b1 w1 = Ret (b2, w2)
     /\ append_state b2 = Some st2
     /\ wrote st2 = Z.of_nat (length data) /\ sha_ctx st2 = data
     /\ backup_append_end b2 w2 = Ret (0, b3, w3)
     /\ append_state b3 = None /\ db b3 = Some d3 /\ db_savepoint d3 = None
     /\ t_chunk (db_tables d3)
        = t_chunk (db_tables d0)
            ++ [[VInt (index_id st2); VInt (w_time w0); VNull;
                 VInt (Z.of_nat (length (raw_bytes ms)));
                 VInt (wrote st2);
                 VText (sha1_hex (raw_bytes ms));
                 VText (sha1_hex data)]]
     /\ w_fs w3 !! data_fname b0
        = Some (FData (ms ++ [{| m_raw := gz_image data true;
                                 m_lines := chunk_lines (w_time w0) cmds |}])))
  /\ let header := bytes_of "# cyrus backup: chunk start 1700000000" ++ CRLF in
     run_session "log" "log.index" [] empty_world
     = Ret (Some [VInt 1; VInt 1700000000; VNull; VInt 0;
                  VInt (Z.of_nat (length header)); VText (sha1_hex []);
                  VText (sha1_hex header)]).
Proof.
  intros Hst Hdb Hrc Hfd Hlog Hkeep Hmax data.
  split; [|vm_compute; reflexivity].
  destruct (append_start_opens b0 d0 ms w0 Hst Hdb Hrc Hfd Hlog)
    as (b1 & w1 & Hstart & Hs1 & Hc1).
  destruct (append_all_keeps_session _ _ _ _ cmds _ _ _ Hs1)
    as (b2 & w2 & Hall & Hs2 & Hc2).
  specialize (Hc2 Hkeep _ Hc1).
  destruct (end_from_session _ _ _ _ _ _ _ _ _ _ Hs2 Hc2 Hmax)
    as (b3 & w3 & Hend & Hst3 & (d3 & Hdb3 & Hsp3 & Hrows3) & Hlog3 & _).
  destruct Hs2 as (_ & _ & _ & _ & (st2 & gz & d2 & Hst2 & _ & _ & _ & _ & _
                   & _ & _ & Hid2 & Hctx2 & Hwrote2 & _) & _).
  exists b1, w1, b2, w2, b3, w3, st2, d3.
  split_and!; try done.
  rewrite Hrows3, Hid2, Hwrote2, wrap32_next_id by done. reflexivity.
Qed.

(** C4: whatever was appended, [backup_append_abort] leaves no session and
    an index whose tables are those it had before [backup_append_start],
    with no transaction open: the chunk row and every row the commands
    wrote are gone.  The log keeps the bytes that were written: the members
    it had, followed by the unfinished member of the session; no other
    file has changed. *)
Theorem append_abort_restores_index (b0 : backup) (d0 : sqldb)
    (ms : list member) (w0 : world) (cmds : list (dlist * Z)) :
  append_state b0 = None -> db b0 = Some d0 -> db_step_rc d0 = 0 ->
  0 <= fd b0 -> w_fs w0 !! data_fname b0 = Some (FData ms) ->
  exists b1 w1 b2 w2 b3 d3,
    backup_append_start b0 w0 = Ret (0, b1, w1)
    /\ append_all cmds b1 w1 = Ret (b2, w2)
    /\ backup_append_abort b2 = Ret (0, b3)
    /\ append_state b3 = None
    /\ db b3 = Some d3 /\ db_tables d3 = db_tables d0
    /\ db_savepoint d3 = None
    /\ w_fs w2 !! data_fname b0
       = Some (FData (ms ++ [{| m_raw :=
                                  gz_image (flat_map line_bytes
                                              (chunk_lines (w_time w0) cmds))
                                    false;
                                m_lines := chunk_lines (w_time w0) cmds |}]))
    /\ (forall path, path <> data_fname b0 ->
        w_fs w2 !! path = w_fs w0 !! path).
Proof.
  intros Hst Hdb Hrc Hfd Hlog.
  destruct (append_start_opens b0 d0 ms w0 Hst Hdb Hrc Hfd Hlog)
    as (b1 & w1 & Hstart & Hs1 & _).
  destruct (append_all_keeps_session _ _ _ _ cmds _ _ _ Hs1)
    as (b2 & w2 & Hall & Hs2 & _).
  destruct (abort_from_session _ _ _ _ _ _ _ Hs2)
    as (b3 & Habort & Hst3 & d3 & Hdb3 & Ht3 & Hsp3).
  destruct Hs2 as (_ & _ & _ & _ & _ & Hlog2 & Hothers2).
  exists b1, w1, b2, w2, b3, d3. split_and!; done.
Qed.

(** *** Reindex *)

Lemma index_only_start (b0 : backup) (d0 : sqldb) (w : world)
    (ts offset : Z) (file_sha1 : string) :
  append_state b0 = None -> db b0 = Some d0 -> db_step_rc d0 = 0 ->
  exists b1,
    _append_start b0 ts offset file_sha1 1 0 w = Ret (0, b1, w)
    /\ reindexing b0 d0 (header_line ts) b1
    /\ chunks_are b1
         (t_chunk (db_tables d0)
            ++ [start_row (next_id (t_chunk (db_tables d0))) ts offset
                  file_sha1]).
Proof.
  intros Hst Hdb Hrc. unfold _append_start. rewrite Hst.
  cbn -[header_line next_id Z.of_nat]. unfold the_db. rewrite Hdb.
  cbn -[header_line next_id Z.of_nat]. unfold sqldb_exec.
  cbn -[header_line next_id Z.of_nat]. rewrite Hrc.
  cbn -[header_line next_id Z.of_nat].
  eexists. split; [reflexivity|]. split.
  - unfold reindexing. cbn -[header_line next_id Z.of_nat].
    split_and!; try done. do 2 eexists. split_and!; try reflexivity; done.
  - eexists. split; reflexivity.
Qed.

Lemma index_only_append (b0 : backup) (d0 : sqldb) (data : bytes)
    (b : backup) (w : world) (dl : dlist) (ts : Z) :
  reindexing b0 d0 data b ->
  exists r b',
    backup_append b dl ts w = Ret (r, b', w)
    /\ reindexing b0 d0 (data ++ line_bytes (Command ts "APPLY" dl)) b'
    /\ (index_keeps_chunks ->
        forall rows, chunks_are b rows -> chunks_are b' rows).
Proof.
  intros (Hdf & Hif & Hof & Hfd & st & d & Hst & Hmode & Hgz & Hid & Hctx
          & Hwrote & Hdb & Hrc & Hsp & Hcrc & Hdbf).
  destruct st as [mode0 gzfile0 index_id0 wrote0 sha_ctx0].
  simpl in Hmode, Hgz, Hid, Hctx, Hwrote. subst.
  unfold backup_append. rewrite Hst.
  cbn -[line_bytes Z.of_nat Z.land].
  change (Z.land BACKUP_APPEND_INDEXONLY BACKUP_APPEND_INDEXONLY =? 0)
    with false.
  cbn -[line_bytes Z.of_nat]. unfold the_db.
  cbn -[line_bytes Z.of_nat]. rewrite Hdb.
  cbn -[line_bytes Z.of_nat]. unfold index_apply. rewrite Hrc.
  cbn -[line_bytes Z.of_nat].
  destruct (backup_index (db_tables d) _ _ _ _) as [r t] eqn:Hbi.
  do 2 eexists. split; [reflexivity|]. split.
  - unfold reindexing. cbn -[line_bytes Z.of_nat].
    split_and!; try done. do 2 eexists.
    split_and!; try reflexivity; try done.
    cbn -[line_bytes Z.of_nat]. rewrite length_app. lia.
  - intros Hkeep rows (d' & Hd' & Hrows).
    rewrite Hdb in Hd'. injection Hd' as <-.
    eexists. split; [reflexivity|]. cbn.
    match type of Hbi with
    | backup_index ?a1 ?a2 ?a3 ?a4 ?a5 = _ =>
        specialize (Hkeep a1 a2 a3 a4 a5); rewrite Hbi in Hkeep
    end.
    simpl in Hkeep. congruence.
Qed.

Lemma end_row_last (rows : list row) (ts offset : Z) (file_sha1 : string)
    (data : bytes) :
  map (end_row [(":id", VInt (next_id rows));
                (":length", VInt (Z.of_nat (length data)));
                (":data_sha1", VText (sha1_hex data))])
    (rows ++ [start_row (next_id rows) ts offset file_sha1])
  = rows ++ [end_row_of (next_id rows) ts offset file_sha1 data].
Proof.
  rewrite map_app. rewrite next_id_fresh by done. f_equal.
  unfold end_row, start_row, end_row_of.
  cbn -[sha1_hex Z.of_nat next_id]. by rewrite Z.eqb_refl.
Qed.

Lemma index_only_end (b0 : backup) (d0 : sqldb) (data : bytes) (b : backup)
    (w : world) :
  reindexing b0 d0 data b ->
  exists b' d' d,
    db b = Some d
    /\ backup_append_end b w = Ret (0, b', w) /\ append_state b' = None
    /\ data_fname b' = data_fname b0 /\ index_fname b' = index_fname b0
    /\ oldindex_fname b' = oldindex_fname b0 /\ fd b' = fd b0
    /\ db b' = Some d' /\ db_step_rc d' = 0 /\ db_savepoint d' = None
    /\ db_close_rc d' = db_close_rc d0 /\ db_fname d' = db_fname d0
    /\ t_chunk (db_tables d')
       = map (end_row [(":id",
                        VInt (wrap32 (next_id (t_chunk (db_tables d0)))));
                       (":length", VInt (Z.of_nat (length data)));
                       (":data_sha1", VText (sha1_hex data))])
           (t_chunk (db_tables d)).
Proof.
  intros (Hdf & Hif & Hof & Hfd & st & d & Hst & Hmode & Hgz & Hid & Hctx
          & Hwrote & Hdb & Hrc & Hsp & Hcrc & Hdbf).
  destruct st as [mode0 gzfile0 index_id0 wrote0 sha_ctx0].
  simpl in Hmode, Hgz, Hid, Hctx, Hwrote. subst.
  unfold backup_append_end. rewrite Hst.
  cbn -[sha1_hex Z.of_nat next_id Z.land].
  change (Z.land BACKUP_APPEND_INDEXONLY BACKUP_APPEND_INDEXONLY =? 0)
    with false.
  cbn -[sha1_hex Z.of_nat next_id]. unfold the_db.
  cbn -[sha1_hex Z.of_nat next_id]. rewrite Hdb.
  cbn -[sha1_hex Z.of_nat next_id]. unfold sqldb_exec. rewrite Hrc.
  cbn -[sha1_hex Z.of_nat next_id end_row].
  do 3 eexists. split; [reflexivity|]. split; [reflexivity|].
  cbn -[sha1_hex Z.of_nat next_id end_row].
  split_and!; done.
Qed.

Lemma reindex_commands_rest (b0 : backup) (d0 : sqldb) (w : world)
    (member_offset prev_member_ts ts1 : Z) (cmds : list (Z * string * dlist)) :
  ts1 <> -1 -> Forall (fun c => ts1 <= c.1.1) cmds ->
  forall (data : bytes) (b : backup) (r : Z),
  reindexing b0 d0 data b ->
  exists b' r',
    reindex_commands member_offset prev_member_ts cmds
      {| rx_backup := b; rx_world := w; rx_member_ts := ts1; rx_r := r |}
    = Ret {| rx_backup := b'; rx_world := w; rx_member_ts := ts1; rx_r := r' |}
    /\ reindexing b0 d0 (data ++ flat_map reindexed_line cmds) b'
    /\ (index_keeps_chunks ->
        forall rows, chunks_are b rows -> chunks_are b' rows).
Proof.
  intros Hts1 Hall. induction Hall as [|[[ts cmd] dl] cmds Hts Hall IH];
    intros data b r Hrx.
  - exists b, r. simpl. rewrite app_nil_r. auto.
  - simpl in Hts. cbn [reindex_commands]. unfold reindex_line.
    cbn [rx_member_ts rx_backup rx_world rx_r].
    destruct (ts1 =? -1) eqn:E1; [lia|].
    destruct (ts <? ts1) eqn:E2; [lia|].
    cbn -[line_bytes]. unfold reindexed_line at 1.
    destruct (String.eqb cmd "APPLY") eqn:Ecmd; cbn -[line_bytes].
    + destruct (index_only_append _ _ _ _ w (ucase_name dl) ts Hrx)
        as (r1 & b1 & Happ & Hrx1 & Hc1).
      rewrite Happ. cbn -[line_bytes].
      destruct (IH _ _ r1 Hrx1) as (b2 & r2 & Hrest & Hrx2 & Hc2).
      exists b2, r2. rewrite Hrest. rewrite <- app_assoc in Hrx2. auto.
    + destruct (IH _ _ r Hrx) as (b2 & r2 & Hrest & Hrx2 & Hc2).
      exists b2, r2. rewrite Hrest. auto.
Qed.

Lemma reindex_commands_member (b0 : backup) (d0 : sqldb) (w : world)
    (member_offset prev_member_ts : Z) (ts1 : Z) (cmd1 : string) (dl1 : dlist)
    (rest : list (Z * string * dlist)) (r : Z) :
  accepted prev_member_ts ((ts1, cmd1, dl1) :: rest) ->
  append_state b0 = None -> db b0 = Some d0 -> db_step_rc d0 = 0 ->
  exists b' r',
    reindex_commands member_offset prev_member_ts ((ts1, cmd1, dl1) :: rest)
      {| rx_backup := b0; rx_world := w; rx_member_ts := -1; rx_r := r |}
    = Ret {| rx_backup := b'; rx_world := w; rx_member_ts := ts1; rx_r := r' |}
    /\ reindexing b0 d0 (reindexed_bytes ((ts1, cmd1, dl1) :: rest)) b'
    /\ (index_keeps_chunks ->
        chunks_are b'
          (t_chunk (db_tables d0)
             ++ [start_row (next_id (t_chunk (db_tables d0))) ts1
                   member_offset
                   (_sha1_file w (data_fname b0) (to_size_t member_offset))])).
Proof.
  intros (Hts1 & Hprev & Hall) Hst Hdb Hrc.
  cbn [reindex_commands]. unfold reindex_line.
  cbn [rx_member_ts rx_backup rx_world rx_r].
  change (-1 =? -1) with true. cbn match.
  assert (Hp : negb (prev_member_ts =? -1) && (ts1 <? prev_member_ts) = false).
  { destruct Hprev as [->|Hle]; [done|].
    destruct (ts1 <? prev_member_ts) eqn:E; [lia|]. by rewrite andb_false_r. }
  rewrite Hp.
  destruct (index_only_start b0 d0 w ts1 member_offset
              (_sha1_file w (data_fname b0) (to_size_t member_offset))
              Hst Hdb Hrc) as (b1 & Hstart & Hrx1 & Hc1).
  rewrite Hstart. cbn -[line_bytes header_line].
  unfold reindexed_bytes. cbn [flat_map]. unfold reindexed_line at 1.
  destruct (String.eqb cmd1 "APPLY") eqn:Ecmd; cbn -[line_bytes header_line].
  - destruct (index_only_append _ _ _ _ w (ucase_name dl1) ts1 Hrx1)
      as (r1 & b2 & Happ & Hrx2 & Hc2).
    rewrite Happ. cbn -[line_bytes header_line].
    destruct (reindex_commands_rest b0 d0 w member_offset prev_member_ts ts1
                rest Hts1 Hall _ _ r1 Hrx2) as (b3 & r3 & Hrest & Hrx3 & Hc3).
    exists b3, r3. rewrite Hrest. rewrite <- app_assoc in Hrx3.
    split_and!; auto.
  - destruct (reindex_commands_rest b0 d0 w member_offset prev_member_ts ts1
                rest Hts1 Hall _ _ r Hrx1) as (b3 & r3 & Hrest & Hrx3 & Hc3).
    exists b3, r3. rewrite Hrest. split_and!; auto.
Qed.

Lemma parse_line_commands (lines : list log_line) :
  match _parse_line lines with
  | (Some c, rest) =>
      commands_of lines = c :: commands_of rest
      /\ (length rest < length lines)%nat
  | (None, _) => commands_of lines = []
  end.
Proof.
  destruct lines as [|[text|ts cmd dl] rest]; simpl; [done| |].
  - destruct rest as [|[text'|ts cmd dl] rest']; simpl; [done..|].
    split; [done|lia].
  - split; [done|lia].
Qed.

Lemma reindex_lines_commands (member_offset prev_member_ts : Z) (fuel : nat) :
  forall (lines : list log_line) (s : reindex_state),
  (length lines < fuel)%nat ->
  reindex_lines fuel member_offset prev_member_ts lines s
  = reindex_commands member_offset prev_member_ts (commands_of lines) s.
Proof.
  induction fuel as [|fuel IH]; intros lines s Hfuel; [lia|].
  cbn [reindex_lines]. pose proof (parse_line_commands lines) as Hp.
  destruct (_parse_line lines) as [[[[ts cmd] dl]|] rest].
  - destruct Hp as [-> Hlen]. cbn [reindex_commands].
    destruct (reindex_line _ _ s ts cmd dl) as [s'|]; [|done]. simpl.
    apply IH. lia.
  - by rewrite Hp.
Qed.

(** one pass of the outer loop: a member that is let through gets its
    chunk row, and the world is as it was *)
Lemma reindex_member_step (b0 : backup) (d0 : sqldb) (w : world) (m : member)
    (ms : list member) (member_offset prev_member_ts r : Z) :
  accepted prev_member_ts (commands_of (m_lines m)) ->
  append_state b0 = None -> db b0 = Some d0 -> db_step_rc d0 = 0 ->
  exists b' d' r',
    reindex_members (m :: ms) member_offset prev_member_ts b0 w r
    = reindex_members ms (member_offset + Z.of_nat (length (m_raw m)))
        (first_ts (commands_of (m_lines m))) b' w r'
    /\ append_state b' = None
    /\ data_fname b' = data_fname b0 /\ index_fname b' = index_fname b0
    /\ oldindex_fname b' = oldindex_fname b0 /\ fd b' = fd b0
    /\ db b' = Some d' /\ db_step_rc d' = 0 /\ db_savepoint d' = None
    /\ db_close_rc d' = db_close_rc d0 /\ db_fname d' = db_fname d0
    /\ (index_keeps_chunks -> next_id (t_chunk (db_tables d0)) < 2^31 ->
        t_chunk (db_tables d')
        = t_chunk (db_tables d0)
            ++ [end_row_of (next_id (t_chunk (db_tables d0)))
                  (first_ts (commands_of (m_lines m))) member_offset
                  (_sha1_file w (data_fname b0) (to_size_t member_offset))
                  (reindexed_bytes (commands_of (m_lines m)))]).
Proof.
  intros Hacc Hst Hdb Hrc. cbn [reindex_members].
  rewrite reindex_lines_commands by lia.
  destruct (commands_of (m_lines m)) as [|[[ts1 cmd1] dl1] rest] eqn:Hcmds;
    [done|].
  destruct (reindex_commands_member b0 d0 w member_offset prev_member_ts ts1
              cmd1 dl1 rest r Hacc Hst Hdb Hrc)
    as (b1 & r1 & Hrun & Hrx & Hchunks).
  rewrite Hrun. cbn [mbind res_bind rx_backup rx_world rx_member_ts rx_r].
  destruct (index_only_end _ _ _ _ w Hrx)
    as (b2 & d2 & d1 & Hdb1 & Hend & Hst2 & Hdf & Hif & Hof & Hfd & Hdb2 & Hrc2
        & Hsp2 & Hcrc2 & Hdbf2 & Hrows2).
  rewrite Hend. cbn [mbind res_bind first_ts].
  exists b2, d2, r1. split_and!; try done.
  intros Hkeep Hid. destruct (Hchunks Hkeep) as (d1' & Hdb1' & Hrows1).
  rewrite Hdb1 in Hdb1'. injection Hdb1' as <-.
  rewrite Hrows2, Hrows1, wrap32_next_id by done. apply end_row_last.
Qed.

Lemma reindex_members_run (w : world) (ms : list member) :
  forall (member_offset prev_member_ts : Z) (b0 : backup) (d0 : sqldb) (r : Z),
  all_accepted prev_member_ts ms ->
  append_state b0 = None -> db b0 = Some d0 -> db_step_rc d0 = 0 ->
  db_savepoint d0 = None ->
  0 <= member_offset ->
  member_offset + Z.of_nat (length (raw_bytes ms)) < 2^63 ->
  exists r' b' d',
    reindex_members ms member_offset prev_member_ts b0 w r = Ret (r', b', w)
    /\ append_state b' = None
    /\ data_fname b' = data_fname b0 /\ index_fname b' = index_fname b0
    /\ oldindex_fname b' = oldindex_fname b0 /\ fd b' = fd b0
    /\ db b' = Some d' /\ db_step_rc d' = 0 /\ db_savepoint d' = None
    /\ db_close_rc d' = db_close_rc d0 /\ db_fname d' = db_fname d0
    /\ (index_keeps_chunks ->
        next_id (t_chunk (db_tables d0)) + Z.of_nat (length ms) <= 2^31 ->
        t_chunk (db_tables d')
        = reindexed_chunks (raw_bytes (members_of (w_fs w !! data_fname b0)))
            ms member_offset (t_chunk (db_tables d0))).
Proof.
  induction ms as [|m ms IH];
    intros member_offset prev_member_ts b0 d0 r Hacc Hst Hdb Hrc Hsp Hoff Hmax.
  - exists r, b0, d0. simpl. split_and!; done.
  - destruct Hacc as [Hacc Hrest].
    destruct (reindex_member_step b0 d0 w m ms member_offset prev_member_ts r
                Hacc Hst Hdb Hrc)
      as (b1 & d1 & r1 & Hstep & Hst1 & Hdf1 & Hif1 & Hof1 & Hfd1 & Hdb1 & Hrc1
          & Hsp1 & Hcrc1 & Hdbf1 & Hrows1).
    simpl in Hmax. rewrite length_app in Hmax.
    destruct (IH (member_offset + Z.of_nat (length (m_raw m)))
                (first_ts (commands_of (m_lines m))) b1 d1 r1 Hrest Hst1 Hdb1
                Hrc1 Hsp1 ltac:(lia) ltac:(lia))
      as (r2 & b2 & d2 & Hrun & Hst2 & Hdf2 & Hif2 & Hof2 & Hfd2 & Hdb2 & Hrc2
          & Hsp2 & Hcrc2 & Hdbf2 & Hrows2).
    exists r2, b2, d2. rewrite Hstep, Hrun.
    split_and!; try congruence.
    intros Hkeep Hids. cbn [length] in Hids.
    specialize (Hrows1 Hkeep ltac:(lia)).
    rewrite Hrows2; [|done|rewrite Hrows1, next_id_snoc by done; lia].
    rewrite Hrows1, Hdf1.
    cbn [reindexed_chunks]. rewrite sha1_file_prefix by lia. done.
Qed.

Lemma string_length_app (a b : string) :
  String.length (a +:+ b) = (String.length a + String.length b)%nat.
Proof. induction a as [|c a IH]; simpl; [done|]. by rewrite IH. Qed.

Lemma string_app_neq (a b : string) :
  (0 < String.length b)%nat -> a +:+ b <> a.
Proof.
  intros Hb E. apply (f_equal String.length) in E.
  rewrite string_length_app in E. lia.
Qed.

Lemma backup_reindex_runs (name : string) (r0 : Z) (w : world)
    (ms : list member) :
  w_fs w !! name = Some (FData ms) -> all_accepted (-1) ms ->
  w_db_step_rc w = 0 -> Z.of_nat (length (raw_bytes ms)) < 2^63 ->
  exists r t,
    backup_reindex name r0 w = Ret (r, reindexed_world name t w)
    /\ (index_keeps_chunks -> Z.of_nat (length ms) < 2^31 ->
        t_chunk t = reindexed_chunks (raw_bytes ms) ms 0 []).
Proof.
  intros Hlog Hacc Hrc Hmax.
  set (index := name +:+ ".index"). set (old := index +:+ ".old").
  assert (Hni : name <> index) by (symmetry; by apply string_app_neq; simpl; lia).
  assert (Hio : index <> old) by (symmetry; by apply string_app_neq; simpl; lia).
  assert (Hno : name <> old).
  { unfold old, index. intros E. apply (f_equal String.length) in E.
    rewrite !string_length_app in E. simpl in E. lia. }
  unfold backup_reindex, _open_internal, open_creat. rewrite Hlog.
  fold index. fold old.
  assert (Hopen : exists w0,
    rename index old w
    = ((if w_fs w !! index is Some _ then 0 else -1), w0)
    /\ (negb ((if w_fs w !! index is Some _ then 0 else -1) =? 0)
          && negb (w_errno w0 =? ENOENT) = false)
    /\ w_fs w0 !! index = None /\ w_fs w0 !! name = Some (FData ms)
    /\ w_db_step_rc w0 = 0 /\ w_db_close_rc w0 = w_db_close_rc w).
  { unfold rename. destruct (w_fs w !! index) as [f|] eqn:Hidx.
    - eexists. split; [reflexivity|]. cbn. split_and!; try done.
      + rewrite lookup_insert_ne by done. by rewrite lookup_delete_eq.
      + rewrite lookup_insert_ne by done. by rewrite lookup_delete_ne.
    - eexists. split; [reflexivity|]. cbn. split_and!; done. }
  destruct Hopen as (w0 & Hren & Hcond & Hidx0 & Hlog0 & Hrc0 & Hcrc0).
  unfold reindexed_world. fold index. fold old.
  rewrite Hren. cbn [snd]. rewrite Hcond.
  unfold sqldb_open. rewrite Hidx0.
  cbn [mbind res_bind set_db fd data_fname index_fname oldindex_fname
       append_state db].
  match goal with
  | |- context [reindex_members _ 0 (-1) _ ?w' r0] => set (w1 := w')
  end.
  assert (Hlog1 : w_fs w1 !! name = Some (FData ms)).
  { unfold w1. cbn. by rewrite lookup_insert_ne. }
  rewrite Hlog1. cbn [members_of].
  match goal with
  | |- context [reindex_members ms 0 (-1) ?b w1 r0] => set (b0 := b)
  end.
  destruct (reindex_members_run w1 ms 0 (-1) b0 _ r0 Hacc eq_refl eq_refl
              Hrc0 eq_refl ltac:(lia) ltac:(lia))
    as (r & b' & d' & Hrun & Hst' & Hdf' & Hif' & Hof' & Hfd' & Hdb' & Hrc'
        & Hsp' & Hcrc' & Hdbf' & Hrows').
  rewrite Hrun. cbn [mbind res_bind]. unfold backup_close.
  rewrite Hst'. cbn [mbind res_bind]. rewrite Hdb'. unfold sqldb_close.
  rewrite Hsp', Hcrc', Hdbf', Hof', Hif'.
  cbn [default db_fname db_close_rc oldindex_fname index_fname b0].
  exists r, (db_tables d'). split.
  - rewrite Hcrc0.
    assert (Hw : set_fs w1 (<[index:=FIndex (db_tables d')]> (w_fs w1))
                 = set_fs w0 (<[index:=FIndex (db_tables d')]> (w_fs w0))).
    { unfold w1. cbn. by rewrite insert_insert_eq. }
    rewrite Hw. by destruct (w_db_close_rc w =? 0).
  - intros Hkeep Hids. rewrite (Hrows' Hkeep).
    + unfold b0. cbn [data_fname set_db]. by rewrite Hlog1.
    + unfold next_id. cbn. lia.
Qed.







(** C7, as amended: [backup_reindex] does not delete the .old file.  When
    it returns, with 0 or with the error of a command, and the database of
    the index closed without error, the previous index is at its .old name
    and the rebuilt index is in its place; only where closing the database
    fails does [backup_close] rename the .old file back. *)
Theorem reindex_keeps_old_index (name : string) (r0 : Z) (w : world)
    (ms : list member) (previous : fobj) :
  let index := name +:+ ".index" in
  let old := index +:+ ".old" in
  w_fs w !! name = Some (FData ms) -> all_accepted (-1) ms ->
  w_db_step_rc w = 0 -> Z.of_nat (length (raw_bytes ms)) < 2^63 ->
  w_fs w !! index = Some previous ->
  exists r w' t,
    backup_reindex name r0 w = Ret (r, w')
    /\ (w_db_close_rc w = 0 ->
        w_fs w' !! index = Some (FIndex t) /\ w_fs w' !! old = Some previous)
    /\ (w_db_close_rc w <> 0 ->
        w_fs w' !! index = Some previous /\ w_fs w' !! old = None).
Proof.
  intros index old Hlog Hacc Hrc Hmax Hprev.
  destruct (backup_reindex_runs name r0 w ms Hlog Hacc Hrc Hmax)
    as (r & t & Hrun & _).
  exists r, (reindexed_world name t w), t. split; [done|].
  assert (Hio : old <> index) by (by apply string_app_neq; simpl; lia).
  unfold reindexed_world. fold index. fold old.
  assert (Hren : rename index old w
                 = (0, set_fs w (<[old := previous]> (delete index (w_fs w))))).
  { unfold rename. by rewrite Hprev. }
  rewrite Hren. cbn [snd set_fs w_fs]. split.
  - intros ->. cbn. rewrite lookup_insert_eq.
    rewrite lookup_insert_ne by done. by rewrite lookup_insert_eq.
  - intros Hcrc. destruct (w_db_close_rc w =? 0) eqn:E; [lia|].
    match goal with
    | |- context [rename old index ?w'] => set (w2 := w')
    end.
    assert (Hold : w_fs w2 !! old = Some previous).
    { unfold w2. cbn. rewrite lookup_insert_ne by done.
      by rewrite lookup_insert_eq. }
    unfold rename. rewrite Hold. cbn. rewrite lookup_insert_eq.
    split; [done|]. rewrite lookup_insert_ne by done.
    by rewrite lookup_delete_eq.
Qed.

(** what the loop does enforce: a member whose first command is older than
    the first command of the member before is fatal, *)
Lemma reindex_line_older_member (member_offset prev_member_ts : Z)
    (s : reindex_state) (ts : Z) (cmd : string) (dl : dlist) :
  rx_member_ts s = -1 -> prev_member_ts <> -1 -> ts < prev_member_ts ->
  reindex_line member_offset prev_member_ts s ts cmd dl
  = Fatal "member timestamp older than previous" EC_DATAERR.
Proof.
  intros Hm Hp Hts. unfold reindex_line. rewrite Hm. simpl.
  destruct (prev_member_ts =? -1) eqn:E1; [lia|].
  destruct (ts <? prev_member_ts) eqn:E2; [done|lia].
Qed.

(** and so is a line older than the first command of its member *)
Lemma reindex_line_older_line (member_offset prev_member_ts : Z)
    (s : reindex_state) (ts : Z) (cmd : string) (dl : dlist) :
  rx_member_ts s <> -1 -> ts < rx_member_ts s ->
  reindex_line member_offset prev_member_ts s ts cmd dl
  = Fatal "line timestamp older than previous" EC_DATAERR.
Proof.
  intros Hm Hts. unfold reindex_line.
  destruct (rx_member_ts s =? -1) eqn:E1; [lia|].
  destruct (ts <? rx_member_ts s) eqn:E2; [done|lia].
Qed.

(** ** Further properties of the store *)

(** *** More on open *)

(** NORMAL mode on a store with no log or an empty one, and no index or an
    empty one: both files are created and the index is opened *)
Lemma open_internal_fresh (data index : string) (w : world) :
  data <> index ->
  w_fs w !! data = None \/ w_fs w !! data = Some (FData []) ->
  w_fs w !! index = None \/ w_fs w !! index = Some (FData []) ->
  _open_internal data index BACKUP_OPEN_NORMAL w
  = Ret (Some (opened data index empty_tables w),
         set_fs w (<[index := FIndex empty_tables]>
                     (<[data := FData []]> (w_fs w)))).
Proof.
  intros Hne Hdata Hindex. unfold _open_internal, open_creat, opened.
  destruct Hdata as [Hd|Hd]; rewrite Hd.
  - cbn [set_fs w_fs]. rewrite lookup_insert_eq. simpl.
    unfold sqldb_open. cbn [set_fs w_fs w_db_step_rc w_db_close_rc].
    rewrite lookup_insert_ne by done.
    destruct Hindex as [Hi|Hi]; rewrite Hi; reflexivity.
  - rewrite Hd. simpl. unfold sqldb_open.
    rewrite (insert_id (w_fs w) data (FData [])) by done.
    destruct Hindex as [Hi|Hi]; rewrite Hi; reflexivity.
Qed.

(** an index without a chunk row is "not in index" *)
Lemma validate_no_chunk (b : backup) (d : sqldb) (w : world) :
  db b = Some d -> latest (t_chunk (db_tables d)) = None ->
  _validate_checksums b w = Ret (-1).
Proof.
  intros Hdb Hno. unfold _validate_checksums, the_db. rewrite Hdb. simpl.
  unfold sqldb_exec. destruct (db_step_rc d =? 0); [|reflexivity].
  simpl. rewrite Hno. reflexivity.
Qed.



(** A store that has no chunk yet cannot be opened by the derived name: on
    a log that is missing or empty beside an index that is missing or empty,
    [backup_open_paths] with a null index name creates both files, finds no
    chunk row to validate, closes and returns no handle; with the index
    named, the same store opens. *)
Theorem open_paths_fresh_store_refused (data : string) (w : world) :
  w_fs w !! data = None \/ w_fs w !! data = Some (FData []) ->
  w_fs w !! (data +:+ ".index") = None
  \/ w_fs w !! (data +:+ ".index") = Some (FData []) ->
  exists w',
    backup_open_paths data None w = Ret (None, w')
    /\ w_fs w' !! data = Some (FData [])
    /\ w_fs w' !! (data +:+ ".index") = Some (FIndex empty_tables)
    /\ exists b w'', backup_open_paths data (Some (data +:+ ".index")) w
                     = Ret (Some b, w'').
Proof.
  intros Hdata Hindex.
  assert (Hne : data <> data +:+ ".index").
  { symmetry. apply string_app_neq. simpl. lia. }
  unfold backup_open_paths.
  rewrite (open_internal_fresh _ _ _ Hne Hdata Hindex).
  cbn [mbind res_bind].
  rewrite (validate_no_chunk (opened data (data +:+ ".index") empty_tables w) _ _ eq_refl eq_refl).
  cbn [mbind res_bind]. simpl negb. cbv iota.
  unfold backup_close, sqldb_close, opened. cbn.
  eexists. split; [reflexivity|]. cbn.
  rewrite lookup_insert_ne by done. rewrite lookup_insert_ne by done.
  rewrite !lookup_insert_eq. split_and!; try done. by do 2 eexists.
Qed.

(** NORMAL mode on a store with its index *)
Lemma open_internal_indexed (data index : string) (w : world)
    (ms : list member) (t : tables) :
  w_fs w !! data = Some (FData ms) -> w_fs w !! index = Some (FIndex t) ->
  w_errno w <> ENOENT ->
  _open_internal data index BACKUP_OPEN_NORMAL w
  = Ret (Some (opened data index t w), w).
Proof.
  intros Hd Hi He. unfold _open_internal, open_creat, stat, sqldb_open, opened.
  rewrite Hd. cbn -[st_size Z.ltb]. rewrite Hi.
  destruct (0 <? _); cbn -[ENOENT]; [|reflexivity].
  destruct (w_errno w =? ENOENT) eqn:E; [lia|]. by rewrite Hi.
Qed.

(** NORMAL mode on a log with bytes and no index *)
Lemma open_internal_unindexed (data index : string) (w : world)
    (ms : list member) :
  w_fs w !! data = Some (FData ms) -> 0 < Z.of_nat (length (raw_bytes ms)) ->
  w_fs w !! index = None \/ w_fs w !! index = Some (FData []) ->
  _open_internal data index BACKUP_OPEN_NORMAL w
  = Ret (None,
         syslog (if w_fs w !! index is Some _ then w else set_errno w ENOENT)
           ("reindex needed: " +:+ index)).
Proof.
  intros Hd Hsize Hi. unfold _open_internal, open_creat, stat.
  rewrite Hd. cbn -[Z.ltb st_size]. rewrite Hd. cbn [members_of].
  change (st_size (FData ms)) with (Z.of_nat (length (raw_bytes ms))).
  apply Z.ltb_lt in Hsize. rewrite Hsize.
  destruct Hi as [Hi|Hi]; rewrite Hi; cbn.
  - reflexivity.
  - destruct (w_errno w =? ENOENT); reflexivity.
Qed.

(** [backup_open] on a store whose log holds bytes and whose index is
    missing or empty does not return: [_open_internal] answers a null
    handle, which [backup_open] hands to [_validate_checksums] unchecked.
    [backup_open_paths] checks the handle and returns null on that store. *)
Theorem backup_open_unindexed_store_crashes (userid path : string) (w : world)
    (ms : list member) :
  w_backups_db w !! userid = Some path -> (0 < String.length path)%nat ->
  w_fs w !! path = Some (FData ms) -> 0 < Z.of_nat (length (raw_bytes ms)) ->
  w_fs w !! (path +:+ ".index") = None
  \/ w_fs w !! (path +:+ ".index") = Some (FData []) ->
  backup_open userid w = Fatal "null backup handle" 139
  /\ exists w', backup_open_paths path None w = Ret (None, w').
Proof.
  intros Hdir Hlen Hlog Hsize Hindex.
  unfold backup_open, backup_open_paths, backup_get_paths. rewrite Hdir.
  destruct (String.length path =? 0)%nat eqn:E; [apply Nat.eqb_eq in E; lia|].
  cbn [negb Z.eqb].
  rewrite (open_internal_unindexed _ _ _ _ Hlog Hsize Hindex).
  split; [reflexivity|]. by eexists.
Qed.

(** The test of NORMAL mode reads [errno] whether [stat] failed or not: on
    a store with a log that holds bytes and an index that is there, the open
    is refused with "reindex needed" when [errno] held ENOENT at the call,
    and succeeds otherwise. *)
Theorem open_normal_reads_stale_errno (data index : string) (w : world)
    (ms : list member) (t : tables) :
  w_fs w !! data = Some (FData ms) -> 0 < Z.of_nat (length (raw_bytes ms)) ->
  w_fs w !! index = Some (FIndex t) ->
  (w_errno w = ENOENT ->
   _open_internal data index BACKUP_OPEN_NORMAL w
   = Ret (None, syslog w ("reindex needed: " +:+ index)))
  /\ (w_errno w <> ENOENT ->
      exists b, _open_internal data index BACKUP_OPEN_NORMAL w = Ret (Some b, w)
                /\ db b <> None).
Proof.
  intros Hd Hsize Hi. split.
  - intros He. unfold _open_internal, open_creat, stat.
    rewrite Hd. cbn -[Z.ltb st_size ENOENT]. rewrite Hd. cbn [members_of].
    change (st_size (FData ms)) with (Z.of_nat (length (raw_bytes ms))).
    apply Z.ltb_lt in Hsize. rewrite Hsize, Hi. cbn -[ENOENT].
    rewrite He. reflexivity.
  - intros He. rewrite (open_internal_indexed _ _ _ _ _ Hd Hi He).
    eexists. split; [reflexivity|]. done.
Qed.

(** *** More on append sessions *)

(** [backup_append_end] clears the session whatever the index answers *)
Lemma end_clears_session (b : backup) (w : world) (st : backup_append_state)
    (d : sqldb) :
  append_state b = Some st -> db b = Some d ->
  exists r b' w',
    backup_append_end b w = Ret (r, b', w') /\ append_state b' = None.
Proof.
  intros Hst Hdb. unfold backup_append_end, the_db. rewrite Hst.
  cbn -[sha1_hex Z.land]. rewrite Hdb. cbn -[sha1_hex Z.land].
  destruct (sqldb_exec d backup_index_end_sql _ None tt) as [[[r u] d']|] eqn:E.
  - cbn. by do 3 eexists.
  - unfold sqldb_exec in E. destruct (db_step_rc d =? 0); discriminate.
Qed.

(** One session at a time: without a session [backup_append],
    [backup_append_end] and [backup_append_abort] are fatal with
    EC_SOFTWARE; with one, [backup_append_start] is; and both
    [backup_append_end] and [backup_append_abort] leave the handle without a
    session, so that a second end or abort, or an append after them, is
    fatal. *)
Theorem append_session_protocol (b : backup) (w : world) (dl : dlist) (ts : Z) :
  (append_state b = None ->
   backup_append b dl ts w = Fatal "backup append not started" EC_SOFTWARE
   /\ backup_append_end b w = Fatal "backup append not started" EC_SOFTWARE
   /\ backup_append_abort b = Fatal "backup append not started" EC_SOFTWARE)
  /\ (forall st d, append_state b = Some st -> db b = Some d ->
      backup_append_start b w = Fatal "backup append already started" EC_SOFTWARE
      /\ (exists r b' w',
            backup_append_end b w = Ret (r, b', w')
            /\ backup_append_end b' w'
               = Fatal "backup append not started" EC_SOFTWARE
            /\ backup_append b' dl ts w'
               = Fatal "backup append not started" EC_SOFTWARE)
      /\ (exists b',
            backup_append_abort b = Ret (0, b')
            /\ backup_append_abort b'
               = Fatal "backup append not started" EC_SOFTWARE
            /\ backup_append b' dl ts w
               = Fatal "backup append not started" EC_SOFTWARE)).
Proof.
  split.
  - intros Hst. unfold backup_append, backup_append_end, backup_append_abort.
    by rewrite Hst.
  - intros st d Hst Hdb. split_and!.
    + unfold backup_append_start, _append_start. by rewrite Hst.
    + destruct (end_clears_session b w st d Hst Hdb) as (r & b' & w' & -> & Hst').
      do 3 eexists. split; [reflexivity|].
      unfold backup_append, backup_append_end. by rewrite Hst'.
    + unfold backup_append_abort, the_db. rewrite Hst. simpl. rewrite Hdb. simpl.
      eexists. split; [reflexivity|]. done.
Qed.

(** When the insert of the chunk row fails, [backup_append_start] answers
    -1 with no session and the index as it was, but the header line has been
    written and flushed before: the log has grown by a member that holds the
    header line alone. *)
Theorem append_start_failure_leaves_header (b0 : backup) (d0 : sqldb)
    (ms : list member) (w0 : world) :
  append_state b0 = None -> db b0 = Some d0 -> db_step_rc d0 <> 0 ->
  0 <= fd b0 -> w_fs w0 !! data_fname b0 = Some (FData ms) ->
  exists b1 w1,
    backup_append_start b0 w0 = Ret (-1, b1, w1)
    /\ append_state b1 = None
    /\ (exists d1, db b1 = Some d1 /\ db_tables d1 = db_tables d0
                   /\ db_savepoint d1 = None)
    /\ w_fs w1 !! data_fname b0
       = Some (FData (ms ++ [{| m_raw := gz_image (header_line (w_time w0)) true;
                                m_lines := [Comment (header_line (w_time w0))] |}])).
Proof.
  intros Hst Hdb Hrc Hfd Hlog.
  unfold backup_append_start. rewrite sha1_file_whole, Hlog. simpl members_of.
  unfold _append_start. rewrite Hst.
  unfold gzdopen. destruct (fd b0 <? 0) eqn:E; [lia|]. clear E.
  unfold the_db. rewrite Hdb.
  cbn -[header_line sha1_hex next_id Z.of_nat].
  unfold sqldb_exec. cbn -[header_line sha1_hex next_id Z.of_nat].
  destruct (db_step_rc d0 =? 0) eqn:E; [lia|].
  cbn -[header_line sha1_hex next_id Z.of_nat].
  do 2 eexists. split; [reflexivity|]. cbn -[header_line].
  split; [done|]. split.
  - eexists. split; [reflexivity|]. done.
  - unfold gz_put. cbn -[header_line]. rewrite lookup_insert_eq.
    rewrite lookup_insert_eq. rewrite Hlog. cbn -[header_line].
    by rewrite removelast_last, !app_nil_r.
Qed.

(** A writer in error: [backup_append] is fatal on Z_STREAM_ERROR
    (EC_IOERR) and on Z_MEM_ERROR (EC_TEMPFAIL); on another error it answers
    IMAP_INTERNAL with the index not touched and the byte count as it was,
    while the digest context has already taken the line. *)
Theorem append_write_error (b : backup) (st : backup_append_state) (gz : gzFile)
    (dl : dlist) (ts : Z) (w : world) :
  append_state b = Some st ->
  Z.land (mode st) BACKUP_APPEND_INDEXONLY = 0 -> gzfile st = Some gz ->
  gz_errnum gz <> Z_OK ->
  (gz_errnum gz = Z_STREAM_ERROR ->
   backup_append b dl ts w = Fatal "gzwrite: invalid stream" EC_IOERR)
  /\ (gz_errnum gz = Z_MEM_ERROR ->
      backup_append b dl ts w = Fatal "gzwrite: out of memory" EC_TEMPFAIL)
  /\ (gz_errnum gz <> Z_STREAM_ERROR -> gz_errnum gz <> Z_MEM_ERROR ->
      exists b' st',
        backup_append b dl ts w = Ret (IMAP_INTERNAL, b', w)
        /\ db b' = db b /\ append_state b' = Some st'
        /\ wrote st' = wrote st
        /\ sha_ctx st' = sha_ctx st ++ line_bytes (Command ts "APPLY" dl)).
Proof.
  intros Hst Hmode Hgz Herr.
  unfold backup_append. rewrite Hst.
  cbn -[line_bytes Z.land]. rewrite Hmode. cbn -[line_bytes Z.land].
  unfold write_out. cbn -[line_bytes Z.land]. rewrite Hgz.
  unfold gzwrite. destruct (gz_errnum gz =? Z_OK) eqn:E; [lia|].
  cbn -[line_bytes Z.land]. split_and!.
  - intros ->. reflexivity.
  - intros ->. reflexivity.
  - intros H1 H2.
    destruct (gz_errnum gz =? Z_STREAM_ERROR) eqn:E1; [lia|].
    destruct (gz_errnum gz =? Z_MEM_ERROR) eqn:E2; [lia|].
    cbn -[line_bytes]. do 2 eexists. split; [reflexivity|]. done.
Qed.

(** *** From a session to the next open *)
Lemma same_host_refl (w : world) : same_host w w.
Proof. by repeat split. Qed.

Lemma same_host_trans (w1 w2 w3 : world) :
  same_host w1 w2 -> same_host w2 w3 -> same_host w1 w3.
Proof. unfold same_host. intros ? ?. split_and!; destruct_and!; congruence. Qed.

Lemma same_host_set_fs (w : world) (fs : gmap string fobj) :
  same_host w (set_fs w fs).
Proof. by repeat split. Qed.

Lemma gzflush_host (gz : gzFile) (w : world) :
  same_host w (gzflush gz w).2.
Proof.
  unfold gzflush. destruct (gz_errnum gz =? Z_OK); simpl;
    [apply same_host_set_fs | apply same_host_refl].
Qed.

Lemma gzclose_host (gz : gzFile) (w : world) :
  same_host w (gzclose_w gz w).2.
Proof.
  unfold gzclose_w. destruct (gz_errnum gz =? Z_OK); simpl;
    [apply same_host_set_fs | apply same_host_refl].
Qed.

(** the calls of a session change the files of the host and nothing else *)
Ltac host_step :=
  match goal with
  | H : gzflush ?g ?w = (_, _, ?w') |- _ =>
      let Hh := fresh "Hh" in
      pose proof (gzflush_host g w) as Hh; rewrite H in Hh; simpl in Hh; clear H
  | |- same_host ?w ?w => apply same_host_refl
  | |- same_host ?w (gzclose_w ?g ?w0).2 =>
      apply (same_host_trans w w0); [|apply gzclose_host]
  | |- same_host _ _ => eassumption
  end.

Lemma _append_start_host (b : backup) (ts offset : Z) (file_sha1 : string)
    (index_only noflush : Z) (w : world) (r : Z) (b' : backup) (w' : world) :
  _append_start b ts offset file_sha1 index_only noflush w = Ret (r, b', w') ->
  same_host w w'.
Proof.
  unfold _append_start, the_db, sqldb_exec.
  intros Hr. repeat (case_match; simplify_eq/=); repeat host_step.
Qed.

Lemma backup_append_start_host (b : backup) (w : world) (r : Z) (b' : backup)
    (w' : world) :
  backup_append_start b w = Ret (r, b', w') -> same_host w w'.
Proof. apply _append_start_host. Qed.

Lemma backup_append_host (b : backup) (dl : dlist) (ts : Z) (w : world) (r : Z)
    (b' : backup) (w' : world) :
  backup_append b dl ts w = Ret (r, b', w') -> same_host w w'.
Proof.
  unfold backup_append, write_out, the_db, index_apply.
  intros Hr. repeat (case_match; simplify_eq/=); repeat host_step.
Qed.

Lemma backup_append_end_host (b : backup) (w : world) (r : Z) (b' : backup)
    (w' : world) :
  backup_append_end b w = Ret (r, b', w') -> same_host w w'.
Proof.
  unfold backup_append_end, the_db, sqldb_exec.
  intros Hr. repeat (case_match; simplify_eq/=); repeat host_step.
Qed.

Lemma append_all_host (cmds : list (dlist * Z)) :
  forall (b : backup) (w : world) (b' : backup) (w' : world),
  append_all cmds b w = Ret (b', w') -> same_host w w'.
Proof.
  induction cmds as [|[dl ts] cmds IH]; intros b w b' w' Hr; simpl in Hr.
  - injection Hr as <- <-. apply same_host_refl.
  - apply bind_ret_inv in Hr as ([[r b1] w1] & Happ & Hr).
    eapply same_host_trans; [by eapply backup_append_host|by eapply IH].
Qed.

Lemma next_id_above (rows : list row) :
  Forall (fun r => row_id r < next_id rows) rows.
Proof.
  apply Forall_forall. intros r Hin.
  pose proof (row_id_le_max rows r Hin). unfold next_id. lia.
Qed.

Lemma latest_app_fresh (rows : list row) (r : row) :
  Forall (fun r' => row_id r' < row_id r) rows -> latest (rows ++ [r]) = Some r.
Proof.
  induction 1 as [|r' rows Hr' _ IH]; [done|].
  simpl. rewrite IH. destruct (row_id r' <? row_id r) eqn:E; [done|lia].
Qed.

Lemma raw_bytes_app (ms1 ms2 : list member) :
  raw_bytes (ms1 ++ ms2) = raw_bytes ms1 ++ raw_bytes ms2.
Proof. unfold raw_bytes. apply flat_map_app. Qed.

Lemma member_at_end (ms : list member) (m : member) :
  Forall (fun m' => m_raw m' <> []) ms ->
  member_at (ms ++ [m]) (Z.of_nat (length (raw_bytes ms))) = Some m.
Proof.
  induction 1 as [|m' ms Hm' _ IH]; [done|].
  cbn [app member_at]. change (raw_bytes (m' :: ms)) with (m_raw m' ++ raw_bytes ms).
  rewrite length_app.
  assert (0 < length (m_raw m'))%nat by (destruct (m_raw m'); simpl; [done|lia]).
  destruct (_ =? 0) eqn:E0; [apply Z.eqb_eq in E0; lia|].
  destruct (_ <? _) eqn:E1; [apply Z.ltb_lt in E1; lia|].
  rewrite <- IH. f_equal. lia.
Qed.

(** the handle and the index after [backup_append_end], in full *)
Lemma end_from_session_handle (b0 : backup) (d0 : sqldb) (ms : list member)
    (w0 : world) (lines : list log_line) (b : backup) (w : world)
    (ts offset : Z) (file_sha1 : string) :
  session_open b0 d0 ms w0 lines b w ->
  chunks_are b (t_chunk (db_tables d0)
                  ++ [start_row (next_id (t_chunk (db_tables d0))) ts offset
                        file_sha1]) ->
  next_id (t_chunk (db_tables d0)) < 2^31 ->
  exists b' w' d',
    backup_append_end b w = Ret (0, b', w') /\ append_state b' = None
    /\ data_fname b' = data_fname b0 /\ index_fname b' = index_fname b0
    /\ oldindex_fname b' = oldindex_fname b0 /\ fd b' = fd b0
    /\ db b' = Some d' /\ db_savepoint d' = None /\ db_step_rc d' = 0
    /\ db_close_rc d' = db_close_rc d0 /\ db_fname d' = db_fname d0
    /\ t_chunk (db_tables d')
       = t_chunk (db_tables d0)
           ++ [end_row_of (next_id (t_chunk (db_tables d0))) ts offset
                 file_sha1 (flat_map line_bytes lines)]
    /\ w_fs w' !! data_fname b0
       = Some (FData (ms ++ [{| m_raw := gz_image (flat_map line_bytes lines) true;
                                m_lines := lines |}]))
    /\ (forall path, path <> data_fname b0 ->
        w_fs w' !! path = w_fs w0 !! path).
Proof.
  intros (Hdf & Hif & Hof & Hfd & (st & gz & d & Hst & Hmode & Hgz & Herr
          & Hstarted & Hpend & Hflushed & Hgzf & Hid & Hctx & Hwrote & Hdb
          & Hrc & Hsp & Hcrc & Hdbf) & Hlog & Hothers) (d' & Hd' & Hrows)
         Hmax.
  rewrite wrap32_next_id in Hid by done.
  rewrite Hdb in Hd'. injection Hd' as <-.
  destruct st as [mode0 gzfile0 index_id0 wrote0 sha_ctx0].
  destruct gz as [gzn gzp gzfl gzs gze].
  simpl in Hmode, Hgz, Herr, Hstarted, Hpend, Hflushed, Hgzf, Hid, Hctx, Hwrote.
  subst.
  unfold backup_append_end. rewrite Hst.
  cbn -[sha1_hex Z.of_nat Z.land next_id].
  change (Z.land 0 BACKUP_APPEND_INDEXONLY =? 0) with true.
  cbn -[sha1_hex Z.of_nat Z.land next_id].
  unfold the_db. cbn -[sha1_hex Z.of_nat next_id]. rewrite Hdb.
  cbn -[sha1_hex Z.of_nat next_id]. unfold sqldb_exec. rewrite Hrc.
  cbn -[sha1_hex Z.of_nat next_id end_row].
  do 3 eexists. split; [reflexivity|]. split; [done|].
  cbn -[sha1_hex Z.of_nat next_id end_row]. split_and!; try done.
  - rewrite Hrows. apply end_row_last.
  - unfold gz_put. cbn -[Z.of_nat]. rewrite lookup_insert_eq. cbn.
    rewrite lookup_insert_eq. rewrite Hlog. cbn.
    by rewrite !removelast_last, !app_nil_r.
  - intros path Hne. unfold gz_put. cbn.
    rewrite !lookup_insert_ne by done. by apply Hothers.
Qed.

(** a store that NORMAL mode opens with the tables [t]: one with its index,
    or a fresh one *)
Lemma open_internal_ready (data index : string) (w : world)
    (ms : list member) (t : tables) :
  data <> index -> w_fs w !! data = Some (FData ms) ->
  w_errno w <> ENOENT ->
  w_fs w !! index = Some (FIndex t)
  \/ (ms = [] /\ t = empty_tables
      /\ (w_fs w !! index = None \/ w_fs w !! index = Some (FData []))) ->
  exists w',
    _open_internal data index BACKUP_OPEN_NORMAL w
    = Ret (Some (opened data index t w), w')
    /\ same_host w w' /\ w_fs w' !! data = Some (FData ms)
    /\ w_fs w' !! index = Some (FIndex t).
Proof.
  intros Hne Hlog Herrno [Hidx|(-> & -> & Hidx)].
  - exists w. rewrite (open_internal_indexed _ _ _ _ _ Hlog Hidx Herrno).
    split_and!; done.
  - eexists. rewrite (open_internal_fresh _ _ _ Hne (or_intror Hlog) Hidx).
    split; [reflexivity|]. split; [apply same_host_set_fs|]. cbn.
    rewrite lookup_insert_ne by done. by rewrite !lookup_insert_eq.
Qed.

(** What a session commits passes the validation of the next open.  On a
    store opened with its index named, a fresh store included, a session
    with any commands that is ended and closed leaves the new member in the
    log and, as the latest chunk row of the index file, the size and digest
    of the log before the session and the size and digest of what the
    member decodes to; [backup_open_paths] by the derived name then
    validates that row against the log and returns a handle. *)
Theorem session_passes_next_open (data : string) (w : world)
    (ms : list member) (t : tables) (cmds : list (dlist * Z)) :
  let index := data +:+ ".index" in
  let lines := chunk_lines (w_time w) cmds in
  let row := end_row_of (next_id (t_chunk t)) (w_time w)
               (Z.of_nat (length (raw_bytes ms))) (sha1_hex (raw_bytes ms))
               (flat_map line_bytes lines) in
  w_fs w !! data = Some (FData ms) ->
  w_fs w !! index = Some (FIndex t)
  \/ (ms = [] /\ t = empty_tables
      /\ (w_fs w !! index = None \/ w_fs w !! index = Some (FData []))) ->
  w_errno w <> ENOENT -> w_db_step_rc w = 0 -> w_db_close_rc w = 0 ->
  Forall (fun m => m_raw m <> []) ms ->
  next_id (t_chunk t) < 2^31 ->
  Z.of_nat (length (raw_bytes ms)) < 2^63 ->
  Z.of_nat (length (flat_map line_bytes lines)) < 2^63 ->
  index_keeps_chunks ->
  exists b0 w0 b1 w1 b2 w2 b3 w3 w4 b5 t',
    backup_open_paths data (Some index) w = Ret (Some b0, w0)
    /\ backup_append_start b0 w0 = Ret (0, b1, w1)
    /\ append_all cmds b1 w1 = Ret (b2, w2)
    /\ backup_append_end b2 w2 = Ret (0, b3, w3)
    /\ backup_close b3 w3 = Ret (0, w4)
    /\ w_fs w4 !! data
       = Some (FData (ms ++ [{| m_raw := gz_image (flat_map line_bytes lines) true;
                                m_lines := lines |}]))
    /\ w_fs w4 !! index = Some (FIndex t')
    /\ latest (t_chunk t') = Some row
    /\ backup_open_paths data None w4 = Ret (Some b5, w4)
    /\ _validate_checksums b5 w4 = Ret 0.
Proof.
  intros index lines row Hlog Hidx Herrno Hrc Hcrc Hraw Hid Hoff Hlen Hkeep.
  assert (Hne : index <> data) by (apply string_app_neq; simpl; lia).
  destruct (open_internal_ready data index w ms t ltac:(done) Hlog Herrno Hidx)
    as (w0 & Hopen & Hhost0 & Hlog0 & Hidx0).
  set (b0 := opened data index t w) in *.
  set (d0 := {| db_fname := index; db_tables := t; db_savepoint := None;
                db_lastid := 0; db_step_rc := w_db_step_rc w;
                db_close_rc := w_db_close_rc w |}).
  destruct (append_start_opens b0 d0 ms w0 eq_refl eq_refl Hrc
              ltac:(simpl; lia) Hlog0) as (b1 & w1 & Hstart & Hs1 & Hc1).
  destruct (append_all_keeps_session _ _ _ _ cmds _ _ _ Hs1)
    as (b2 & w2 & Hall & Hs2 & Hc2).
  specialize (Hc2 Hkeep _ Hc1).
  destruct (end_from_session_handle _ _ _ _ _ _ _ _ _ _ Hs2 Hc2 Hid)
    as (b3 & w3 & d3 & Hend & Hst3 & Hdf3 & Hif3 & Hof3 & Hfd3 & Hdb3 & Hsp3
        & Hrc3 & Hcrc3 & Hdbf3 & Hrows3 & Hlog3 & Hothers3).
  assert (Hhost : same_host w w3).
  { eapply same_host_trans; [exact Hhost0|].
    eapply same_host_trans; [by eapply backup_append_start_host|].
    eapply same_host_trans; [by eapply append_all_host|].
    by eapply backup_append_end_host. }
  destruct Hhost as (He3 & _ & _ & _ & _ & _ & Hsrc3 & Hscrc3).
  destruct Hhost0 as (_ & Htime0 & _).
  rewrite Htime0 in Hrows3, Hlog3. fold lines in Hrows3, Hlog3.
  cbn [db_tables d0] in Hrows3.
  change (data_fname b0) with data in Hlog3.
  set (w4 := set_fs w3 (<[index := FIndex (db_tables d3)]> (w_fs w3))).
  assert (Hclose : backup_close b3 w3 = Ret (0, w4)).
  { unfold backup_close. rewrite Hst3. cbn [mbind res_bind]. rewrite Hdb3.
    unfold sqldb_close. rewrite Hsp3, Hcrc3, Hdbf3, Hof3.
    cbn. by rewrite Hcrc. }
  assert (Hlog4 : w_fs w4 !! data
                  = Some (FData (ms ++ [{| m_raw := gz_image (flat_map line_bytes lines) true;
                                           m_lines := lines |}]))).
  { unfold w4. cbn. rewrite lookup_insert_ne by done. exact Hlog3. }
  assert (Hidx4 : w_fs w4 !! index = Some (FIndex (db_tables d3))).
  { unfold w4. cbn. by rewrite lookup_insert_eq. }
  assert (Hlatest : latest (t_chunk (db_tables d3)) = Some row).
  { rewrite Hrows3. apply latest_app_fresh. apply next_id_above. }
  set (b5 := opened data index (db_tables d3) w4).
  assert (Hval : _validate_checksums b5 w4 = Ret 0).
  { erewrite (validate_checksums_compares b5 _ w4); cycle 1.
    - reflexivity.
    - cbn. congruence.
    - cbn [db_tables]. exact Hlatest.
    - pose proof (next_id_pos (t_chunk t)). rewrite wrap32_small; lia.
    - lia.
    - lia.
    - cbn [data_fname b5 opened]. rewrite Hlog4. cbn [members_of].
      rewrite raw_bytes_app, Nat2Z.id, take_app_length.
      rewrite strncmp_refl. cbn [negb Z.eqb].
      unfold gzuc_member_data. rewrite member_at_end by done.
      unfold m_data. cbn [m_lines]. rewrite Z.eqb_refl. cbn [negb].
      apply f_equal, strncmp_refl. }
  exists b0, w0, b1, w1, b2, w2, b3, w3, w4, b5, (db_tables d3).
  split_and!; try done.
  unfold backup_open_paths. fold index.
  rewrite (open_internal_indexed data index w4 _ _ Hlog4 Hidx4)
    by (unfold w4; cbn; congruence).
  cbn [mbind res_bind]. fold b5. rewrite Hval. reflexivity.
Qed.

(** *** More on reindex *)

(** how [backup_reindex] starts: the index is moved to its .old name if
    there is one, a fresh index is opened, and the loop runs over the
    members of the log from offset 0 *)
Lemma backup_reindex_opens (name : string) (r0 : Z) (w : world)
    (ms : list member) :
  w_fs w !! name = Some (FData ms) \/ (w_fs w !! name = None /\ ms = []) ->
  exists b0 d0 w1,
    backup_reindex name r0 w
    = ('(r, b, w) ← reindex_members ms 0 (-1) b0 w1 r0;
       '(_, w) ← backup_close b w; Ret (r, w))
    /\ append_state b0 = None /\ db b0 = Some d0
    /\ db_step_rc d0 = w_db_step_rc w /\ db_savepoint d0 = None
    /\ db_tables d0 = empty_tables /\ db_close_rc d0 = w_db_close_rc w
    /\ db_fname d0 = name +:+ ".index"
    /\ data_fname b0 = name /\ index_fname b0 = name +:+ ".index"
    /\ oldindex_fname b0 = Some ((name +:+ ".index") +:+ ".old")
    /\ w_fs w1 !! name = Some (FData ms)
    /\ w_fs w1 !! (name +:+ ".index") = Some (FIndex empty_tables)
    /\ w_fs w1 !! ((name +:+ ".index") +:+ ".old")
       = (if w_fs w !! (name +:+ ".index") is Some f then Some f
          else w_fs w !! ((name +:+ ".index") +:+ ".old"))
    /\ w_errno w1 = (if w_fs w !! (name +:+ ".index") is Some _
                     then w_errno w else ENOENT)
    /\ w_db_close_rc w1 = w_db_close_rc w /\ w_db_step_rc w1 = w_db_step_rc w.
Proof.
  intros Hlog.
  set (index := name +:+ ".index"). set (old := index +:+ ".old").
  assert (Hni : name <> index) by (symmetry; by apply string_app_neq; simpl; lia).
  assert (Hio : index <> old) by (symmetry; by apply string_app_neq; simpl; lia).
  assert (Hno : name <> old).
  { unfold old, index. intros E. apply (f_equal String.length) in E.
    rewrite !string_length_app in E. simpl in E. lia. }
  unfold backup_reindex, _open_internal. fold index. fold old.
  destruct (open_creat name w) as [fd0 wc] eqn:Hoc.
  assert (Hwc : w_fs wc !! name = Some (FData ms)
                /\ w_fs wc !! index = w_fs w !! index
                /\ w_fs wc !! old = w_fs w !! old
                /\ w_errno wc = w_errno w /\ w_db_step_rc wc = w_db_step_rc w
                /\ w_db_close_rc wc = w_db_close_rc w /\ fd0 = 3).
  { unfold open_creat in Hoc. destruct Hlog as [Hlog|[Hlog ->]];
      rewrite Hlog in Hoc; injection Hoc as <- <-; cbn; split_and!; try done.
    - by rewrite lookup_insert_eq.
    - by rewrite lookup_insert_ne.
    - by rewrite lookup_insert_ne. }
  destruct Hwc as (Hlogc & Hidxc & Holdc & Herrc & Hrcc & Hcrcc & ->).
  destruct (rename index old wc) as [rr w0] eqn:Hren.
  assert (Hw0 : negb (rr =? 0) && negb (w_errno w0 =? ENOENT) = false
                /\ w_fs w0 !! index = None /\ w_fs w0 !! name = Some (FData ms)
                /\ w_fs w0 !! old = (if w_fs w !! index is Some f then Some f
                                      else w_fs w !! old)
                /\ w_errno w0 = (if w_fs w !! index is Some _
                                 then w_errno w else ENOENT)
                /\ w_db_step_rc w0 = w_db_step_rc w
                /\ w_db_close_rc w0 = w_db_close_rc w).
  { unfold rename in Hren. rewrite Hidxc in Hren.
    destruct (w_fs w !! index) as [f|] eqn:Hidx; injection Hren as <- <-; cbn.
    - split_and!; try done.
      + rewrite lookup_insert_ne by done. by rewrite lookup_delete_eq.
      + rewrite lookup_insert_ne by done. by rewrite lookup_delete_ne.
      + by rewrite lookup_insert_eq.
    - split_and!; done. }
  destruct Hw0 as (Hcond & Hidx0 & Hlog0 & Hold0 & Herr0 & Hrc0 & Hcrc0).
  rewrite Hcond. unfold sqldb_open. rewrite Hidx0.
  cbn [mbind res_bind set_db fd data_fname index_fname oldindex_fname
       append_state db].
  match goal with
  | |- context [reindex_members _ 0 (-1) ?b ?w' r0] => set (w1 := w'); set (b0 := b)
  end.
  assert (Hlog1 : w_fs w1 !! name = Some (FData ms)).
  { unfold w1. cbn. by rewrite lookup_insert_ne. }
  rewrite Hlog1. cbn [members_of].
  eexists b0, _, w1. split; [reflexivity|]. unfold b0. cbn.
  split_and!; try done.
  - by rewrite lookup_insert_eq.
  - rewrite lookup_insert_ne by done. exact Hold0.
Qed.

Lemma member_ts_after_cons (prev : Z) (m : member) (ms : list member) :
  member_ts_after prev (m :: ms)
  = member_ts_after (first_ts (commands_of (m_lines m))) ms.
Proof.
  unfold member_ts_after. destruct ms as [|m' ms]; [done|].
  rewrite last_cons_cons.
  destruct (last (m' :: ms)) eqn:E; [done|].
  by apply last_None in E.
Qed.

(** the outer loop over members that are let through *)
Lemma reindex_members_prefix (w : world) (ms1 ms2 : list member) :
  forall (member_offset prev_member_ts : Z) (b0 : backup) (d0 : sqldb) (r : Z),
  all_accepted prev_member_ts ms1 ->
  append_state b0 = None -> db b0 = Some d0 -> db_step_rc d0 = 0 ->
  exists b' d' r',
    reindex_members (ms1 ++ ms2) member_offset prev_member_ts b0 w r
    = reindex_members ms2
        (member_offset + Z.of_nat (length (raw_bytes ms1)))
        (member_ts_after prev_member_ts ms1) b' w r'
    /\ append_state b' = None /\ db b' = Some d' /\ db_step_rc d' = 0.
Proof.
  induction ms1 as [|m ms1 IH];
    intros member_offset prev_member_ts b0 d0 r Hacc Hst Hdb Hrc.
  - exists b0, d0, r. cbn. rewrite Z.add_0_r. done.
  - destruct Hacc as [Hacc Hrest].
    destruct (reindex_member_step b0 d0 w m (ms1 ++ ms2) member_offset
                prev_member_ts r Hacc Hst Hdb Hrc)
      as (b1 & d1 & r1 & Hstep & Hst1 & _ & _ & _ & _ & Hdb1 & Hrc1 & _).
    destruct (IH (member_offset + Z.of_nat (length (m_raw m)))
                (first_ts (commands_of (m_lines m))) b1 d1 r1 Hrest Hst1 Hdb1
                Hrc1) as (b2 & d2 & r2 & Hrun & Hst2 & Hdb2 & Hrc2).
    exists b2, d2, r2. cbn [app]. rewrite Hstep, Hrun.
    split; [|done]. f_equal.
    + change (raw_bytes (m :: ms1)) with (m_raw m ++ raw_bytes ms1).
      rewrite length_app. lia.
    + by rewrite member_ts_after_cons.
Qed.

(** A member without a command line ends reindex: no session was started
    for it, and the [backup_append_end] that follows the member is fatal
    with EC_SOFTWARE.  A member that holds the header line alone, as a
    session without an append leaves it, is such a member. *)
Theorem reindex_member_without_command_is_fatal (name : string) (r0 : Z)
    (w : world) (ms1 : list member) (m : member) (rest : list member) :
  w_fs w !! name = Some (FData (ms1 ++ m :: rest)) -> w_db_step_rc w = 0 ->
  all_accepted (-1) ms1 -> commands_of (m_lines m) = [] ->
  backup_reindex name r0 w = Fatal "backup append not started" EC_SOFTWARE.
Proof.
  intros Hlog Hrc Hacc Hcmds.
  destruct (backup_reindex_opens name r0 w _ (or_introl Hlog))
    as (b0 & d0 & w1 & -> & Hst0 & Hdb0 & Hrc0 & _).
  rewrite Hrc in Hrc0.
  destruct (reindex_members_prefix w1 ms1 (m :: rest) 0 (-1) b0 d0 r0 Hacc Hst0
              Hdb0 Hrc0) as (b' & d' & r' & -> & Hst' & _).
  cbn [reindex_members]. rewrite reindex_lines_commands by lia.
  rewrite Hcmds. cbn. unfold backup_append_end. by rewrite Hst'.
Qed.

(** The order of members that reindex enforces: a member whose first
    command is older than the first command of the member before is fatal
    with EC_DATAERR. *)
Theorem reindex_member_older_is_fatal (name : string) (r0 : Z) (w : world)
    (ms1 : list member) (m : member) (rest : list member) (ts : Z)
    (cmd : string) (dl : dlist) (cmds : list (Z * string * dlist)) :
  w_fs w !! name = Some (FData (ms1 ++ m :: rest)) -> w_db_step_rc w = 0 ->
  all_accepted (-1) ms1 -> commands_of (m_lines m) = (ts, cmd, dl) :: cmds ->
  member_ts_after (-1) ms1 <> -1 -> ts < member_ts_after (-1) ms1 ->
  backup_reindex name r0 w
  = Fatal "member timestamp older than previous" EC_DATAERR.
Proof.
  intros Hlog Hrc Hacc Hcmds Hprev Hts.
  destruct (backup_reindex_opens name r0 w _ (or_introl Hlog))
    as (b0 & d0 & w1 & -> & Hst0 & Hdb0 & Hrc0 & _).
  rewrite Hrc in Hrc0.
  destruct (reindex_members_prefix w1 ms1 (m :: rest) 0 (-1) b0 d0 r0 Hacc Hst0
              Hdb0 Hrc0) as (b' & d' & r' & -> & Hst' & _).
  cbn [reindex_members]. rewrite reindex_lines_commands by lia.
  rewrite Hcmds. cbn [reindex_commands].
  rewrite reindex_line_older_member by done. reflexivity.
Qed.

Lemma reindex_commands_app (member_offset prev_member_ts : Z)
    (c1 c2 : list (Z * string * dlist)) (s : reindex_state) :
  reindex_commands member_offset prev_member_ts (c1 ++ c2) s
  = reindex_commands member_offset prev_member_ts c1 s
      ≫= reindex_commands member_offset prev_member_ts c2.
Proof.
  revert s. induction c1 as [|[[ts cmd] dl] c1 IH]; intros s; [done|].
  cbn [app reindex_commands].
  destruct (reindex_line _ _ s ts cmd dl) as [s'|]; [|done]. apply IH.
Qed.

(** The order of lines that reindex enforces: a command line older than
    the first command of its member is fatal with EC_DATAERR. *)
Theorem reindex_line_older_is_fatal (name : string) (r0 : Z) (w : world)
    (ms1 : list member) (m : member) (rest : list member) (ts1 : Z)
    (cmd1 : string) (dl1 : dlist) (mid : list (Z * string * dlist)) (ts : Z)
    (cmd : string) (dl : dlist) (post : list (Z * string * dlist)) :
  w_fs w !! name = Some (FData (ms1 ++ m :: rest)) -> w_db_step_rc w = 0 ->
  all_accepted (-1) ms1 ->
  commands_of (m_lines m) = (ts1, cmd1, dl1) :: mid ++ (ts, cmd, dl) :: post ->
  accepted (member_ts_after (-1) ms1) ((ts1, cmd1, dl1) :: mid) -> ts < ts1 ->
  backup_reindex name r0 w
  = Fatal "line timestamp older than previous" EC_DATAERR.
Proof.
  intros Hlog Hrc Hacc Hcmds Hfirst Hts.
  destruct (backup_reindex_opens name r0 w _ (or_introl Hlog))
    as (b0 & d0 & w1 & -> & Hst0 & Hdb0 & Hrc0 & _).
  rewrite Hrc in Hrc0.
  destruct (reindex_members_prefix w1 ms1 (m :: rest) 0 (-1) b0 d0 r0 Hacc Hst0
              Hdb0 Hrc0) as (b' & d' & r' & -> & Hst' & Hdb' & Hrc').
  cbn [reindex_members]. rewrite reindex_lines_commands by lia.
  rewrite Hcmds. rewrite app_comm_cons, reindex_commands_app.
  destruct (reindex_commands_member b' d' w1
              (0 + Z.of_nat (length (raw_bytes ms1)))
              (member_ts_after (-1) ms1) ts1 cmd1 dl1 mid r' Hfirst Hst' Hdb'
              Hrc') as (b2 & r2 & -> & _).
  cbn [mbind res_bind reindex_commands].
  rewrite reindex_line_older_line; [reflexivity| |done].
  destruct Hfirst as (Hne & _). done.
Qed.

(** On a log without a member, [backup_reindex] leaves a fresh index and
    answers what its result variable [r] held on entry: nothing has
    assigned it. *)
Theorem reindex_empty_log_returns_unset_result (name : string) (r0 : Z)
    (w : world) :
  w_fs w !! name = None \/ w_fs w !! name = Some (FData []) ->
  exists w',
    backup_reindex name r0 w = Ret (r0, w')
    /\ (w_db_close_rc w = 0 ->
        w_fs w' !! (name +:+ ".index") = Some (FIndex empty_tables)).
Proof.
  intros Hlog.
  assert (Hlog' : w_fs w !! name = Some (FData [])
                  \/ (w_fs w !! name = None /\ @nil member = [])) by tauto.
  destruct (backup_reindex_opens name r0 w [] Hlog')
    as (b0 & d0 & w1 & -> & Hst0 & Hdb0 & Hrc0 & Hsp0 & Ht0 & Hcrc0 & Hdbf0 & _
        & Hif0 & Hof0 & _).
  cbn [reindex_members mbind res_bind]. unfold backup_close.
  rewrite Hst0. cbn [mbind res_bind]. rewrite Hdb0. unfold sqldb_close.
  rewrite Hsp0, Ht0, Hcrc0, Hdbf0, Hof0. cbn [default].
  eexists. split; [reflexivity|]. intros ->. cbn. by rewrite lookup_insert_eq.
Qed.




(** *** More on the validation *)

Lemma nat_of_ascii_zero (c : ascii) : nat_of_ascii c = 0%nat -> c = "000"%char.
Proof.
  intros Hc. rewrite <- (ascii_nat_embedding c), Hc. reflexivity.
Qed.

(** [strncmp] over more characters than the second string has tells
    equal strings from different ones *)
Lemma strncmp_eq (n : nat) :
  forall a b : string,
  no_nul a = true -> no_nul b = true -> (String.length b < n)%nat ->
  strncmp a b n = 0 -> a = b.
Proof.
  induction n as [|n IH]; intros a b Ha Hb Hlen Hcmp; [lia|].
  destruct a as [|c1 a], b as [|c2 b]; simpl in *.
  - done.
  - apply andb_true_iff in Hb as [Hc _].
    assert (nat_of_ascii c2 = 0%nat) as Hz by lia.
    apply nat_of_ascii_zero in Hz as ->. done.
  - apply andb_true_iff in Ha as [Hc _].
    assert (nat_of_ascii c1 = 0%nat) as Hz by lia.
    apply nat_of_ascii_zero in Hz as ->. done.
  - apply andb_true_iff in Ha as [_ Ha]. apply andb_true_iff in Hb as [_ Hb].
    destruct (Ascii.eqb c1 c2) eqn:E.
    + apply Ascii.eqb_eq in E as ->. f_equal. apply IH; [done..|lia|done].
    + assert (nat_of_ascii c1 = nat_of_ascii c2) as Hz by lia.
      apply (f_equal ascii_of_nat) in Hz. rewrite !ascii_nat_embedding in Hz.
      subst. by rewrite Ascii.eqb_refl in E.
Qed.

Lemma hexdigit_not_nul (n : Z) : Ascii.eqb (SHA1.hexdigit n) "000"%char = false.
Proof.
  unfold SHA1.hexdigit. destruct (Z.to_nat n) as [|k]; [done|].
  do 16 (destruct k as [|k]; [done|]). done.
Qed.

Lemma bin_to_hex_no_nul (l : bytes) : no_nul (SHA1.bin_to_hex l) = true.
Proof.
  induction l as [|b l IH]; [done|]. cbn [SHA1.bin_to_hex no_nul].
  by rewrite !hexdigit_not_nul, IH.
Qed.

Lemma sha1_hex_no_nul (m : bytes) : no_nul (sha1_hex m) = true.
Proof. apply bin_to_hex_no_nul. Qed.

Lemma strncmp_sha1 (s : string) (m : bytes) :
  no_nul s = true -> strncmp s (sha1_hex m) 41 = 0 <-> s = sha1_hex m.
Proof.
  intros Hs. split.
  - apply strncmp_eq; [done|apply sha1_hex_no_nul|].
    rewrite sha1_hex_length. lia.
  - intros ->. apply strncmp_refl.
Qed.

(** The validation passes exactly when the latest chunk row agrees with
    the log: its file_sha1 is the digest of the raw bytes before its offset,
    its length is the number of bytes the member at its offset decodes to,
    and its data_sha1 is the digest of these bytes. *)
Theorem validate_checksums_passes_iff (b : backup) (d : sqldb) (w : world)
    (id ts offset length_ : Z) (ts_end : sqlval) (file_sha1 data_sha1 : string) :
  db b = Some d -> db_step_rc d = 0 ->
  latest (t_chunk (db_tables d))
  = Some [VInt id; VInt ts; ts_end; VInt offset; VInt length_;
          VText file_sha1; VText data_sha1] ->
  wrap32 id <> 0 -> 0 <= offset < 2^63 -> 0 <= length_ < 2^63 ->
  no_nul file_sha1 = true -> no_nul data_sha1 = true ->
  let ms := members_of (w_fs w !! data_fname b) in
  let data := gzuc_member_data ms offset in
  _validate_checksums b w = Ret 0
  <-> file_sha1 = sha1_hex (take (Z.to_nat offset) (raw_bytes ms))
      /\ Z.of_nat (length data) = length_
      /\ data_sha1 = sha1_hex data.
Proof.
  intros Hdb Hrc Hlatest Hid Hoff Hlen Hf Hd ms data.
  rewrite (validate_checksums_compares b d w id ts offset length_ ts_end
             file_sha1 data_sha1 Hdb Hrc Hlatest Hid Hoff Hlen).
  fold ms. fold data.
  rewrite <- (strncmp_sha1 file_sha1) by done.
  rewrite <- (strncmp_sha1 data_sha1) by done.
  destruct (strncmp file_sha1 _ 41 =? 0) eqn:E1; cbn [negb].
  - apply Z.eqb_eq in E1.
    destruct (Z.of_nat (length data) =? length_) eqn:E2; cbn [negb].
    + apply Z.eqb_eq in E2. split; [intros [= ->]; done|].
      intros (_ & _ & ->). done.
    + apply Z.eqb_neq in E2. split; [done|]. intros (_ & ? & _). done.
  - apply Z.eqb_neq in E1. split.
    + intros [= E]. done.
    + intros (? & _). done.
Qed.

Lemma member_at_app (ms extra : list member) (m : member) :
  forall off : Z,
  0 <= off -> member_at ms off = Some m ->
  member_at (ms ++ extra) off = Some m
  /\ off <= Z.of_nat (length (raw_bytes ms)).
Proof.
  induction ms as [|m' ms IH]; intros off Hoff Hat; [done|].
  cbn [app member_at] in *.
  change (raw_bytes (m' :: ms)) with (m_raw m' ++ raw_bytes ms).
  rewrite length_app.
  destruct (off =? 0) eqn:E0; [apply Z.eqb_eq in E0; split; [done|lia]|].
  destruct (off <? Z.of_nat (length (m_raw m'))) eqn:E1; [done|].
  apply Z.ltb_ge in E1.
  destruct (IH (off - Z.of_nat (length (m_raw m'))) ltac:(lia) Hat)
    as [IH1 IH2]. split; [done|lia].
Qed.

(** The validation never looks past the member of the latest chunk:
    members that follow it in the log, the unfinished member an aborted
    session leaves for one, do not change its answer. *)
Theorem validation_ignores_later_members (b : backup) (d : sqldb) (w : world)
    (ms extra : list member) (m : member) (id ts offset length_ : Z)
    (ts_end : sqlval) (file_sha1 data_sha1 : string) :
  db b = Some d -> db_step_rc d = 0 ->
  latest (t_chunk (db_tables d))
  = Some [VInt id; VInt ts; ts_end; VInt offset; VInt length_;
          VText file_sha1; VText data_sha1] ->
  wrap32 id <> 0 -> 0 <= offset < 2^63 -> 0 <= length_ < 2^63 ->
  w_fs w !! data_fname b = Some (FData ms) -> member_at ms offset = Some m ->
  _validate_checksums b
    (set_fs w (<[data_fname b := FData (ms ++ extra)]> (w_fs w)))
  = _validate_checksums b w.
Proof.
  intros Hdb Hrc Hlatest Hid Hoff Hlen Hlog Hat.
  destruct (member_at_app ms extra m offset ltac:(lia) Hat) as [Hat' Hle].
  rewrite !(validate_checksums_compares b d _ id ts offset length_ ts_end
              file_sha1 data_sha1 Hdb Hrc Hlatest Hid Hoff Hlen).
  cbn [set_fs w_fs]. rewrite lookup_insert_eq, Hlog. cbn [members_of].
  unfold gzuc_member_data. rewrite Hat, Hat'.
  rewrite raw_bytes_app, take_app_le by lia. reflexivity.
Qed.

(** *** More on sessions and close *)

(** [backup_open] for a user whose recorded store has no chunk yet, the
    log missing or empty and the index missing or empty, creates both files
    and returns no handle: the validation finds no chunk row. *)
Theorem backup_open_fresh_store_refused (userid path : string) (w : world) :
  w_backups_db w !! userid = Some path -> (0 < String.length path)%nat ->
  w_fs w !! path = None \/ w_fs w !! path = Some (FData []) ->
  w_fs w !! (path +:+ ".index") = None
  \/ w_fs w !! (path +:+ ".index") = Some (FData []) ->
  exists w',
    backup_open userid w = Ret (None, w')
    /\ w_fs w' !! path = Some (FData [])
    /\ w_fs w' !! (path +:+ ".index") = Some (FIndex empty_tables).
Proof.
  intros Hdir Hlen Hlog Hindex.
  assert (Hne : path <> path +:+ ".index").
  { symmetry. apply string_app_neq. simpl. lia. }
  unfold backup_open, backup_get_paths. rewrite Hdir.
  destruct (String.length path =? 0)%nat eqn:E; [apply Nat.eqb_eq in E; lia|].
  cbn [negb Z.eqb].
  rewrite (open_internal_fresh path (path +:+ ".index") w Hne Hlog Hindex).
  cbn [mbind res_bind].
  rewrite (validate_no_chunk (opened path (path +:+ ".index") empty_tables w)
             _ _ eq_refl eq_refl).
  cbn [mbind res_bind]. simpl negb. cbv iota.
  unfold backup_close, sqldb_close, opened. cbn.
  eexists. split; [reflexivity|]. cbn.
  rewrite lookup_insert_eq. rewrite lookup_insert_ne by done.
  rewrite lookup_insert_ne by done. by rewrite lookup_insert_eq.
Qed.

(** [backup_close] on a handle with a session open ends the session: the
    chunk row is completed and committed, the member is closed in the log,
    and the index file holds the row.  The id of the row is within the
    range of the [int] that the session keeps it in. *)
Theorem close_ends_open_session (b0 : backup) (d0 : sqldb) (ms : list member)
    (w0 : world) (cmds : list (dlist * Z)) :
  append_state b0 = None -> db b0 = Some d0 -> db_step_rc d0 = 0 ->
  db_close_rc d0 = 0 -> 0 <= fd b0 ->
  w_fs w0 !! data_fname b0 = Some (FData ms) -> db_fname d0 <> data_fname b0 ->
  index_keeps_chunks -> next_id (t_chunk (db_tables d0)) < 2^31 ->
  let data := flat_map line_bytes (chunk_lines (w_time w0) cmds) in
  exists b1 w1 b2 w2 w3 t,
    backup_append_start b0 w0 = Ret (0, b1, w1)
    /\ append_all cmds b1 w1 = Ret (b2, w2)
    /\ append_state b2 <> None
    /\ backup_close b2 w2 = Ret (0, w3)
    /\ w_fs w3 !! db_fname d0 = Some (FIndex t)
    /\ t_chunk t
       = t_chunk (db_tables d0)
           ++ [end_row_of (next_id (t_chunk (db_tables d0))) (w_time w0)
                 (Z.of_nat (length (raw_bytes ms))) (sha1_hex (raw_bytes ms))
                 data]
    /\ w_fs w3 !! data_fname b0
       = Some (FData (ms ++ [{| m_raw := gz_image data true;
                                m_lines := chunk_lines (w_time w0) cmds |}])).
Proof.
  intros Hst Hdb Hrc Hcrc Hfd Hlog Hne Hkeep Hid data.
  destruct (append_start_opens b0 d0 ms w0 Hst Hdb Hrc Hfd Hlog)
    as (b1 & w1 & Hstart & Hs1 & Hc1).
  destruct (append_all_keeps_session _ _ _ _ cmds _ _ _ Hs1)
    as (b2 & w2 & Hall & Hs2 & Hc2).
  specialize (Hc2 Hkeep _ Hc1).
  destruct (end_from_session_handle _ _ _ _ _ _ _ _ _ _ Hs2 Hc2 Hid)
    as (b3 & w3 & d3 & Hend & Hst3 & Hdf3 & Hif3 & Hof3 & Hfd3 & Hdb3 & Hsp3
        & Hrc3 & Hcrc3 & Hdbf3 & Hrows3 & Hlog3 & Hothers3).
  assert (Hst2 : append_state b2 <> None).
  { destruct Hs2 as (_ & _ & _ & _ & (st & _ & _ & -> & _) & _). done. }
  exists b1, w1, b2, w2,
    (set_fs w3 (<[db_fname d0 := FIndex (db_tables d3)]> (w_fs w3))),
    (db_tables d3).
  split_and!; try done.
  - unfold backup_close. destruct (append_state b2); [|done].
    rewrite Hend. cbn [mbind res_bind]. rewrite Hdb3. unfold sqldb_close.
    rewrite Hsp3, Hcrc3, Hcrc, Hdbf3. cbn.
    destruct (oldindex_fname b3); reflexivity.
  - cbn. by rewrite lookup_insert_eq.
  - cbn. rewrite lookup_insert_ne by done. exact Hlog3.
Qed.

(** [backup_append] hands [backup_index] the place of the line it wrote,
    under the chunk id the session keeps (the id of the chunk row, cut to
    an [int]): the offset is the number of decoded bytes of the chunk
    before the line, the header line included, the length is that of the
    line, and the member in the log decodes to exactly the line at that
    place; the answer of [backup_index] is the answer of
    [backup_append]. *)
Theorem append_indexes_line_where_it_lies (b0 : backup) (d0 : sqldb)
    (ms : list member) (w0 : world) (cmds : list (dlist * Z)) (dl : dlist)
    (ts : Z) :
  append_state b0 = None -> db b0 = Some d0 -> db_step_rc d0 = 0 ->
  0 <= fd b0 -> w_fs w0 !! data_fname b0 = Some (FData ms) ->
  let lines := chunk_lines (w_time w0) cmds in
  let start := Z.of_nat (length (flat_map line_bytes lines)) in
  let line := line_bytes (Command ts "APPLY" dl) in
  exists b1 w1 b2 w2 d2 b3 w3 d3 m,
    backup_append_start b0 w0 = Ret (0, b1, w1)
    /\ append_all cmds b1 w1 = Ret (b2, w2) /\ db b2 = Some d2
    /\ let answer := backup_index (db_tables d2)
                       (wrap32 (next_id (t_chunk (db_tables d0)))) dl start
                       (Z.of_nat (length line)) in
       backup_append b2 dl ts w2 = Ret (answer.1, b3, w3)
       /\ db b3 = Some d3 /\ db_tables d3 = answer.2
       /\ w_fs w3 !! data_fname b0 = Some (FData (ms ++ [m]))
       /\ take (length line) (drop (Z.to_nat start) (m_data m)) = line.
Proof.
  intros Hst Hdb Hrc Hfd Hlog lines start line.
  destruct (append_start_opens b0 d0 ms w0 Hst Hdb Hrc Hfd Hlog)
    as (b1 & w1 & Hstart & Hs1 & _).
  destruct (append_all_keeps_session _ _ _ _ cmds _ _ _ Hs1)
    as (b2 & w2 & Hall & Hs2 & _).
  change ([Comment (header_line (w_time w0))]
            ++ map (fun '(dl, ts) => Command ts "APPLY" dl) cmds)
    with lines in Hs2.
  clearbody lines.
  destruct Hs2 as (Hdf & Hif & Hof & Hfd2 & (st & gz & d & Hst2 & Hmode & Hgz
          & Herr & Hstarted & Hpend & Hflushed & Hgzf & Hid & Hctx & Hwrote
          & Hdb2 & Hrc2 & Hsp & Hcrc & Hdbf) & Hlog2 & Hothers).
  destruct st as [mode0 gzfile0 index_id0 wrote0 sha_ctx0].
  destruct gz as [gzn gzp gzfl gzs gze].
  simpl in Hmode, Hgz, Herr, Hstarted, Hpend, Hflushed, Hgzf, Hid, Hctx, Hwrote.
  subst mode0 gzfile0 gze gzs gzp gzfl gzn index_id0 sha_ctx0 wrote0.
  exists b1, w1, b2, w2, d.
  unfold backup_append. rewrite Hst2.
  cbn -[line_bytes Z.of_nat Z.land wrap32 next_id]. unfold write_out.
  change (Z.land 0 BACKUP_APPEND_INDEXONLY =? 0) with true.
  cbn -[line_bytes Z.of_nat Z.land wrap32 next_id]. unfold gzwrite.
  cbn -[line_bytes Z.of_nat Z.land wrap32 next_id].
  rewrite line_bytes_command_pos.
  change (Z.land 0 BACKUP_APPEND_NOFLUSH =? 0) with true.
  cbn -[line_bytes Z.of_nat Z.land wrap32 next_id].
  unfold the_db. cbn -[line_bytes Z.of_nat wrap32 next_id]. rewrite Hdb2.
  cbn -[line_bytes Z.of_nat wrap32 next_id]. unfold index_apply. rewrite Hrc2.
  cbn -[line_bytes Z.of_nat wrap32 next_id]. fold start. fold line.
  destruct (backup_index (db_tables d) _ dl start _) as [r t] eqn:Hbi.
  do 4 eexists. split; [done|]. split; [done|]. split; [done|].
  cbn -[line_bytes Z.of_nat wrap32 next_id].
  split; [reflexivity|]. cbn -[line_bytes Z.of_nat wrap32 next_id].
  split; [reflexivity|]. split; [reflexivity|]. split.
  - unfold gz_put. cbn -[line_bytes Z.of_nat wrap32 next_id]. rewrite Hlog2.
    cbn -[line_bytes Z.of_nat wrap32 next_id]. rewrite lookup_insert_eq.
    rewrite removelast_last. reflexivity.
  - unfold m_data. cbn [m_lines]. rewrite flat_map_app.
    unfold start. rewrite Nat2Z.id, drop_app_length.
    cbn [flat_map]. rewrite app_nil_r. fold line. apply firstn_all.
Qed.
End EngineProperties.

(** ** Runs on the sample store *)

#[local] Existing Instance sample.

Lemma open_normal_gate_witness :
  (exists w',
     _open_internal "log" "log.index" BACKUP_OPEN_NORMAL unindexed_world
     = Ret (None, w')
     /\ w_syslog w' = ["reindex needed: log.index"]
     /\ w_fs w' = w_fs unindexed_world)
  /\ (exists b w',
        _open_internal "log" "log.index" BACKUP_OPEN_NORMAL empty_world
        = Ret (Some b, w')
        /\ data_fname b = "log" /\ index_fname b = "log.index"
        /\ append_state b = None
        /\ (exists d, db b = Some d /\ db_tables d = empty_tables
                      /\ db_savepoint d = None)
        /\ w_fs w' !! "log.index" = Some (FIndex empty_tables)
        /\ w_syslog w' = []).
Proof.
  split.
  - apply (open_normal_gate "log" "log.index" unindexed_world);
      [left; reflexivity | reflexivity].
  - apply (open_normal_gate "log" "log.index" empty_world);
      [left; reflexivity | reflexivity].
Defined.



Lemma sample_keeps_chunks : index_keeps_chunks.
Proof.
  intros t index_id dl start len. simpl. unfold sample_index.
  repeat case_match; done.
Qed.

Lemma append_end_commits_chunk_witness :
  let b0 := handle_on good_index 0 in
  let ms := [one_apply 1700000000] in
  let cmds := [(mailbox_cmd, 1700000065); (message_cmd, 1700000066)] in
  let data := flat_map line_bytes (chunk_lines 1700000000 cmds) in
  (exists b1 w1 b2 w2 b3 w3 st2 d3,
     backup_append_start b0 good_world = Ret (0, b1, w1)
     /\ append_all cmds b1 w1 = Ret (b2, w2)
     /\ append_state b2 = Some st2
     /\ wrote st2 = Z.of_nat (length data) /\ sha_ctx st2 = data
     /\ backup_append_end b2 w2 = Ret (0, b3, w3)
     /\ append_state b3 = None /\ db b3 = Some d3 /\ db_savepoint d3 = None
     /\ t_chunk (db_tables d3)
        = t_chunk good_index
            ++ [[VInt (index_id st2); VInt 1700000000; VNull;
                 VInt (Z.of_nat (length (raw_bytes ms)));
                 VInt (wrote st2);
                 VText (sha1_hex (raw_bytes ms));
                 VText (sha1_hex data)]]
     /\ w_fs w3 !! "log"
        = Some (FData (ms ++ [{| m_raw := stored_image data true;
                                 m_lines := chunk_lines 1700000000 cmds |}])))
  /\ let header := bytes_of "# cyrus backup: chunk start 1700000000" ++ CRLF in
     run_session "log" "log.index" [] empty_world
     = Ret (Some [VInt 1; VInt 1700000000; VNull; VInt 0;
                  VInt (Z.of_nat (length header)); VText (sha1_hex []);
                  VText (sha1_hex header)]).
Proof.
  intros b0 ms cmds data.
  exact (append_end_commits_chunk b0 (index_on good_index 0) ms good_world
           cmds eq_refl eq_refl eq_refl ltac:(vm_compute; congruence) eq_refl
           sample_keeps_chunks eq_refl).
Defined.

Lemma append_abort_restores_index_witness :
  let b0 := handle_on good_index 0 in
  let ms := [one_apply 1700000000] in
  let cmds := [(mailbox_cmd, 1700000065); (message_cmd, 1700000066)] in
  exists b1 w1 b2 w2 b3 d3,
    backup_append_start b0 good_world = Ret (0, b1, w1)
    /\ append_all cmds b1 w1 = Ret (b2, w2)
    /\ backup_append_abort b2 = Ret (0, b3)
    /\ append_state b3 = None
    /\ db b3 = Some d3 /\ db_tables d3 = good_index
    /\ db_savepoint d3 = None
    /\ w_fs w2 !! "log"
       = Some (FData (ms ++ [{| m_raw :=
                                  stored_image
                                    (flat_map line_bytes
                                       (chunk_lines 1700000000 cmds)) false;
                                m_lines := chunk_lines 1700000000 cmds |}]))
    /\ (forall path, path <> "log" ->
        w_fs w2 !! path = w_fs good_world !! path).
Proof.
  intros b0 ms cmds.
  exact (append_abort_restores_index b0 (index_on good_index 0) ms good_world
           cmds eq_refl eq_refl eq_refl ltac:(vm_compute; congruence) eq_refl).
Defined.

Lemma two_members_accepted :
  all_accepted (-1) [one_apply 1700000000; one_apply 1700000060].
Proof.
  cbn. split_and!; try done; try (by left); try (right; lia).
Qed.



(** C6: a chunk whose third line is older than its second, and a chunk
    whose first command is older than its header line, both go through
    reindex, which returns 0 and commits their chunk rows, where the claim
    has them rejected: lines are compared with the first command of the
    member only, and the header line is skipped as a comment. *)
Theorem reindex_accepts_unordered_lines :
  match backup_reindex "log" 0 out_of_order_world with
  | Ret (r, w) =>
      r = 0
      /\ exists t, w_fs w !! "log.index" = Some (FIndex t)
                   /\ col 1 <$> latest (t_chunk t) = Some (VInt 1700000010)
  | Fatal _ _ => False
  end
  /\ match backup_reindex "log" 0 older_than_header_world with
     | Ret (r, w) =>
         r = 0
         /\ exists t, w_fs w !! "log.index" = Some (FIndex t)
                      /\ col 1 <$> latest (t_chunk t) = Some (VInt 1700000050)
     | Fatal _ _ => False
     end.
Proof.
  vm_compute. split_and!; try done; eexists; split; reflexivity.
Qed.

Lemma reindex_keeps_old_index_witness :
  exists r w' t,
    backup_reindex "log" 0 two_member_world = Ret (r, w')
    /\ (w_db_close_rc two_member_world = 0 ->
        w_fs w' !! "log.index" = Some (FIndex t)
        /\ w_fs w' !! "log.index.old" = Some (FIndex good_index))
    /\ (w_db_close_rc two_member_world <> 0 ->
        w_fs w' !! "log.index" = Some (FIndex good_index)
        /\ w_fs w' !! "log.index.old" = None).
Proof.
  exact (reindex_keeps_old_index "log" 0 two_member_world
           [one_apply 1700000000; one_apply 1700000060] (FIndex good_index)
           eq_refl two_members_accepted eq_refl eq_refl eq_refl).
Defined.

(** C7, as stated, fails: after a reindex that returns 0 the .old file is
    still there, with the previous index in it; and after a reindex that
    returns the error of a command, the .old file has not been renamed
    back: the index path holds the rebuilt index. *)
Lemma reindex_leaves_old_index :
  match backup_reindex "log" 0 good_world with
  | Ret (r, w) =>
      r = 0 /\ w_fs w !! "log.index.old" = Some (FIndex good_index)
  | Fatal _ _ => False
  end
  /\ match backup_reindex "log" 0 refused_world with
     | Ret (r, w) =>
         r <> 0
         /\ w_fs w !! "log.index.old" = Some (FIndex good_index)
         /\ w_fs w !! "log.index" <> Some (FIndex good_index)
     | Fatal _ _ => False
     end.
Proof. vm_compute. split_and!; congruence. Qed.

(** ** Runs of the further properties *)

Lemma open_paths_fresh_store_refused_witness :
  exists w',
    backup_open_paths "log" None empty_world = Ret (None, w')
    /\ w_fs w' !! "log" = Some (FData [])
    /\ w_fs w' !! "log.index" = Some (FIndex empty_tables)
    /\ exists b w'', backup_open_paths "log" (Some "log.index") empty_world
                     = Ret (Some b, w'').
Proof.
  apply (open_paths_fresh_store_refused "log" empty_world);
    left; reflexivity.
Defined.

Lemma backup_open_unindexed_store_crashes_witness :
  backup_open "alice" recorded_world = Fatal "null backup handle" 139
  /\ exists w', backup_open_paths "log" None recorded_world = Ret (None, w').
Proof.
  apply (backup_open_unindexed_store_crashes "alice" "log" recorded_world
           [one_apply 1700000000]);
    [reflexivity | simpl; lia | reflexivity | vm_compute; reflexivity
    | left; reflexivity].
Defined.

Lemma open_normal_reads_stale_errno_witness :
  _open_internal "log" "log.index" BACKUP_OPEN_NORMAL
    (set_errno good_world ENOENT)
  = Ret (None, syslog (set_errno good_world ENOENT) "reindex needed: log.index")
  /\ exists b, _open_internal "log" "log.index" BACKUP_OPEN_NORMAL good_world
               = Ret (Some b, good_world)
               /\ db b <> None.
Proof.
  split.
  - apply (open_normal_reads_stale_errno "log" "log.index"
             (set_errno good_world ENOENT) [one_apply 1700000000] good_index);
      [reflexivity | vm_compute; reflexivity | reflexivity | reflexivity].
  - apply (open_normal_reads_stale_errno "log" "log.index" good_world
             [one_apply 1700000000] good_index);
      [reflexivity | vm_compute; reflexivity | reflexivity
      | vm_compute; congruence].
Defined.

Lemma append_session_protocol_witness :
  backup_append_end (handle_on good_index 0) good_world
  = Fatal "backup append not started" EC_SOFTWARE
  /\ backup_append_start (broken_writer 0) good_world
     = Fatal "backup append already started" EC_SOFTWARE
  /\ exists b', backup_append_abort (broken_writer 0) = Ret (0, b')
                /\ backup_append_abort b'
                   = Fatal "backup append not started" EC_SOFTWARE
                /\ backup_append b' mailbox_cmd 1700000065 good_world
                   = Fatal "backup append not started" EC_SOFTWARE.
Proof.
  split_and!.
  - apply (append_session_protocol (handle_on good_index 0) good_world
             mailbox_cmd 1700000065). reflexivity.
  - eapply (append_session_protocol (broken_writer 0) good_world
              mailbox_cmd 1700000065); reflexivity.
  - eapply (append_session_protocol (broken_writer 0) good_world
              mailbox_cmd 1700000065); reflexivity.
Defined.

Lemma append_start_failure_leaves_header_witness :
  exists b1 w1,
    backup_append_start (handle_on good_index 1) good_world = Ret (-1, b1, w1)
    /\ append_state b1 = None
    /\ (exists d1, db b1 = Some d1 /\ db_tables d1 = good_index
                   /\ db_savepoint d1 = None)
    /\ w_fs w1 !! "log"
       = Some (FData [one_apply 1700000000;
                      {| m_raw := stored_image (header_line 1700000000) true;
                         m_lines := [Comment (header_line 1700000000)] |}]).
Proof.
  exact (append_start_failure_leaves_header (handle_on good_index 1)
           (index_on good_index 1) [one_apply 1700000000] good_world
           eq_refl eq_refl ltac:(vm_compute; congruence)
           ltac:(vm_compute; congruence) eq_refl).
Defined.

Lemma append_write_error_witness :
  backup_append (broken_writer Z_STREAM_ERROR) mailbox_cmd 1700000065 good_world
  = Fatal "gzwrite: invalid stream" EC_IOERR.
Proof.
  eapply (append_write_error (broken_writer Z_STREAM_ERROR) _ _ mailbox_cmd
            1700000065 good_world);
    [reflexivity | reflexivity | reflexivity | vm_compute; congruence
    | reflexivity].
Defined.

Lemma session_passes_next_open_witness :
  let cmds := [(mailbox_cmd, 1700000065); (message_cmd, 1700000066)] in
  let lines := chunk_lines 1700000000 cmds in
  let row := end_row_of 2 1700000000
               (Z.of_nat (length (raw_bytes [one_apply 1700000000])))
               (sha1_hex (raw_bytes [one_apply 1700000000]))
               (flat_map line_bytes lines) in
  exists b0 w0 b1 w1 b2 w2 b3 w3 w4 b5 t',
    backup_open_paths "log" (Some "log.index") good_world = Ret (Some b0, w0)
    /\ backup_append_start b0 w0 = Ret (0, b1, w1)
    /\ append_all cmds b1 w1 = Ret (b2, w2)
    /\ backup_append_end b2 w2 = Ret (0, b3, w3)
    /\ backup_close b3 w3 = Ret (0, w4)
    /\ w_fs w4 !! "log"
       = Some (FData ([one_apply 1700000000]
                        ++ [{| m_raw := stored_image (flat_map line_bytes lines) true;
                               m_lines := lines |}]))
    /\ w_fs w4 !! "log.index" = Some (FIndex t')
    /\ latest (t_chunk t') = Some row
    /\ backup_open_paths "log" None w4 = Ret (Some b5, w4)
    /\ _validate_checksums b5 w4 = Ret 0.
Proof.
  intros cmds lines row.
  exact (session_passes_next_open "log" good_world [one_apply 1700000000]
           good_index cmds eq_refl (or_introl eq_refl)
           ltac:(vm_compute; congruence) eq_refl eq_refl
           ltac:(repeat constructor; discriminate)
           ltac:(vm_compute; reflexivity) ltac:(vm_compute; reflexivity)
           ltac:(vm_compute; reflexivity) sample_keeps_chunks).
Defined.

Lemma reindex_member_without_command_is_fatal_witness :
  backup_reindex "log" 0 (log_world [one_apply 1700000000; header_only])
  = Fatal "backup append not started" EC_SOFTWARE.
Proof.
  apply (reindex_member_without_command_is_fatal "log" 0
           (log_world [one_apply 1700000000; header_only])
           [one_apply 1700000000] header_only []);
    [reflexivity | reflexivity | | reflexivity].
  cbn. split_and!; try done. by left.
Defined.

Lemma reindex_member_older_is_fatal_witness :
  backup_reindex "log" 0
    (log_world [one_apply 1700000060; one_apply 1700000000])
  = Fatal "member timestamp older than previous" EC_DATAERR.
Proof.
  eapply (reindex_member_older_is_fatal "log" 0
            (log_world [one_apply 1700000060; one_apply 1700000000])
            [one_apply 1700000060] (one_apply 1700000000) []);
    [reflexivity | reflexivity | | reflexivity | vm_compute; congruence
    | vm_compute; reflexivity].
  cbn. split_and!; try done. by left.
Defined.

Lemma reindex_line_older_is_fatal_witness :
  backup_reindex "log" 0 (log_world [older_line])
  = Fatal "line timestamp older than previous" EC_DATAERR.
Proof.
  eapply (reindex_line_older_is_fatal "log" 0 (log_world [older_line])
            [] older_line [] 1700000010 "APPLY" mailbox_cmd []
            1700000005 "APPLY" expunge_cmd []);
    [reflexivity | reflexivity | exact I | reflexivity | | lia].
  cbn. split_and!; try done. by left.
Defined.

Lemma reindex_empty_log_returns_unset_result_witness :
  exists w',
    backup_reindex "log" 7 empty_world = Ret (7, w')
    /\ (w_db_close_rc empty_world = 0 ->
        w_fs w' !! "log.index" = Some (FIndex empty_tables)).
Proof.
  apply (reindex_empty_log_returns_unset_result "log" 7 empty_world).
  left. reflexivity.
Defined.



Lemma validate_checksums_passes_iff_witness :
  _validate_checksums (handle_on good_index 0) good_world = Ret 0
  /\ _validate_checksums (handle_on stale_index 0) good_world <> Ret 0.
Proof.
  split.
  - apply (validate_checksums_passes_iff (handle_on good_index 0)
             (index_on good_index 0) good_world 1 1700000000 0 118 VNull
             "da39a3ee5e6b4b0d3255bfef95601890afd80709"
             "db25df0b76a0655d7f81fff3acd7aa32b913f5e0");
      [reflexivity | reflexivity | reflexivity | vm_compute; congruence
      | lia | lia | reflexivity | reflexivity |].
    vm_compute. repeat split.
  - intros Hval.
    apply (validate_checksums_passes_iff (handle_on stale_index 0)
             (index_on stale_index 0) good_world 1 1700000000 0 118 VNull
             "da39a3ee5e6b4b0d3255bfef95601890afd80709"
             "db25df0b76a0655d7f81fff3acd7aa32b913f5e1") in Hval;
      [| reflexivity | reflexivity | reflexivity | vm_compute; congruence
       | lia | lia | reflexivity | reflexivity].
    destruct Hval as (_ & _ & Hd). vm_compute in Hd. discriminate.
Defined.

Lemma validation_ignores_later_members_witness :
  _validate_checksums (handle_on good_index 0)
    (set_fs good_world
       (<["log" := FData ([one_apply 1700000000] ++ [header_only])]>
          (w_fs good_world)))
  = _validate_checksums (handle_on good_index 0) good_world.
Proof.
  apply (validation_ignores_later_members (handle_on good_index 0)
           (index_on good_index 0) good_world [one_apply 1700000000]
           [header_only] (one_apply 1700000000) 1 1700000000 0 118 VNull
           "da39a3ee5e6b4b0d3255bfef95601890afd80709"
           "db25df0b76a0655d7f81fff3acd7aa32b913f5e0");
    [reflexivity | reflexivity | reflexivity | vm_compute; congruence
    | lia | lia | reflexivity | reflexivity].
Defined.

Lemma backup_open_fresh_store_refused_witness :
  exists w',
    backup_open "alice" recorded_fresh_world = Ret (None, w')
    /\ w_fs w' !! "log" = Some (FData [])
    /\ w_fs w' !! "log.index" = Some (FIndex empty_tables).
Proof.
  apply (backup_open_fresh_store_refused "alice" "log" recorded_fresh_world);
    [reflexivity | simpl; lia | left; reflexivity | left; reflexivity].
Defined.

Lemma close_ends_open_session_witness :
  let cmds := [(mailbox_cmd, 1700000065); (message_cmd, 1700000066)] in
  let data := flat_map line_bytes (chunk_lines 1700000000 cmds) in
  exists b1 w1 b2 w2 w3 t,
    backup_append_start (handle_on good_index 0) good_world = Ret (0, b1, w1)
    /\ append_all cmds b1 w1 = Ret (b2, w2)
    /\ append_state b2 <> None
    /\ backup_close b2 w2 = Ret (0, w3)
    /\ w_fs w3 !! "log.index" = Some (FIndex t)
    /\ t_chunk t
       = t_chunk good_index
           ++ [end_row_of 2 1700000000
                 (Z.of_nat (length (raw_bytes [one_apply 1700000000])))
                 (sha1_hex (raw_bytes [one_apply 1700000000])) data]
    /\ w_fs w3 !! "log"
       = Some (FData ([one_apply 1700000000]
                        ++ [{| m_raw := stored_image data true;
                               m_lines := chunk_lines 1700000000 cmds |}])).
Proof.
  intros cmds data.
  exact (close_ends_open_session (handle_on good_index 0)
           (index_on good_index 0) [one_apply 1700000000] good_world cmds
           eq_refl eq_refl eq_refl eq_refl ltac:(vm_compute; congruence)
           eq_refl ltac:(discriminate) sample_keeps_chunks eq_refl).
Defined.

Lemma append_indexes_line_where_it_lies_witness :
  let cmds := [(mailbox_cmd, 1700000065)] in
  let lines := chunk_lines 1700000000 cmds in
  let start := Z.of_nat (length (flat_map line_bytes lines)) in
  let line := line_bytes (Command 1700000066 "APPLY" message_cmd) in
  exists b1 w1 b2 w2 d2 b3 w3 d3 m,
    backup_append_start (handle_on good_index 0) good_world = Ret (0, b1, w1)
    /\ append_all cmds b1 w1 = Ret (b2, w2) /\ db b2 = Some d2
    /\ let answer := sample_index (db_tables d2) 2 message_cmd start
                       (Z.of_nat (length line)) in
       backup_append b2 message_cmd 1700000066 w2 = Ret (answer.1, b3, w3)
       /\ db b3 = Some d3 /\ db_tables d3 = answer.2
       /\ w_fs w3 !! "log" = Some (FData ([one_apply 1700000000] ++ [m]))
       /\ take (length line) (drop (Z.to_nat start) (m_data m)) = line.
Proof.
  intros cmds lines start line.
  exact (append_indexes_line_where_it_lies (handle_on good_index 0)
           (index_on good_index 0) [one_apply 1700000000] good_world cmds
           message_cmd 1700000066 eq_refl eq_refl eq_refl
           ltac:(vm_compute; congruence) eq_refl).
Defined.

(** C3, as stated, fails past the range of [int]: on a store whose latest
    chunk has the id 2147483647 the row of a new session gets the id
    2147483648, the session keeps -2147483648, and [backup_append_end]
    answers 0 and commits the row as it was inserted, its length and
    data_sha1 still null. *)
Lemma append_end_past_int_range :
  (exists b0 b1 w1 st b3 w3 d3,
     backup_open_paths "log" (Some "log.index") last_id_world
     = Ret (Some b0, last_id_world)
     /\ backup_append_start b0 last_id_world = Ret (0, b1, w1)
     /\ append_state b1 = Some st /\ index_id st = -2147483648
     /\ backup_append_end b1 w1 = Ret (0, b3, w3)
     /\ db b3 = Some d3 /\ db_savepoint d3 = None
     /\ latest (t_chunk (db_tables d3))
        = Some [VInt 2147483648; VInt 1700000000; VNull;
                VInt (Z.of_nat (length (raw_bytes [one_apply 1700000000])));
                VNull; VText (sha1_hex (raw_bytes [one_apply 1700000000]));
                VNull])
  /\ run_session "log" "log.index" [] last_id_world
     = Ret (Some [VInt 2147483648; VInt 1700000000; VNull;
                  VInt (Z.of_nat (length (raw_bytes [one_apply 1700000000])));
                  VNull; VText (sha1_hex (raw_bytes [one_apply 1700000000]));
                  VNull]).
Proof.
  split; [|vm_compute; reflexivity].
  do 7 eexists. split; [vm_compute; reflexivity|].
  split; [vm_compute; reflexivity|].
  split; [reflexivity|]. split; [reflexivity|].
  split; [vm_compute; reflexivity|]. split; [reflexivity|].
  split; [reflexivity|]. vm_compute. reflexivity.
Qed.

(** Why reindex repairs only a store whose last member carries the time
    of its first command in its header: reindex hashes the header line of
    the time of the first command, so for a member whose header line
    carries the earlier time of its start it commits a row that the
    validation of the next open does not accept. *)
Lemma reindex_of_later_append_is_refused :
  exists w' b r w'',
    backup_reindex "log" 0 later_append_world = Ret (0, w')
    /\ backup_open_paths "log" (Some "log.index") w' = Ret (Some b, w')
    /\ _validate_checksums b w' = Ret r /\ r <> 0
    /\ backup_open_paths "log" None w' = Ret (None, w'').
Proof.
  do 4 eexists. split; [vm_compute; reflexivity|].
  split; [vm_compute; reflexivity|]. split; [vm_compute; reflexivity|].
  split; [vm_compute; congruence|]. vm_compute. reflexivity.
Qed.
